(** * DWSIM screening scripts: a shallow embedding

    The development follows [run_screening.py] (the parametric PFR and
    distillation sweeps and the CSV export) and the reaction-set assignment
    of [debug_pfr.py].

    Modelling conventions.
    - Python floats are IEEE binary64 numbers, taken from the specification
      of floating point numbers of the standard library ([spec_float]).
    - A Python [dict] is an association list in insertion order with
      distinct keys; assignment to a key overwrites in place or appends.
    - The DWSIM automation surface is an interface ([Automation]): every
      call threads the state of the outside world and either returns or
      raises an exception, of which only the text [str(e)] is kept.
    - A null returned where the script goes on to call a method is folded
      into the raising outcome of the call; nulls the script tests for
      ([if rs], [if prop], [err_list is None]) are [option]s.
    - A string is a sequence of characters that stand for the code points
      below 256.
    - The table writer the export calls belongs to the pandas library and
      is not among the sources; the export is modelled from the words of
      the specification, as said where it is defined.
    - Console output is not modelled. *)

From Stdlib Require Import ZArith List String Ascii Bool Lia.
From Stdlib Require Import Floats.SpecFloat.
Import ListNotations.

Open Scope string_scope.
Open Scope list_scope.

(* ------------------------------------------------------------------ *)
(** ** Python floats *)

Module PyFloat.

Definition prec : Z := 53.
Definition emax : Z := 1024.

Definition float := spec_float.

(** [float(z)] for an integer literal. *)
Definition of_Z (z : Z) : float := binary_normalize prec emax z 0 false.

Definition zero : float := S754_zero false.

Definition sub (x y : float) : float := SFsub prec emax x y.
Definition mul (x y : float) : float := SFmul prec emax x y.
Definition div (x y : float) : float := SFdiv prec emax x y.

(** [x < y]; false as soon as one side is a NaN. *)
Definition ltb (x y : float) : bool := SFltb x y.

Definition is_zero (x : float) : bool :=
  match x with S754_zero _ => true | _ => false end.

(** The literal [n/d] written in decimal, e.g. [0.95] is [decimal 95 100]:
    a correctly rounded quotient of two exactly representable integers is
    the double nearest to the written number. *)
Definition decimal (n d : Z) : float := div (of_Z n) (of_Z d).

End PyFloat.

Abbreviation float := PyFloat.float.

(* ------------------------------------------------------------------ *)
(** ** Values, dictionaries *)

(** What [GetPropertyValue] hands back: a [System.Double], an array of
    doubles, a string or null. *)
Inductive evalue : Type :=
| EFloat (f : float)
| EArr (l : list float)
| EStr (s : string)
| ENull.

(** Python scalars stored in the result dictionaries and passed to
    [SetPropertyValue]. *)
Inductive value : Type :=
| VNone
| VBool (b : bool)
| VInt (z : Z)
| VFloat (f : float)
| VStr (s : string)
| VFloats (l : list float).

Definition of_evalue (e : evalue) : value :=
  match e with
  | EFloat f => VFloat f
  | EArr l => VFloats l
  | EStr s => VStr s
  | ENull => VNone
  end.

Definition pydict := list (string * value).

Fixpoint dict_set (d : pydict) (k : string) (v : value) : pydict :=
  match d with
  | [] => [(k, v)]
  | (k', v') :: d' =>
      if String.eqb k' k then (k', v) :: d' else (k', v') :: dict_set d' k v
  end.

Fixpoint dict_get (d : pydict) (k : string) : option value :=
  match d with
  | [] => None
  | (k', v') :: d' => if String.eqb k' k then Some v' else dict_get d' k
  end.

Definition dict_keys (d : pydict) : list string := map fst d.

(* ------------------------------------------------------------------ *)
(** ** Exceptions and the state of a run *)

(** An exception is known by [str(e)]. *)
Definition exn := string.

Inductive res (A : Type) : Type :=
| Ok (a : A)
| Raise (e : exn).

Arguments Ok {A} a.
Arguments Raise {A} e.

(** Handles of .NET objects. *)
Definition obj := nat.

Inductive ObjectType : Type :=
| MaterialStream
| EnergyStream
| RCT_PFR
| ShortcutColumn.

Record Reaction : Type := { rxn_ID : string }.

Record ReactionSet : Type := { rs_ID : string; rs_Name : string }.

(** The arguments of [CreateKineticReaction], in the order of the call. *)
Record KineticReaction : Type := {
  kr_name : string;
  kr_description : string;
  kr_stoich : list (string * float);
  kr_direct_orders : list (string * float);
  kr_reverse_orders : list (string * float);
  kr_base_compound : string;
  kr_phase : string;
  kr_basis : string;
  kr_amount_unit : string;
  kr_rate_unit : string;
  kr_Af : float;
  kr_Ef : float;
  kr_Ar : float;
  kr_Er : float;
  kr_expr_f : string;
  kr_expr_r : string
}.

(** The automation surface of the engine, over the state [W] of the
    outside world. *)
Record Automation (W : Type) : Type := {
  (** [Automation3()] *)
  Automation3 : W -> res obj * W;
  (** [interf.CreateFlowsheet()] *)
  CreateFlowsheet : obj -> W -> res obj * W;
  (** [sim.AddCompound(name)] *)
  AddCompound : obj -> string -> W -> res unit * W;
  (** [sim.AddObject(kind, x, y, tag)] *)
  AddObject : obj -> ObjectType -> Z -> Z -> string -> W -> res obj * W;
  (** [o.SetPropertyValue(name, v)] *)
  SetPropertyValue : obj -> string -> value -> W -> res unit * W;
  (** [o.GetPropertyValue(name)] *)
  GetPropertyValue : obj -> string -> W -> res evalue * W;
  (** [o.ToString()] *)
  ToString : obj -> W -> res string * W;
  (** [o.GraphicObject] *)
  GraphicObject : obj -> W -> res obj * W;
  (** [sim.ConnectObjects(a, b, i, j)] *)
  ConnectObjects : obj -> obj -> obj -> Z -> Z -> W -> res unit * W;
  (** [sim.CreateKineticReaction(...)]; [None] is a null reaction *)
  CreateKineticReaction : obj -> KineticReaction -> W -> res (option Reaction) * W;
  (** [sim.ReactionSets]: null, or the entries in enumeration order *)
  ReactionSets : obj -> W -> res (option (list (string * option ReactionSet))) * W;
  (** [sim.AddReactionToSet(rxn_id, set_id, enabled, rank)] *)
  AddReactionToSet : obj -> string -> string -> bool -> Z -> W -> res unit * W;
  (** [sim.CreateReactionSet(name, description)] *)
  CreateReactionSet : obj -> string -> string -> W -> res (option ReactionSet) * W;
  (** [o.GetType()] *)
  GetType : obj -> W -> res obj * W;
  (** [t.GetProperty(name)]: null when the type has no such property *)
  GetProperty : obj -> string -> W -> res (option obj) * W;
  (** [prop.SetValue(target, v, None)] *)
  SetValue : obj -> obj -> value -> W -> res unit * W;
  (** [o.name = v] through pythonnet *)
  SetAttr : obj -> string -> value -> W -> res unit * W;
  (** [interf.CalculateFlowsheet2(sim)]: null, or the list of errors *)
  CalculateFlowsheet2 : obj -> option obj -> W -> res (option (list string)) * W;
  (** [str(err_list)] of a list returned by the solver *)
  str_errors : list string -> string;
  (** [from DWSIM.Interfaces import IMaterialStream] *)
  import_IMaterialStream : W -> res unit * W;
  (** [datetime.now().strftime("%H:%M:%S")] *)
  now_HMS : W -> string
}.

Arguments Automation3 {W} _ _.
Arguments CreateFlowsheet {W} _ _ _.
Arguments AddCompound {W} _ _ _ _.
Arguments AddObject {W} _ _ _ _ _ _ _.
Arguments SetPropertyValue {W} _ _ _ _ _.
Arguments GetPropertyValue {W} _ _ _ _.
Arguments ToString {W} _ _ _.
Arguments GraphicObject {W} _ _ _.
Arguments ConnectObjects {W} _ _ _ _ _ _ _.
Arguments CreateKineticReaction {W} _ _ _ _.
Arguments ReactionSets {W} _ _ _.
Arguments AddReactionToSet {W} _ _ _ _ _ _ _.
Arguments CreateReactionSet {W} _ _ _ _ _.
Arguments GetType {W} _ _ _.
Arguments GetProperty {W} _ _ _ _.
Arguments SetValue {W} _ _ _ _ _.
Arguments SetAttr {W} _ _ _ _ _.
Arguments CalculateFlowsheet2 {W} _ _ _ _.
Arguments str_errors {W} _ _.
Arguments import_IMaterialStream {W} _ _.
Arguments now_HMS {W} _ _.

(** The state of the script: the world, the fields of the one
    [SimulationManager] and the files written. *)
Record state (W : Type) : Type := mkState {
  world : W;
  mgr_interf : obj;
  mgr_sim : option obj;
  mgr_results : list pydict;
  files : list (string * string)
}.

Arguments mkState {W} _ _ _ _ _.
Arguments world {W} _.
Arguments mgr_interf {W} _.
Arguments mgr_sim {W} _.
Arguments mgr_results {W} _.
Arguments files {W} _.

(** Computations of the script. *)
Definition M (W A : Type) : Type := state W -> res A * state W.

Definition ret {W A} (a : A) : M W A := fun s => (Ok a, s).

Definition bind {W A B} (m : M W A) (k : A -> M W B) : M W B :=
  fun s =>
    match m s with
    | (Ok a, s') => k a s'
    | (Raise e, s') => (Raise e, s')
    end.

Definition raise {W A} (e : exn) : M W A := fun s => (Raise e, s).

(** [try: m  except Exception as e: h e]; what [m] did before raising
    stays done. *)
Definition try_except {W A} (m : M W A) (h : exn -> M W A) : M W A :=
  fun s =>
    match m s with
    | (Ok a, s') => (Ok a, s')
    | (Raise e, s') => h e s'
    end.

(** A call into the engine. *)
Definition call {W A} (f : W -> res A * W) : M W A :=
  fun s =>
    let (r, w') := f (world s) in
    (r, mkState w' (mgr_interf s) (mgr_sim s) (mgr_results s) (files s)).

(** A pure Python expression that may raise. *)
Definition eval {W A} (r : res A) : M W A := fun s => (r, s).

Declare Scope py_scope.
Delimit Scope py_scope with py.
Notation "x <- m ;; k" := (bind m (fun x => k))
  (at level 61, m at next level, right associativity) : py_scope.
Notation "' pat <- m ;; k" := (bind m (fun x => match x with pat => k end))
  (at level 61, pat pattern, m at next level, right associativity) : py_scope.
Notation "m ;; k" := (bind m (fun _ => k))
  (at level 61, right associativity) : py_scope.
Open Scope py_scope.

(** [for x in l: body x] *)
Fixpoint for_each {W A} (l : list A) (body : A -> M W unit) : M W unit :=
  match l with
  | [] => ret tt
  | x :: l' => body x ;; for_each l' body
  end.

(* ------------------------------------------------------------------ *)
(** ** [run_screening.py]: the simulation manager *)

Section Screening.

Context {W : Type}.
Variable E : Automation W.

(** [self.sim.<attr>]: an [AttributeError] while no flowsheet was made. *)
Definition self_sim (attr : string) : M W obj :=
  fun s =>
    match mgr_sim s with
    | Some o => (Ok o, s)
    | None =>
        (Raise ("'NoneType' object has no attribute '" ++ attr ++ "'")%string, s)
    end.

Definition self_interf : M W obj := fun s => (Ok (mgr_interf s), s).

Definition set_self_sim (o : obj) : M W unit :=
  fun s =>
    (Ok tt, mkState (world s) (mgr_interf s) (Some o) (mgr_results s) (files s)).

(** [SimulationManager.create_simulation] *)
Definition create_simulation : M W obj :=
  i <- self_interf ;;
  sim <- call (CreateFlowsheet E i) ;;
  set_self_sim sim ;;
  ret sim.

(** [SimulationManager.setup_compounds] *)
Definition setup_compounds (compounds : list string) : M W unit :=
  for_each compounds (fun comp =>
    try_except
      (sim <- self_sim "AddCompound" ;; call (AddCompound E sim comp))
      (fun _ => ret tt)).

(** [SimulationManager.add_material_stream] *)
Definition add_material_stream (name : string) (x y : Z)
    (temp_k pressure_pa mass_flow_kh compositions : value) : M W obj :=
  sim <- self_sim "AddObject" ;;
  stream <- call (AddObject E sim MaterialStream x y name) ;;
  call (SetPropertyValue E stream "Temperature" temp_k) ;;
  call (SetPropertyValue E stream "Pressure" pressure_pa) ;;
  call (SetPropertyValue E stream "MassFlow" mass_flow_kh) ;;
  call (SetPropertyValue E stream "OverallMolarComposition" compositions) ;;
  ret stream.

(** [sim.ConnectObjects(a.GraphicObject, b.GraphicObject, -1, -1)] *)
Definition connect (a b : obj) : M W unit :=
  sim <- self_sim "ConnectObjects" ;;
  ga <- call (GraphicObject E a) ;;
  gb <- call (GraphicObject E b) ;;
  call (ConnectObjects E sim ga gb (-1) (-1)).

(** [SimulationManager.add_pfr] *)
Definition add_pfr (name : string) (x y : Z)
    (inlet_stream outlet_stream energy_stream : obj) : M W obj :=
  sim <- self_sim "AddObject" ;;
  pfr <- call (AddObject E sim RCT_PFR x y name) ;;
  connect inlet_stream pfr ;;
  connect pfr outlet_stream ;;
  connect energy_stream pfr ;;
  ret pfr.

(** [SimulationManager.run_simulation] *)
Definition run_simulation : M W (bool * list string) :=
  fun s =>
    (err_list <- call (CalculateFlowsheet2 E (mgr_interf s) (mgr_sim s)) ;;
     match err_list with
     | None => ret (true, [])
     | Some l => ret (Nat.eqb (List.length l) 0, l)
     end) s.

(** [SimulationManager.log_result]. Both sweeps hand it a dictionary
    literal, an object nobody else holds, so the row is given by its
    value: the dictionary with the two keys set. What the method does to
    a dictionary that is shared is [log_result_shared], further down. *)
Definition log_result (case_type : string) (logs : pydict) : M W unit :=
  fun s =>
    let logs1 := dict_set logs "CaseType" (VStr case_type) in
    let logs2 := dict_set logs1 "Timestamp" (VStr (now_HMS E (world s))) in
    (Ok tt,
     mkState (world s) (mgr_interf s) (mgr_sim s)
             (mgr_results s ++ [logs2]) (files s)).

(** [str(errors) if not success else ""] *)
Definition error_text (success : bool) (errors : list string) : string :=
  if negb success then str_errors E errors else "".

(* ------------------------------------------------------------------ *)
(** ** Part A: [run_pfr_study] *)

(** The arguments of the [CreateKineticReaction] call (step 5). *)
Definition rxn1 : KineticReaction := {|
  kr_name := "Rxn-1";
  kr_description := "A->B First Order";
  kr_stoich := [("Water", PyFloat.of_Z (-1)); ("Ethanol", PyFloat.of_Z 1)];
  kr_direct_orders := [("Water", PyFloat.of_Z 1); ("Ethanol", PyFloat.zero)];
  kr_reverse_orders := [("Water", PyFloat.zero); ("Ethanol", PyFloat.zero)];
  kr_base_compound := "Water";
  kr_phase := "Mixture";
  kr_basis := "Molar Concentration";
  kr_amount_unit := "mol";
  kr_rate_unit := "mol/[m3.s]";
  kr_Af := PyFloat.decimal 5 1000;
  kr_Ef := PyFloat.zero;
  kr_Ar := PyFloat.zero;
  kr_Er := PyFloat.zero;
  kr_expr_f := "";
  kr_expr_r := ""
|}.

(** [if rs and rxn: manager.sim.AddReactionToSet(rxn.ID, rs.ID, True, 0)],
    which the other branch writes [if rxn and rs: ...]. *)
Definition add_reaction_to_set (rxn : option Reaction)
    (rs : option ReactionSet) : M W unit :=
  match rs, rxn with
  | Some rs', Some rxn' =>
      sim <- self_sim "AddReactionToSet" ;;
      call (AddReactionToSet E sim (rxn_ID rxn') (rs_ID rs') true 0)
  | _, _ => ret tt
  end.

(** Step 5: the kinetic reaction, and the reaction set it goes to: the
    first existing one, a new one when the flowsheet has none. *)
Definition define_reaction : M W (option ReactionSet) :=
  sim <- self_sim "CreateKineticReaction" ;;
  rxn <- call (CreateKineticReaction E sim rxn1) ;;
  sim <- self_sim "ReactionSets" ;;
  rxn_sets <- call (ReactionSets E sim) ;;
  match rxn_sets with
  | Some ((_, rs) :: _) =>
      add_reaction_to_set rxn rs ;;
      ret rs
  | _ =>
      sim <- self_sim "CreateReactionSet" ;;
      rs <- call (CreateReactionSet E sim "Set-1" "Default Set") ;;
      add_reaction_to_set rxn rs ;;
      ret rs
  end.

(** What the assignment of the reaction set came to; the script itself
    only prints. *)
Inductive binding : Type :=
| BoundByReactionSetID        (* [prop_rs_id.SetValue(pfr, rs.ID, None)] *)
| BoundBySetPropertyValue     (* [pfr.SetPropertyValue("Reaction Set", rs.ID)] *)
| BindingError (e : exn)      (* the [except] branch *)
| BindingSkipped.             (* [rs] is falsy *)

(** "Assign Reaction Set" (lines 262-275). *)
Definition assign_reaction_set (pfr pfr_type : obj)
    (rs : option ReactionSet) : M W binding :=
  match rs with
  | Some rs' =>
      try_except
        (prop_rs_id <- call (GetProperty E pfr_type "ReactionSetID") ;;
         match prop_rs_id with
         | Some p =>
             call (SetValue E p pfr (VStr (rs_ID rs'))) ;;
             ret BoundByReactionSetID
         | None =>
             call (SetPropertyValue E pfr "Reaction Set" (VStr (rs_ID rs'))) ;;
             ret BoundBySetPropertyValue
         end)
        (fun e => ret (BindingError e))
  | None => ret BindingSkipped
  end.

(** Volume and operation mode, through reflection (lines 278-293). *)
Definition configure_pfr (pfr pfr_type : obj) (vol : float) : M W unit :=
  try_except
    (prop_vol <- call (GetProperty E pfr_type "Volume") ;;
     match prop_vol with
     | Some p => call (SetValue E p pfr (VFloat vol))
     | None => ret tt
     end ;;
     prop_mode <- call (GetProperty E pfr_type "ReactorOperationMode") ;;
     match prop_mode with
     | Some p => call (SetValue E p pfr (VInt 1))
     | None => ret tt
     end)
    (fun _ => ret tt).

(** What steps 1 to 6 leave in the local variables of a case. *)
Record pfr_flowsheet : Type := {
  pf_feed : obj;
  pf_prod : obj;
  pf_energy : obj;
  pf_rs : option ReactionSet;
  pf_pfr : obj;
  pf_type : obj
}.

(** Steps 1 to 6 down to [pfr_type = pfr.GetType()]. *)
Definition pfr_build (temp : Z) : M W pfr_flowsheet :=
  create_simulation ;;
  setup_compounds ["Water"; "Ethanol"] ;;
  feed <- add_material_stream "Feed" 50 50 (VInt temp) (VInt 101325)
            (VInt 3600) (VFloats [PyFloat.of_Z 1; PyFloat.zero]) ;;
  sim <- self_sim "AddObject" ;;
  prod <- call (AddObject E sim MaterialStream 200 50 "Product") ;;
  sim <- self_sim "AddObject" ;;
  energy <- call (AddObject E sim EnergyStream 125 100 "Heat") ;;
  rs <- define_reaction ;;
  pfr <- add_pfr "PFR-1" 125 50 feed prod energy ;;
  pfr_type <- call (GetType E pfr) ;;
  ret {| pf_feed := feed; pf_prod := prod; pf_energy := energy;
         pf_rs := rs; pf_pfr := pfr; pf_type := pfr_type |}.

(** Everything before the solve: the flowsheet, then the assignment of
    the reaction set and the reactor settings. *)
Definition pfr_setup (temp : Z) (vol : float) : M W pfr_flowsheet :=
  fs <- pfr_build temp ;;
  assign_reaction_set (pf_pfr fs) (pf_type fs) (pf_rs fs) ;;
  configure_pfr (pf_pfr fs) (pf_type fs) vol ;;
  ret fs.

(** [total_flow * comps[k]]: a product of doubles, a [TypeError] or an
    [IndexError]. *)
Definition scaled_component (total_flow comps : evalue) (k : nat) : res float :=
  match total_flow, comps with
  | EFloat t, EArr l =>
      match nth_error l k with
      | Some c => Ok (PyFloat.mul t c)
      | None => Raise "Index was outside the bounds of the array."
      end
  | EFloat _, EStr s =>
      match String.get k s with
      | Some _ => Raise "can't multiply sequence by non-int of type 'float'"
      | None => Raise "string index out of range"
      end
  | EStr _, EArr l =>
      match nth_error l k with
      | Some _ => Raise "can't multiply sequence by non-int of type 'float'"
      | None => Raise "Index was outside the bounds of the array."
      end
  | _, _ => Raise "unsupported operand type(s)"
  end.

(** The [try] body of the helper [get_comp_flow] of step 8. *)
Definition comp_flow_reads (stream_obj : obj) (comp_name : string) : M W float :=
  call (ToString E stream_obj) ;;
  total_flow <- call (GetPropertyValue E stream_obj "Molar Flow") ;;
  comps <- call (GetPropertyValue E stream_obj "OverallMolarComposition") ;;
  if String.eqb comp_name "Water"
  then eval (scaled_component total_flow comps 0)
  else eval (scaled_component total_flow comps 1).

(** The helper itself: [0.0] when anything in it raised. *)
Definition get_comp_flow (stream_obj : obj) (comp_name : string) : M W float :=
  try_except (comp_flow_reads stream_obj comp_name)
    (fun _ => ret PyFloat.zero).

Definition get_temp (stream_obj : obj) : M W evalue :=
  call (GetPropertyValue E stream_obj "Temperature").

Definition get_duty (energy_obj : obj) : M W evalue :=
  call (GetPropertyValue E energy_obj "Energy Flow").

(** [x / y] on floats: Python raises on a zero divisor. *)
Definition truediv (x y : float) : res float :=
  if PyFloat.is_zero y then Raise "float division by zero"
  else Ok (PyFloat.div x y).

(** [(in_flow - out_flow_A) / in_flow if in_flow > 0 else 0] *)
Definition conversion (in_flow out_flow_A : float) : res value :=
  if PyFloat.ltb PyFloat.zero in_flow
  then match truediv (PyFloat.sub in_flow out_flow_A) in_flow with
       | Ok q => Ok (VFloat q)
       | Raise e => Raise e
       end
  else Ok (VInt 0).

Record pfr_metrics : Type := {
  pm_conversion : value;
  pm_out_flow_B : float;
  pm_outlet_temp : evalue;
  pm_duty : evalue
}.

(** Step 8: the read-back of the results. *)
Definition pfr_extract (fs : pfr_flowsheet) : M W pfr_metrics :=
  call (import_IMaterialStream E) ;;
  in_flow <- get_comp_flow (pf_feed fs) "Water" ;;
  out_flow_A <- get_comp_flow (pf_prod fs) "Water" ;;
  out_flow_B <- get_comp_flow (pf_prod fs) "Ethanol" ;;
  conv <- eval (conversion in_flow out_flow_A) ;;
  outlet_temp <- get_temp (pf_prod fs) ;;
  duty <- get_duty (pf_energy fs) ;;
  ret {| pm_conversion := conv; pm_out_flow_B := out_flow_B;
         pm_outlet_temp := outlet_temp; pm_duty := duty |}.

(** The dictionary logged by a case that ran to its end. *)
Definition pfr_row (temp : Z) (vol : float) (m : pfr_metrics)
    (success : bool) (errors : list string) : pydict :=
  [ ("Temperature_K", VInt temp);
    ("Volume_m3", VFloat vol);
    ("Conversion", pm_conversion m);
    ("OutletFlow_B_mol_s", VFloat (pm_out_flow_B m));
    ("OutletTemperature_K", of_evalue (pm_outlet_temp m));
    ("HeatDuty_kW", of_evalue (pm_duty m));
    ("Success", VBool success);
    ("Error", VStr (error_text success errors)) ].

(** The dictionary logged by the [except] branch. *)
Definition pfr_failed_row (temp : Z) (vol : float) (e : exn) : pydict :=
  [ ("Temperature_K", VInt temp);
    ("Volume_m3", VFloat vol);
    ("Success", VBool false);
    ("Error", VStr e) ].

(** The body of the [try] of one case. *)
Definition pfr_case_body (temp : Z) (vol : float) : M W unit :=
  fs <- pfr_setup temp vol ;;
  ' (success, errors) <- run_simulation ;;
  m <- pfr_extract fs ;;
  log_result "PFR_Sweep" (pfr_row temp vol m success errors).

(** One iteration of the inner loop. *)
Definition pfr_case (temp : Z) (vol : float) : M W unit :=
  try_except (pfr_case_body temp vol)
    (fun e => log_result "PFR_Sweep" (pfr_failed_row temp vol e)).

(** The two nested loops, over any two axes. *)
Definition pfr_sweep (temperatures : list Z) (volumes : list float) : M W unit :=
  for_each temperatures (fun temp =>
    for_each volumes (fun vol => pfr_case temp vol)).

Definition temperatures : list Z := [300; 325; 350]%Z.
Definition volumes : list float :=
  [PyFloat.of_Z 1; PyFloat.of_Z 2; PyFloat.of_Z 3].

Definition run_pfr_study : M W unit := pfr_sweep temperatures volumes.

(* ------------------------------------------------------------------ *)
(** ** Part B: [run_distillation_study] *)

(** Everything before the solve. *)
Definition distillation_setup (rr : float) (stages : Z) : M W obj :=
  create_simulation ;;
  setup_compounds ["Ethanol"; "Water"] ;;
  add_material_stream "Feed" 50 50 (VInt 350) (VInt 101325) (VInt 5000)
    (VFloats [PyFloat.decimal 5 10; PyFloat.decimal 5 10]) ;;
  sim <- self_sim "AddObject" ;;
  dist <- call (AddObject E sim ShortcutColumn 200 50 "Distillation") ;;
  call (SetPropertyValue E dist "Reflux Ratio" (VFloat rr)) ;;
  call (SetPropertyValue E dist "Number of Stages" (VInt stages)) ;;
  call (SetPropertyValue E dist "Condenser Pressure" (VInt 101325)) ;;
  call (SetPropertyValue E dist "Reboiler Pressure" (VInt 101325)) ;;
  call (SetPropertyValue E dist "Light Key Mole Fraction"
          (VFloat (PyFloat.decimal 95 100))) ;;
  ret dist.

(** The two duties read after the solve. *)
Definition distillation_extract (dist : obj) : M W (evalue * evalue) :=
  cond_duty <- call (GetPropertyValue E dist "Condenser Duty") ;;
  reb_duty <- call (GetPropertyValue E dist "Reboiler Duty") ;;
  ret (cond_duty, reb_duty).

(** [distillate_purity = 0.95] *)
Definition distillate_purity : float := PyFloat.decimal 95 100.

Definition distillation_row (rr : float) (stages : Z)
    (cond_duty reb_duty : evalue) (success : bool) (errors : list string)
    : pydict :=
  [ ("RefluxRatio", VFloat rr);
    ("Stages", VInt stages);
    ("DistillatePurity", VFloat distillate_purity);
    ("CondenserDuty_kW", of_evalue cond_duty);
    ("ReboilerDuty_kW", of_evalue reb_duty);
    ("Success", VBool success);
    ("Error", VStr (error_text success errors)) ].

Definition distillation_failed_row (rr : float) (stages : Z) (e : exn)
    : pydict :=
  [ ("RefluxRatio", VFloat rr);
    ("Stages", VInt stages);
    ("Success", VBool false);
    ("Error", VStr e) ].

Definition distillation_case_body (rr : float) (stages : Z) : M W unit :=
  dist <- distillation_setup rr stages ;;
  ' (success, errors) <- run_simulation ;;
  ' (cond_duty, reb_duty) <- distillation_extract dist ;;
  log_result "Distillation_Sweep"
    (distillation_row rr stages cond_duty reb_duty success errors).

Definition distillation_case (rr : float) (stages : Z) : M W unit :=
  try_except (distillation_case_body rr stages)
    (fun e => log_result "Distillation_Sweep"
                (distillation_failed_row rr stages e)).

Definition distillation_sweep (reflux_ratios : list float)
    (stages_list : list Z) : M W unit :=
  for_each reflux_ratios (fun rr =>
    for_each stages_list (fun stages => distillation_case rr stages)).

Definition reflux_ratios : list float :=
  [PyFloat.decimal 15 10; PyFloat.of_Z 2; PyFloat.of_Z 3].
Definition stages_list : list Z := [10; 15; 20]%Z.

Definition run_distillation_study : M W unit :=
  distillation_sweep reflux_ratios stages_list.

(* ------------------------------------------------------------------ *)
(** ** [debug_pfr.py]: step 7, "Assign Reaction Set" *)

(** The loop that looks the target set up by name: the index of the last
    entry of that name, [-1] when there is none. *)
Fixpoint find_set_index (entries : list (string * option ReactionSet))
    (target : string) (idx valid_index : Z) : res Z :=
  match entries with
  | [] => Ok valid_index
  | (_, None) :: _ => Raise "'NoneType' object has no attribute 'Name'"
  | (_, Some v) :: rest =>
      find_set_index rest target (idx + 1)
        (if String.eqb (rs_Name v) target then idx else valid_index)
  end.

(** The three methods of the script, in the order it tries them. *)
Inductive method : Type :=
| Method1   (* property "Reaction Set", through reflection *)
| Method2   (* property "ReactionSet", through reflection *)
| Method3.  (* the Python attribute [pfr.ReactionSet] *)

Inductive debug_binding : Type :=
| AssignedBy (m : method)
| AssignFailed             (* "FAILED to assign Reaction Set ..." *)
| IndexNotFound.           (* "Set Index not found." *)

(** [try: prop = pfr_type.GetProperty(name); if prop: prop.SetValue(...);
    assigned = True   except: pass]; the result is [assigned]. *)
Definition try_property (pfr pfr_type : obj) (name : string)
    (valid_index : Z) : M W bool :=
  try_except
    (prop <- call (GetProperty E pfr_type name) ;;
     match prop with
     | Some p => call (SetValue E p pfr (VInt valid_index)) ;; ret true
     | None => ret false
     end)
    (fun _ => ret false).

(** [try: pfr.ReactionSet = valid_index; assigned = True  except: pass] *)
Definition try_attribute (pfr : obj) (valid_index : Z) : M W bool :=
  try_except
    (call (SetAttr E pfr "ReactionSet" (VInt valid_index)) ;; ret true)
    (fun _ => ret false).

(** The chain of attempts made once the index is known. *)
Definition assign_by_index (pfr pfr_type : obj) (valid_index : Z)
    : M W debug_binding :=
  assigned1 <- try_property pfr pfr_type "Reaction Set" valid_index ;;
  if assigned1 then ret (AssignedBy Method1) else
  assigned2 <- try_property pfr pfr_type "ReactionSet" valid_index ;;
  if assigned2 then ret (AssignedBy Method2) else
  assigned3 <- try_attribute pfr valid_index ;;
  if assigned3 then ret (AssignedBy Method3) else
  ret AssignFailed.

Definition debug_assign_reaction_set (sim pfr pfr_type : obj)
    (rs : ReactionSet) : M W debug_binding :=
  sets <- call (ReactionSets E sim) ;;
  match sets with
  | None => raise "'NoneType' object is not iterable"
  | Some entries =>
      valid_index <- eval (find_set_index entries (rs_Name rs) 0 (-1)) ;;
      if (0 <=? valid_index)%Z
      then assign_by_index pfr pfr_type valid_index
      else ret IndexNotFound
  end.

End Screening.

(* ------------------------------------------------------------------ *)
(** ** The export: [pd.DataFrame(mgr.results).to_csv(path, index=False)] *)

(** Modelled from the spec: the table and its text are the work of the
    pandas library (the calls of lines 456 and 458), whose code is not
    among the sources. The definitions from here to [to_csv] follow the
    words of sections 3, 4.5 and 6 of the specification: the columns are
    the union of the keys of the rows in first-seen order; the file is
    comma-separated, with a header row and one row of data per recorded
    row; a value is written as the string of its scalar and a missing one
    as a blank.

    The specification leaves two things to the library, which are the
    fields of this record: the string of a scalar (the library chooses it
    by the cells of the whole column, and it is the field as it stands in
    the file, with the quotes the library may put around it), and the end
    of a line. *)
Record CsvFormat : Type := {
  format_scalar : list (option value) -> value -> string;
  lineterminator : string
}.

Definition mem_string (k : string) (l : list string) : bool :=
  existsb (String.eqb k) l.

(** Modelled from the spec: the keys of one row added to the columns seen
    so far, a key that is new going to the end (the frame constructor of
    pandas is missing). *)
Fixpoint add_keys (cols ks : list string) : list string :=
  match ks with
  | [] => cols
  | k :: ks' => add_keys (if mem_string k cols then cols else cols ++ [k]) ks'
  end.

(** Modelled from the spec: the columns of the table, the union of all
    keys across all rows, preserving first-seen order (the frame
    constructor of pandas is missing). Line 456 hands the constructor the
    rows and nothing else, so a column can only come from the keys of a
    row. *)
Definition columns (rows : list pydict) : list string :=
  fold_left (fun cols r => add_keys cols (dict_keys r)) rows [].

Fixpoint join (sep : string) (l : list string) : string :=
  match l with
  | [] => EmptyString
  | [x] => x
  | x :: l' => (x ++ sep ++ join sep l')%string
  end.

(** Modelled from the spec: one row of the comma-separated file (the
    writer of pandas is missing). *)
Definition csv_line (lt : string) (fields : list string) : string :=
  (join "," fields ++ lt)%string.

(** The cells of a column, one per row; [None] where the row lacks the key. *)
Definition column_cells (rows : list pydict) (c : string) : list (option value) :=
  map (fun r => dict_get r c) rows.

(** Modelled from the spec: the text of a cell, the string of the scalar,
    blank for a key the row lacks (the writer of pandas is missing). *)
Definition cell_text (F : CsvFormat) (rows : list pydict) (r : pydict)
    (c : string) : string :=
  match dict_get r c with
  | None => EmptyString
  | Some v => format_scalar F (column_cells rows c) v
  end.

(** Modelled from the spec: the fields of the row of data of [r], one per
    column (the writer of pandas is missing). *)
Definition data_fields (F : CsvFormat) (rows : list pydict) (r : pydict)
    : list string :=
  map (cell_text F rows r) (columns rows).

(** Modelled from the spec: the text of the file, the header row and then
    one row of data per recorded row, in the order of the rows
    ([DataFrame.to_csv] of pandas is missing). *)
Definition to_csv (F : CsvFormat) (rows : list pydict) : string :=
  (csv_line (lineterminator F) (columns rows)
   ++ String.concat EmptyString
        (map (fun r => csv_line (lineterminator F) (data_fields F rows r)) rows)
  )%string.

(** The fields of a row of the file, read back: the text between its
    commas. *)
Fixpoint fields_of (line : string) : list string :=
  match line with
  | EmptyString => [EmptyString]
  | String c rest =>
      if Nat.eqb (nat_of_ascii c) 44 then EmptyString :: fields_of rest
      else
        match fields_of rest with
        | [] => [String c EmptyString]
        | f :: fs => String c f :: fs
        end
  end.

Fixpoint has_comma (s : string) : bool :=
  match s with
  | EmptyString => false
  | String c s' => Nat.eqb (nat_of_ascii c) 44 || has_comma s'
  end.

(** Files: the export opens its path for writing, so what it writes
    replaces the content of an existing file. *)
Fixpoint file_write (fs : list (string * string)) (path content : string)
    : list (string * string) :=
  match fs with
  | [] => [(path, content)]
  | (p, c) :: fs' =>
      if String.eqb p path then (p, content) :: fs'
      else (p, c) :: file_write fs' path content
  end.

Fixpoint file_read (fs : list (string * string)) (path : string)
    : option string :=
  match fs with
  | [] => None
  | (p, c) :: fs' => if String.eqb p path then Some c else file_read fs' path
  end.

(* ------------------------------------------------------------------ *)
(** ** Start-up and [__main__] *)

(** What the script finds on the machine it runs on. *)
Record host : Type := {
  (** [os.getenv('LOCALAPPDATA')] *)
  LOCALAPPDATA : option string;
  (** [os.path.exists] *)
  path_exists : string -> bool;
  (** the line typed at the prompt *)
  user_line : string;
  (** loading the six assemblies and the imports after them *)
  load_assemblies : string -> res unit;
  (** [os.path.dirname(__file__)] *)
  script_dir : string
}.

Definition backslash : string := String (ascii_of_nat 92) EmptyString.

Fixpoint last_char (s : string) : option ascii :=
  match s with
  | EmptyString => None
  | String c EmptyString => Some c
  | String _ s' => last_char s'
  end.

(** Whether [a] is a drive and nothing else, as in [C:]. *)
Definition is_drive (a : string) : bool :=
  match a with
  | String _ (String c EmptyString) => Nat.eqb (nat_of_ascii c) 58
  | _ => false
  end.

(** [os.path.join(a, b)] on Windows, for a plain relative name [b] as the
    scripts join ([DWSIM], the library, [results.csv]) and a folder [a]
    that is not a network share: the separator is left out after a
    separator, after a bare drive and after nothing. *)
Definition path_join (a b : string) : string :=
  match last_char a with
  | None => b
  | Some c =>
      let n := nat_of_ascii c in
      if Nat.eqb n 92 || Nat.eqb n 47 || is_drive a
      then (a ++ b)%string
      else (a ++ backslash ++ b)%string
  end.

Definition dll : string := "DWSIM.Automation.dll".

(** [POSSIBLE_PATHS]; joining with an unset variable is a [TypeError]. *)
Definition POSSIBLE_PATHS (h : host) : res (list string) :=
  match LOCALAPPDATA h with
  | None =>
      Raise "expected str, bytes or os.PathLike object, not NoneType"
  | Some d =>
      Ok [path_join d "DWSIM";
          "C:\Program Files\DWSIM";
          "C:\Program Files (x86)\DWSIM"]
  end.

(** The first candidate that holds the library. *)
Fixpoint find_dwsim (h : host) (paths : list string) : option string :=
  match paths with
  | [] => None
  | p :: rest =>
      if path_exists h (path_join p dll) then Some p else find_dwsim h rest
  end.

(** The white space [str.strip()] removes. A character of a string
    stands for the code point of its number, so the strings of this
    development are those whose code points are below 256; among these the
    white space is the blank, the controls 9 to 13 and 28 to 31, the next
    line control U+0085 and the no-break space U+00A0. *)
Definition is_space (c : ascii) : bool :=
  let n := nat_of_ascii c in
  Nat.eqb n 32 || (Nat.leb 9 n && Nat.leb n 13) || (Nat.leb 28 n && Nat.leb n 31)
  || Nat.eqb n 133 || Nat.eqb n 160.

Fixpoint lstrip (s : string) : string :=
  match s with
  | EmptyString => EmptyString
  | String c s' => if is_space c then lstrip s' else s
  end.

Fixpoint rstrip (s : string) : string :=
  match s with
  | EmptyString => EmptyString
  | String c s' =>
      match rstrip s' with
      | EmptyString => if is_space c then EmptyString else String c EmptyString
      | t => String c t
      end
  end.

Definition strip (s : string) : string := rstrip (lstrip s).

(** The two [replace] calls: both kinds of quote are dropped. *)
Fixpoint drop_quotes (s : string) : string :=
  match s with
  | EmptyString => EmptyString
  | String c s' =>
      let n := nat_of_ascii c in
      if Nat.eqb n 34 || Nat.eqb n 39 then drop_quotes s'
      else String c (drop_quotes s')
  end.

Inductive startup_result : Type :=
| SysExit (code : Z)          (* [sys.exit(code)] *)
| Traceback (e : exn)         (* an exception nobody catches *)
| Started (dwsim_path : string).

(** [DWSIM_PATH]: the first candidate that holds the library, else what
    the user types at the prompt, when that is a folder that holds it. *)
Definition locate_dwsim (h : host) (paths : list string) : option string :=
  match find_dwsim h paths with
  | Some p => Some p
  | None =>
      let user_input := drop_quotes (strip (user_line h)) in
      match user_input with
      | EmptyString => None
      | _ =>
          if path_exists h (path_join user_input dll)
          then Some user_input else None
      end
  end.

(** The module level of the script, down to the helper class. *)
Definition startup (h : host) : startup_result :=
  match POSSIBLE_PATHS h with
  | Raise e => Traceback e
  | Ok paths =>
      match locate_dwsim h paths with
      | None => SysExit 1
      | Some p =>
          match load_assemblies h p with
          | Ok _ => Started p
          | Raise _ => SysExit 1
          end
      end
  end.

Section Main.

Context {W : Type}.
Variable E : Automation W.
Variable F : CsvFormat.
Variable h : host.

Definition output_path : string := path_join (script_dir h) "results.csv".

(** "Export Results". The frame is built and its text written to the
    output path; both are taken to succeed here. A write that fails (a
    folder that cannot be written to) would end the script in a traceback
    after the sweeps; that ending is not part of this model. *)
Definition export_results : M W unit :=
  fun s =>
    (Ok tt,
     mkState (world s) (mgr_interf s) (mgr_sim s) (mgr_results s)
             (file_write (files s) output_path (to_csv F (mgr_results s)))).

(** How the process ends. *)
Inductive outcome : Type :=
| Exited (code : Z)
| Crashed (e : exn) (rows : list pydict)
| Finished (s : state W).

(** The exit status of the process: an uncaught exception gives 1. *)
Definition exit_status (o : outcome) : Z :=
  match o with
  | Exited code => code
  | Crashed _ _ => 1
  | Finished _ => 0
  end.

(** The result rows the run got to record. *)
Definition rows_recorded (o : outcome) : list pydict :=
  match o with
  | Exited _ => []
  | Crashed _ rows => rows
  | Finished s => mgr_results s
  end.

(** The whole script, started in the world [w]. *)
Definition main (w : W) : outcome :=
  match startup h with
  | SysExit code => Exited code
  | Traceback e => Crashed e []
  | Started _ =>
      match Automation3 E w with
      | (Raise e, _) => Crashed e []
      | (Ok interf, w') =>
          match (run_pfr_study E ;; run_distillation_study E ;; export_results)
                  (mkState w' interf None [] []) with
          | (Ok _, s) => Finished s
          | (Raise e, s) => Crashed e (mgr_results s)
          end
      end
  end.

End Main.

(* ------------------------------------------------------------------ *)
(** ** The cases of a sweep *)

(** The pairs two nested [for] loops go through, outer loop first. *)
Definition cases {A B : Type} (xs : list A) (ys : list B) : list (A * B) :=
  flat_map (fun x => map (fun y => (x, y)) ys) xs.

(** The case generator as the specification words it, for any number of
    axes: nested-loop order, the first axis outermost. *)
Fixpoint spec_case_generator {A : Type} (axes : list (list A)) : list (list A) :=
  match axes with
  | [] => [[]]
  | axis :: rest =>
      flat_map (fun x => map (cons x) (spec_case_generator rest)) axis
  end.

(** The product of the sizes of the axes. *)
Fixpoint product_of_sizes {A : Type} (axes : list (list A)) : nat :=
  match axes with
  | [] => 1
  | axis :: rest => List.length axis * product_of_sizes rest
  end.

Definition pair_of_list {A : Type} (d : A) (l : list A) : A * A :=
  (nth 0 l d, nth 1 l d).

(** A row carries the tag and the parameters of its case. *)
Definition pfr_tagged (c : Z * float) (row : pydict) : Prop :=
  dict_get row "CaseType" = Some (VStr "PFR_Sweep") /\
  dict_get row "Temperature_K" = Some (VInt (fst c)) /\
  dict_get row "Volume_m3" = Some (VFloat (snd c)).

Definition distillation_tagged (c : float * Z) (row : pydict) : Prop :=
  dict_get row "CaseType" = Some (VStr "Distillation_Sweep") /\
  dict_get row "RefluxRatio" = Some (VFloat (fst c)) /\
  dict_get row "Stages" = Some (VInt (snd c)).

(** The verdict a row carries. *)
Definition verdict (row : pydict) (success : bool) (error : string) : Prop :=
  dict_get row "Success" = Some (VBool success) /\
  dict_get row "Error" = Some (VStr error).

(* ------------------------------------------------------------------ *)
(** ** A scripted engine, to run the model on *)

(** The world is the number of flowsheets asked for so far. *)
Record script : Type := {
  sc_create : nat -> res obj;
  sc_sets : option (list (string * option ReactionSet));
  sc_props : list string;
  sc_set_value : obj -> res unit;
  sc_set_property : string -> res unit;
  sc_set_attr : string -> res unit;
  sc_solve : nat -> res (option (list string));
  sc_read : nat -> obj -> string -> res evalue
}.

(** The handle of the property of a given name. *)
Definition prop_handle (name : string) : obj := String.length name.

(** The handle of the object of a given tag. *)
Definition tag_handle (tag : string) : obj := (100 + String.length tag)%nat.

Definition scripted (c : script) : Automation nat := {|
  Automation3 := fun w => (Ok 0%nat, w);
  CreateFlowsheet := fun _ w => (sc_create c w, S w);
  AddCompound := fun _ _ w => (Ok tt, w);
  AddObject := fun _ _ _ _ tag w => (Ok (tag_handle tag), w);
  SetPropertyValue := fun _ name _ w => (sc_set_property c name, w);
  GetPropertyValue := fun o name w => (sc_read c w o name, w);
  ToString := fun _ w => (Ok "object", w);
  GraphicObject := fun o w => (Ok o, w);
  ConnectObjects := fun _ _ _ _ _ w => (Ok tt, w);
  CreateKineticReaction := fun _ k w => (Ok (Some {| rxn_ID := kr_name k |}), w);
  ReactionSets := fun _ w => (Ok (sc_sets c), w);
  AddReactionToSet := fun _ _ _ _ _ w => (Ok tt, w);
  CreateReactionSet := fun _ n d w => (Ok (Some {| rs_ID := n; rs_Name := d |}), w);
  GetType := fun o w => (Ok o, w);
  GetProperty := fun _ name w =>
    (Ok (if mem_string name (sc_props c) then Some (prop_handle name) else None), w);
  SetValue := fun p _ _ w => (sc_set_value c p, w);
  SetAttr := fun _ name _ w => (sc_set_attr c name, w);
  CalculateFlowsheet2 := fun _ _ w => (sc_solve c w, w);
  str_errors := fun l => ("[" ++ join ", " l ++ "]")%string;
  import_IMaterialStream := fun w => (Ok tt, w);
  now_HMS := fun _ => "12:00:00"
|}.

Definition default_set : ReactionSet :=
  {| rs_ID := "RS0"; rs_Name := "Default Set" |}.

(** An engine on which everything goes well: a flowsheet comes with one
    reaction set, the reactor has the three properties of the sweep, the
    solver reports nothing and every stream carries 100 mol/s, 40 % water. *)
Definition nominal : script := {|
  sc_create := fun n => Ok (1000 + n)%nat;
  sc_sets := Some [("RS0", Some default_set)];
  sc_props := ["ReactionSetID"; "Volume"; "ReactorOperationMode"];
  sc_set_value := fun _ => Ok tt;
  sc_set_property := fun _ => Ok tt;
  sc_set_attr := fun _ => Ok tt;
  sc_solve := fun _ => Ok None;
  sc_read := fun _ o name =>
    if String.eqb name "OverallMolarComposition"
    then Ok (EArr [PyFloat.decimal 4 10; PyFloat.decimal 6 10])
    else Ok (EFloat (PyFloat.of_Z 100))
|}.

(** The state in which [__main__] starts the sweeps. *)
Definition fresh (w : nat) : state nat := mkState w 0%nat None [] [].

(** A machine with DWSIM in its usual place. *)
Definition good_host : host := {|
  LOCALAPPDATA := Some "C:\Users\u\AppData\Local";
  path_exists := fun p =>
    String.eqb p "C:\Users\u\AppData\Local\DWSIM\DWSIM.Automation.dll";
  user_line := "";
  load_assemblies := fun _ => Ok tt;
  script_dir := "C:\work"
|}.

(** A plain format: strings and booleans are printed, any other scalar
    as a sharp sign. *)
Definition plain_format : CsvFormat := {|
  format_scalar := fun _ v =>
    match v with
    | VStr s => s
    | VBool true => "True"
    | VBool false => "False"
    | _ => "#"
    end;
  lineterminator := String (ascii_of_nat 10) EmptyString
|}.

(* ------------------------------------------------------------------ *)
(** ** Computations that leave the recorded rows alone *)

Definition frames {W A : Type} (m : M W A) : Prop :=
  forall s, mgr_results (snd (m s)) = mgr_results s.

(** Computations that never raise. *)
Definition total {W A : Type} (m : M W A) : Prop :=
  forall s, exists a s', m s = (Ok a, s').

(* ------------------------------------------------------------------ *)
(** ** What a case hands to [log_result] *)

(** The row [log_result] appends: the dictionary, tagged and stamped. *)
Definition stamped {W : Type} (E : Automation W) (case_type : string)
    (logs : pydict) (w : W) : pydict :=
  dict_set (dict_set logs "CaseType" (VStr case_type))
           "Timestamp" (VStr (now_HMS E w)).

(** The dictionary a PFR case logs: that of the [try] body when it gets
    there, that of the [except] branch otherwise. *)
Definition pfr_case_logs {W : Type} (E : Automation W) (temp : Z)
    (vol : float) : M W pydict :=
  try_except
    (fs <- pfr_setup E temp vol ;;
     ' (success, errors) <- run_simulation E ;;
     m <- pfr_extract E fs ;;
     ret (pfr_row E temp vol m success errors))
    (fun e => ret (pfr_failed_row temp vol e)).

Definition distillation_case_logs {W : Type} (E : Automation W) (rr : float)
    (stages : Z) : M W pydict :=
  try_except
    (dist <- distillation_setup E rr stages ;;
     ' (success, errors) <- run_simulation E ;;
     ' (cond_duty, reb_duty) <- distillation_extract E dist ;;
     ret (distillation_row E rr stages cond_duty reb_duty success errors))
    (fun e => ret (distillation_failed_row rr stages e)).

(** A loop body that returns after adding exactly one row, which
    satisfies [P]. *)
Definition records_one {W A : Type} (body : A -> M W unit)
    (P : A -> pydict -> Prop) : Prop :=
  forall x s, exists row s',
    body x s = (Ok tt, s') /\
    mgr_results s' = (mgr_results s ++ [row])%list /\
    P x row.

(** The nominal engine with a solver that reports an error on the
    flowsheets numbered in [bad]. *)
Definition failing_solver (bad : list nat) : script := {|
  sc_create := sc_create nominal;
  sc_sets := sc_sets nominal;
  sc_props := sc_props nominal;
  sc_set_value := sc_set_value nominal;
  sc_set_property := sc_set_property nominal;
  sc_set_attr := sc_set_attr nominal;
  sc_solve := fun n =>
    if existsb (Nat.eqb n) bad
    then Ok (Some ["Column did not converge"])
    else Ok None;
  sc_read := sc_read nominal
|}.

(** The nominal engine, but creating a flowsheet raises an exception
    whose message is empty. *)
Definition silent_crash : script := {|
  sc_create := fun _ => Raise "";
  sc_sets := sc_sets nominal;
  sc_props := sc_props nominal;
  sc_set_value := sc_set_value nominal;
  sc_set_property := sc_set_property nominal;
  sc_set_attr := sc_set_attr nominal;
  sc_solve := sc_solve nominal;
  sc_read := sc_read nominal
|}.

(** The nominal engine, but no object has a readable property of the
    name [bad]. *)
Definition unreadable (bad : string) : script := {|
  sc_create := sc_create nominal;
  sc_sets := sc_sets nominal;
  sc_props := sc_props nominal;
  sc_set_value := sc_set_value nominal;
  sc_set_property := sc_set_property nominal;
  sc_set_attr := sc_set_attr nominal;
  sc_solve := sc_solve nominal;
  sc_read := fun n o name =>
    if String.eqb name bad then Raise "Property not found"
    else sc_read nominal n o name
|}.

(** The nominal engine, but the reactor type has the properties [props],
    and writing through the properties named in [refused], or through
    [SetPropertyValue] or the attribute, is refused. *)
Definition reactor_with (props refused : list string) : script := {|
  sc_create := sc_create nominal;
  sc_sets := sc_sets nominal;
  sc_props := props;
  sc_set_value := fun p =>
    if existsb (fun name => Nat.eqb p (prop_handle name)) refused
    then Raise "Property set method not found."
    else Ok tt;
  sc_set_property := fun name =>
    if mem_string name refused then Raise "Property not found" else Ok tt;
  sc_set_attr := fun name =>
    if mem_string name refused then Raise "attribute is read-only" else Ok tt;
  sc_solve := sc_solve nominal;
  sc_read := sc_read nominal
|}.

(** What each row holds under the given keys. *)
Definition look (keys : list string) (rows : list pydict)
    : list (list (option value)) :=
  map (fun r => map (dict_get r) keys) rows.

(** A machine without DWSIM, whose user types only blanks at the prompt. *)
Definition bare_host : host := {|
  LOCALAPPDATA := Some "C:\Users\u\AppData\Local";
  path_exists := fun _ => false;
  user_line := "   ";
  load_assemblies := fun _ => Ok tt;
  script_dir := "C:\work"
|}.

(** A machine with DWSIM in its usual place, whose assemblies do not load. *)
Definition broken_host : host := {|
  LOCALAPPDATA := LOCALAPPDATA good_host;
  path_exists := path_exists good_host;
  user_line := user_line good_host;
  load_assemblies := fun _ => Raise "Unable to find assembly 'DWSIM.Automation'.";
  script_dir := script_dir good_host
|}.

(* ------------------------------------------------------------------ *)
(** ** Further notions used by the properties *)

(** Computations that leave a component [f] of the state as it was. *)
Definition keeps {W A X : Type} (f : state W -> X) (m : M W A) : Prop :=
  forall s, f (snd (m s)) = f s.

(** The world after [AddCompound] was called for each compound in turn,
    whatever the engine answered. *)
Definition compound_worlds {W : Type} (E : Automation W) (sim : obj)
    (compounds : list string) (w : W) : W :=
  fold_left (fun w c => snd (AddCompound E sim c w)) compounds w.

(** The keys of a PFR row, in the order of the dictionary literals, and
    the two keys [log_result] adds. *)
Definition pfr_full_keys : list string :=
  ["Temperature_K"; "Volume_m3"; "Conversion"; "OutletFlow_B_mol_s";
   "OutletTemperature_K"; "HeatDuty_kW"; "Success"; "Error";
   "CaseType"; "Timestamp"].

Definition pfr_failed_keys : list string :=
  ["Temperature_K"; "Volume_m3"; "Success"; "Error"; "CaseType"; "Timestamp"].

Definition distillation_full_keys : list string :=
  ["RefluxRatio"; "Stages"; "DistillatePurity"; "CondenserDuty_kW";
   "ReboilerDuty_kW"; "Success"; "Error"; "CaseType"; "Timestamp"].

Definition distillation_failed_keys : list string :=
  ["RefluxRatio"; "Stages"; "Success"; "Error"; "CaseType"; "Timestamp"].

(** A row has all the keys of its study or only those of a failed case,
    and then says so; a row that says [Success = True] has an empty
    [Error]. *)
Definition row_shape (full failed : list string) (row : pydict) : Prop :=
  (dict_keys row = full \/
   (dict_keys row = failed /\ dict_get row "Success" = Some (VBool false))) /\
  (exists b e,
      dict_get row "Success" = Some (VBool b) /\
      dict_get row "Error" = Some (VStr e) /\
      (b = true -> dict_keys row = full /\ e = EmptyString)).

(** What [pfr_setup] does once the flowsheet is created. *)
Definition pfr_after_create {W : Type} (E : Automation W) (temp : Z)
    (vol : float) : M W pfr_flowsheet :=
  setup_compounds E ["Water"; "Ethanol"] ;;
  feed <- add_material_stream E "Feed" 50 50 (VInt temp) (VInt 101325)
            (VInt 3600) (VFloats [PyFloat.of_Z 1; PyFloat.zero]) ;;
  sim <- self_sim "AddObject" ;;
  prod <- call (AddObject E sim MaterialStream 200 50 "Product") ;;
  sim <- self_sim "AddObject" ;;
  energy <- call (AddObject E sim EnergyStream 125 100 "Heat") ;;
  rs <- define_reaction E ;;
  pfr <- add_pfr E "PFR-1" 125 50 feed prod energy ;;
  pfr_type <- call (GetType E pfr) ;;
  assign_reaction_set E pfr pfr_type rs ;;
  configure_pfr E pfr pfr_type vol ;;
  ret {| pf_feed := feed; pf_prod := prod; pf_energy := energy;
         pf_rs := rs; pf_pfr := pfr; pf_type := pfr_type |}.

(** What [distillation_setup] does once the flowsheet is created. *)
Definition distillation_after_create {W : Type} (E : Automation W)
    (rr : float) (stages : Z) : M W obj :=
  setup_compounds E ["Ethanol"; "Water"] ;;
  add_material_stream E "Feed" 50 50 (VInt 350) (VInt 101325) (VInt 5000)
    (VFloats [PyFloat.decimal 5 10; PyFloat.decimal 5 10]) ;;
  sim <- self_sim "AddObject" ;;
  dist <- call (AddObject E sim ShortcutColumn 200 50 "Distillation") ;;
  call (SetPropertyValue E dist "Reflux Ratio" (VFloat rr)) ;;
  call (SetPropertyValue E dist "Number of Stages" (VInt stages)) ;;
  call (SetPropertyValue E dist "Condenser Pressure" (VInt 101325)) ;;
  call (SetPropertyValue E dist "Reboiler Pressure" (VInt 101325)) ;;
  call (SetPropertyValue E dist "Light Key Mole Fraction"
          (VFloat (PyFloat.decimal 95 100))) ;;
  ret dist.

(** An engine with other answers to [GraphicObject] and
    [ConnectObjects]. *)
Definition with_wiring {W : Type} (E : Automation W)
    (graphic : obj -> W -> res obj * W)
    (connect_objects : obj -> obj -> obj -> Z -> Z -> W -> res unit * W)
    : Automation W := {|
  Automation3 := Automation3 E;
  CreateFlowsheet := CreateFlowsheet E;
  AddCompound := AddCompound E;
  AddObject := AddObject E;
  SetPropertyValue := SetPropertyValue E;
  GetPropertyValue := GetPropertyValue E;
  ToString := ToString E;
  GraphicObject := graphic;
  ConnectObjects := connect_objects;
  CreateKineticReaction := CreateKineticReaction E;
  ReactionSets := ReactionSets E;
  AddReactionToSet := AddReactionToSet E;
  CreateReactionSet := CreateReactionSet E;
  GetType := GetType E;
  GetProperty := GetProperty E;
  SetValue := SetValue E;
  SetAttr := SetAttr E;
  CalculateFlowsheet2 := CalculateFlowsheet2 E;
  str_errors := str_errors E;
  import_IMaterialStream := import_IMaterialStream E;
  now_HMS := now_HMS E
|}.

(** An engine that refuses every connection. *)
Definition unwired : Automation nat :=
  with_wiring (scripted nominal) (fun o w => (Ok o, w))
    (fun _ _ _ _ _ w => (Raise "No free connection port", w)).

(** Whether a string holds a quote of either kind. *)
Fixpoint has_quote (s : string) : bool :=
  match s with
  | EmptyString => false
  | String c s' =>
      let n := nat_of_ascii c in
      Nat.eqb n 34 || Nat.eqb n 39 || has_quote s'
  end.

(** A machine without DWSIM in the usual places, whose user pastes the
    folder between quotes. *)
Definition quoting_host : host := {|
  LOCALAPPDATA := Some "C:\Users\u\AppData\Local";
  path_exists := fun p => String.eqb p "D:\Tools\DWSIM\DWSIM.Automation.dll";
  user_line := "  'D:\Tools\DWSIM'  ";
  load_assemblies := fun _ => Ok tt;
  script_dir := "C:\work"
|}.

(* ------------------------------------------------------------------ *)
(** ** [debug_pfr.py]: the whole of [run_debug] *)

(** What the read-back at the end of [run_debug] prints last. *)
Inductive debug_verdict : Type :=
| ConversionObserved        (* "SUCCESS: Conversion observed." *)
| ZeroConversion            (* "FAILURE: Zero conversion." *)
| StringComposition         (* "Got string composition: ..." *)
| NoVerdict                 (* neither branch of the test is taken *)
| ResultReadError (e : exn). (* "Result Read Error: ..." *)

(** How [run_debug] returns. *)
Inductive debug_end : Type :=
| StoppedAtCompounds (e : exn)     (* "Error adding compounds", [return] *)
| StoppedAtReactionSet (e : exn)   (* "ERROR adding reaction to set", [return] *)
| DebugDone (b : debug_binding) (v : debug_verdict).

(** The test on the product composition (step 9): an array or a string
    of more than one element is indexed at 1 and compared with 0.01, which
    is a [TypeError] for a character; a shorter string is reported as a
    string. *)
Definition composition_verdict (comp_obj : evalue) : res debug_verdict :=
  match comp_obj with
  | EArr l =>
      if Nat.ltb 1 (List.length l) then
        match nth_error l 1 with
        | Some prod_eth =>
            if PyFloat.ltb (PyFloat.decimal 1 100) prod_eth
            then Ok ConversionObserved else Ok ZeroConversion
        | None => Raise "Index was outside the bounds of the array."
        end
      else Ok NoVerdict
  | EStr u =>
      if Nat.ltb 1 (String.length u) then
        match String.get 1 u with
        | Some _ =>
            Raise "'>' not supported between instances of 'str' and 'float'"
        | None => Raise "string index out of range"
        end
      else Ok StringComposition
  | EFloat _ => Ok NoVerdict
  | ENull => Ok NoVerdict
  end.

Section DebugScript.

Context {W : Type}.
Variable E : Automation W.

(** The arguments of the [CreateKineticReaction] call of the debug
    script. *)
Definition rxn_test : KineticReaction := {|
  kr_name := "Rxn-Test";
  kr_description := "Water->Ethanol";
  kr_stoich := [("Water", PyFloat.of_Z (-1)); ("Ethanol", PyFloat.of_Z 1)];
  kr_direct_orders := [("Water", PyFloat.of_Z 1); ("Ethanol", PyFloat.zero)];
  kr_reverse_orders := [("Water", PyFloat.zero); ("Ethanol", PyFloat.zero)];
  kr_base_compound := "Water";
  kr_phase := "Mixture";
  kr_basis := "Molar Concentration";
  kr_amount_unit := "mol";
  kr_rate_unit := "mol/[m3.s]";
  kr_Af := PyFloat.of_Z 50;
  kr_Ef := PyFloat.zero;
  kr_Ar := PyFloat.zero;
  kr_Er := PyFloat.zero;
  kr_expr_f := "";
  kr_expr_r := ""
|}.

(** Step 1: both compounds in one [try]; the exception, if any. *)
Definition debug_add_compounds (sim : obj) : M W (option exn) :=
  try_except
    (call (AddCompound E sim "Water") ;;
     call (AddCompound E sim "Ethanol") ;;
     ret None)
    (fun e => ret (Some e)).

(** Step 4: the first existing set, or a new one; the line printed then
    reads [rs.Name], which a null set does not have. *)
Definition debug_choose_set (sim : obj) : M W ReactionSet :=
  rxn_sets <- call (ReactionSets E sim) ;;
  rs <- match rxn_sets with
        | None => raise "'NoneType' object has no attribute 'Count'"
        | Some ((_, rs) :: _) => ret rs
        | Some [] => call (CreateReactionSet E sim "DebugSet" "Active Set")
        end ;;
  match rs with
  | Some rs' => ret rs'
  | None => raise "'NoneType' object has no attribute 'Name'"
  end.

(** The [try] around [AddReactionToSet]; the exception, if any. *)
Definition debug_add_reaction (sim : obj) (rxn : option Reaction)
    (rs : ReactionSet) : M W (option exn) :=
  try_except
    (match rxn with
     | Some rxn' =>
         call (AddReactionToSet E sim (rxn_ID rxn') (rs_ID rs) true 0) ;;
         ret None
     | None => raise "'NoneType' object has no attribute 'ID'"
     end)
    (fun e => ret (Some e)).

(** [sim.ConnectObjects(a.GraphicObject, b.GraphicObject, -1, -1)] *)
Definition debug_connect (sim a b : obj) : M W unit :=
  ga <- call (GraphicObject E a) ;;
  gb <- call (GraphicObject E b) ;;
  call (ConnectObjects E sim ga gb (-1) (-1)).

(** Step 9: the read-back, in its [try]. *)
Definition debug_read_results (feed prod : obj) : M W debug_verdict :=
  try_except
    (call (GetPropertyValue E feed "MolarFlow") ;;
     call (GetPropertyValue E prod "MolarFlow") ;;
     comp_obj <- call (GetPropertyValue E prod "OverallMolarComposition") ;;
     call (GetPropertyValue E feed "MassFlow") ;;
     call (GetPropertyValue E prod "MassFlow") ;;
     eval (composition_verdict comp_obj))
    (fun e => ret (ResultReadError e)).

(** What follows the compounds. *)
Definition debug_after_compounds (interf sim : obj) : M W debug_end :=
  feed <- call (AddObject E sim MaterialStream 50 50 "Feed") ;;
  call (SetPropertyValue E feed "Temperature" (VFloat (PyFloat.of_Z 350))) ;;
  call (SetPropertyValue E feed "Pressure" (VFloat (PyFloat.of_Z 101325))) ;;
  call (SetPropertyValue E feed "MolarFlow" (VFloat (PyFloat.of_Z 100))) ;;
  call (SetPropertyValue E feed "OverallMolarComposition"
          (VFloats [PyFloat.of_Z 1; PyFloat.zero])) ;;
  prod <- call (AddObject E sim MaterialStream 200 50 "Product") ;;
  energy <- call (AddObject E sim EnergyStream 125 100 "Energy") ;;
  rxn <- call (CreateKineticReaction E sim rxn_test) ;;
  rs <- debug_choose_set sim ;;
  failed <- debug_add_reaction sim rxn rs ;;
  match failed with
  | Some e => ret (StoppedAtReactionSet e)
  | None =>
      pfr <- call (AddObject E sim RCT_PFR 125 50 "PFR-Debug") ;;
      debug_connect sim feed pfr ;;
      debug_connect sim pfr prod ;;
      debug_connect sim energy pfr ;;
      pfr_type <- call (GetType E pfr) ;;
      configure_pfr E pfr pfr_type (PyFloat.of_Z 5) ;;
      b <- debug_assign_reaction_set E sim pfr pfr_type rs ;;
      call (CalculateFlowsheet2 E interf (Some sim)) ;;
      v <- debug_read_results feed prod ;;
      ret (DebugDone b v)
  end.

(** [run_debug] *)
Definition run_debug : M W debug_end :=
  interf <- call (Automation3 E) ;;
  sim <- call (CreateFlowsheet E interf) ;;
  failed <- debug_add_compounds sim ;;
  match failed with
  | Some e => ret (StoppedAtCompounds e)
  | None => debug_after_compounds interf sim
  end.

End DebugScript.

(** The nominal engine, but adding the compound [bad] is refused. *)
Definition without_compound (bad : string) : Automation nat := {|
  Automation3 := Automation3 (scripted nominal);
  CreateFlowsheet := CreateFlowsheet (scripted nominal);
  AddCompound := fun _ name w =>
    if String.eqb name bad then (Raise "Compound not found", S w)
    else (Ok tt, S w);
  AddObject := AddObject (scripted nominal);
  SetPropertyValue := SetPropertyValue (scripted nominal);
  GetPropertyValue := GetPropertyValue (scripted nominal);
  ToString := ToString (scripted nominal);
  GraphicObject := GraphicObject (scripted nominal);
  ConnectObjects := ConnectObjects (scripted nominal);
  CreateKineticReaction := CreateKineticReaction (scripted nominal);
  ReactionSets := ReactionSets (scripted nominal);
  AddReactionToSet := AddReactionToSet (scripted nominal);
  CreateReactionSet := CreateReactionSet (scripted nominal);
  GetType := GetType (scripted nominal);
  GetProperty := GetProperty (scripted nominal);
  SetValue := SetValue (scripted nominal);
  SetAttr := SetAttr (scripted nominal);
  CalculateFlowsheet2 := CalculateFlowsheet2 (scripted nominal);
  str_errors := str_errors (scripted nominal);
  import_IMaterialStream := import_IMaterialStream (scripted nominal);
  now_HMS := now_HMS (scripted nominal)
|}.

(** The module level of [debug_pfr.py]: the same search, no prompt;
    [load] stands for its own assemblies and imports. *)
Definition debug_startup (load : string -> res unit) (h : host)
    : startup_result :=
  match POSSIBLE_PATHS h with
  | Raise e => Traceback e
  | Ok paths =>
      match find_dwsim h paths with
      | None => SysExit 1
      | Some p =>
          match load p with
          | Ok _ => Started p
          | Raise _ => SysExit 1
          end
      end
  end.

(** The nominal engine, but every stream reports the composition
    [comps]. *)
Definition with_composition (comps : list float) : script := {|
  sc_create := sc_create nominal;
  sc_sets := sc_sets nominal;
  sc_props := sc_props nominal;
  sc_set_value := sc_set_value nominal;
  sc_set_property := sc_set_property nominal;
  sc_set_attr := sc_set_attr nominal;
  sc_solve := sc_solve nominal;
  sc_read := fun n o name =>
    if String.eqb name "OverallMolarComposition" then Ok (EArr comps)
    else sc_read nominal n o name
|}.

(** The nominal engine, but a flowsheet lists the reaction sets
    [sets]. *)
Definition with_sets (sets : list (string * option ReactionSet)) : script := {|
  sc_create := sc_create nominal;
  sc_sets := Some sets;
  sc_props := sc_props nominal;
  sc_set_value := sc_set_value nominal;
  sc_set_property := sc_set_property nominal;
  sc_set_attr := sc_set_attr nominal;
  sc_solve := sc_solve nominal;
  sc_read := sc_read nominal
|}.

(** Two sets of one name. *)
Definition twin_sets : list (string * option ReactionSet) :=
  [("a", Some default_set);
   ("b", Some {| rs_ID := "RS1"; rs_Name := "Default Set" |})].

(* ------------------------------------------------------------------ *)
(** ** [log_result] on a dictionary that is shared *)

(** A Python dictionary is an object: [log_result] writes its two keys
    into the dictionary of its caller and appends that same object to
    [self.results]. To say what this does to the rows recorded before,
    the dictionaries are kept in a store, each at its address, and
    [self.results] is a list of addresses. *)
Record shared : Type := mkShared {
  store : list pydict;
  results : list nat
}.

(** The dictionary at an address. *)
Definition deref (st : list pydict) (a : nat) : pydict := nth a st [].

(** [d[k] = v] on the dictionary [d] at the address [a]. *)
Fixpoint setitem (st : list pydict) (a : nat) (k : string) (v : value)
    : list pydict :=
  match st, a with
  | [], _ => []
  | d :: st', O => dict_set d k v :: st'
  | d :: st', S a' => d :: setitem st' a' k v
  end.

(** The rows one reads through [self.results]. *)
Definition rows_of (h : shared) : list pydict :=
  map (deref (store h)) (results h).

(** A dictionary literal makes a new object. *)
Definition new_dict (d : pydict) (h : shared) : nat * shared :=
  (List.length (store h), mkShared (store h ++ [d]) (results h)).

(** [SimulationManager.log_result], given the address of [logs]. *)
Definition log_result_shared {W : Type} (E : Automation W)
    (case_type : string) (logs : nat) (w : W) (h : shared) : shared :=
  let st1 := setitem (store h) logs "CaseType" (VStr case_type) in
  let st2 := setitem st1 logs "Timestamp" (VStr (now_HMS E w)) in
  mkShared st2 (results h ++ [logs]).

(* ================================================================== *)
(** * Properties *)

Section Frames.

Context {W : Type}.
Variable E : Automation W.

Lemma frames_ret {A} (a : A) : frames (@ret W A a).
Proof. intros s; reflexivity. Qed.

Lemma frames_raise {A} (e : exn) : frames (@raise W A e).
Proof. intros s; reflexivity. Qed.

Lemma frames_eval {A} (r : res A) : frames (@eval W A r).
Proof. intros s; reflexivity. Qed.

Lemma frames_call {A} (f : W -> res A * W) : frames (call f).
Proof. intros s; unfold call; destruct (f (world s)); reflexivity. Qed.

Lemma frames_bind {A B} (m : M W A) (k : A -> M W B) :
  frames m -> (forall a, frames (k a)) -> frames (bind m k).
Proof.
  intros Hm Hk s. unfold bind.
  specialize (Hm s). destruct (m s) as [[a | e] s1]; simpl in *.
  - rewrite (Hk a s1). exact Hm.
  - exact Hm.
Qed.

Lemma frames_try_except {A} (m : M W A) (h : exn -> M W A) :
  frames m -> (forall e, frames (h e)) -> frames (try_except m h).
Proof.
  intros Hm Hh s. unfold try_except.
  specialize (Hm s). destruct (m s) as [[a | e] s1]; simpl in *.
  - exact Hm.
  - rewrite (Hh e s1). exact Hm.
Qed.

Lemma frames_for_each {A} (l : list A) (body : A -> M W unit) :
  (forall x, frames (body x)) -> frames (for_each l body).
Proof.
  intros Hb. induction l as [| x l IH]; simpl.
  - apply frames_ret.
  - apply frames_bind; [apply Hb | intros _; exact IH].
Qed.

Lemma frames_self_sim (attr : string) : frames (@self_sim W attr).
Proof. intros s; unfold self_sim; destruct (mgr_sim s); reflexivity. Qed.

Lemma frames_self_interf : frames (@self_interf W).
Proof. intros s; reflexivity. Qed.

Lemma frames_set_self_sim (o : obj) : frames (@set_self_sim W o).
Proof. intros s; reflexivity. Qed.

Lemma frames_run_simulation : frames (run_simulation E).
Proof.
  intros s. unfold run_simulation, bind, call.
  destruct (CalculateFlowsheet2 E (mgr_interf s) (mgr_sim s) (world s))
    as [[[l |] | e] w']; reflexivity.
Qed.

End Frames.

Create HintDb frames.

#[local] Hint Resolve frames_ret frames_raise frames_eval frames_call
  frames_self_sim frames_self_interf frames_set_self_sim
  frames_run_simulation : frames.

(** Goes through a computation written with [bind], [try_except],
    [for_each] and case distinctions. *)
Ltac frame_step :=
  match goal with
  | |- frames (bind _ _) => apply frames_bind; [| intros ?]
  | |- frames (try_except _ _) => apply frames_try_except; [| intros ?]
  | |- frames (for_each _ _) => apply frames_for_each; intros ?
  | |- frames (match ?x with _ => _ end) => destruct x
  | |- frames (if ?b then _ else _) => destruct b
  | |- frames _ => solve [auto with frames]
  end.

Ltac frame := repeat frame_step.

Section Cases.

Context {W : Type}.
Variable E : Automation W.

Lemma frames_create_simulation : frames (create_simulation E).
Proof. unfold create_simulation. frame. Qed.

Lemma frames_setup_compounds l : frames (setup_compounds E l).
Proof. unfold setup_compounds. frame. Qed.

Lemma frames_add_material_stream n x y t p m c :
  frames (add_material_stream E n x y t p m c).
Proof. unfold add_material_stream. frame. Qed.

Lemma frames_connect a b : frames (connect E a b).
Proof. unfold connect. frame. Qed.

Lemma frames_add_pfr n x y a b c : frames (add_pfr E n x y a b c).
Proof. unfold add_pfr. frame; apply frames_connect. Qed.

Lemma frames_define_reaction : frames (define_reaction E).
Proof. unfold define_reaction, add_reaction_to_set. frame. Qed.

Lemma frames_assign_reaction_set p t rs : frames (assign_reaction_set E p t rs).
Proof. unfold assign_reaction_set. frame. Qed.

Lemma frames_configure_pfr p t v : frames (configure_pfr E p t v).
Proof. unfold configure_pfr. frame. Qed.

Lemma frames_pfr_build temp : frames (pfr_build E temp).
Proof.
  unfold pfr_build.
  frame; auto using frames_create_simulation, frames_setup_compounds,
    frames_add_material_stream, frames_define_reaction, frames_add_pfr.
Qed.

Lemma frames_pfr_setup temp vol : frames (pfr_setup E temp vol).
Proof.
  unfold pfr_setup.
  frame; auto using frames_pfr_build, frames_assign_reaction_set,
    frames_configure_pfr.
Qed.

Lemma frames_get_comp_flow o n : frames (get_comp_flow E o n).
Proof. unfold get_comp_flow, comp_flow_reads. frame. Qed.

Lemma frames_pfr_extract fs : frames (pfr_extract E fs).
Proof.
  unfold pfr_extract, get_temp, get_duty.
  frame; apply frames_get_comp_flow.
Qed.

Lemma frames_distillation_setup rr n : frames (distillation_setup E rr n).
Proof.
  unfold distillation_setup.
  frame; auto using frames_create_simulation, frames_setup_compounds,
    frames_add_material_stream.
Qed.

Lemma frames_distillation_extract d : frames (distillation_extract E d).
Proof. unfold distillation_extract. frame. Qed.

End Cases.

(* ------------------------------------------------------------------ *)
(** ** Loops *)

Section Loops.

Context {W : Type}.

Lemma for_each_app {A} (l1 l2 : list A) (body : A -> M W unit) s :
  for_each (l1 ++ l2) body s = (for_each l1 body ;; for_each l2 body) s.
Proof.
  revert s. induction l1 as [| x l1 IH]; intros s; simpl.
  - reflexivity.
  - unfold bind. destruct (body x s) as [[[] | e] s1].
    + rewrite IH. reflexivity.
    + reflexivity.
Qed.

Lemma for_each_map {A B} (g : A -> B) (l : list A) (body : B -> M W unit) s :
  for_each (map g l) body s = for_each l (fun x => body (g x)) s.
Proof.
  revert s. induction l as [| x l IH]; intros s; simpl.
  - reflexivity.
  - unfold bind. destruct (body (g x) s) as [[[] | e] s1]; auto.
Qed.

(** Two nested loops go through [cases xs ys], in that order. *)
Lemma nested_loops {A B} (xs : list A) (ys : list B)
    (body : A -> B -> M W unit) s :
  for_each xs (fun x => for_each ys (fun y => body x y)) s =
  for_each (cases xs ys) (fun c => body (fst c) (snd c)) s.
Proof.
  revert s. induction xs as [| x xs IH]; intros s.
  - reflexivity.
  - change (cases (x :: xs) ys)
      with (map (fun y => (x, y)) ys ++ cases xs ys).
    rewrite for_each_app. simpl. unfold bind.
    rewrite for_each_map. simpl.
    destruct (for_each ys (fun y => body x y) s) as [[[] | e] s1]; auto.
Qed.

(** A loop whose body records one row per turn records one row per
    element, in order, and comes to its end. *)
Lemma for_each_records_one {A} (body : A -> M W unit)
    (P : A -> pydict -> Prop) :
  records_one body P ->
  forall l s, exists rows s',
    for_each l body s = (Ok tt, s') /\
    mgr_results s' = mgr_results s ++ rows /\
    Forall2 P l rows.
Proof.
  intros Hb l. induction l as [| x l IH]; intros s; simpl.
  - exists [], s. rewrite app_nil_r. repeat split; constructor.
  - destruct (Hb x s) as (row & s1 & Hrun & Hres & HP).
    destruct (IH s1) as (rows & s2 & Hrun2 & Hres2 & HF).
    exists (row :: rows), s2. unfold bind. rewrite Hrun.
    split; [exact Hrun2 | split].
    + rewrite Hres2, Hres, <- app_assoc. reflexivity.
    + constructor; assumption.
Qed.

End Loops.

(* ------------------------------------------------------------------ *)
(** ** One case *)

Section OneCase.

Context {W : Type}.
Variable E : Automation W.

Lemma log_result_run case_type logs (s : state W) :
  log_result E case_type logs s =
  (Ok tt,
   mkState (world s) (mgr_interf s) (mgr_sim s)
     (mgr_results s ++ [stamped E case_type logs (world s)]) (files s)).
Proof. reflexivity. Qed.

(** A case is its dictionary, then [log_result]. *)
Lemma pfr_case_unfold temp vol s :
  pfr_case E temp vol s =
  (d <- pfr_case_logs E temp vol ;; log_result E "PFR_Sweep" d) s.
Proof.
  unfold pfr_case, pfr_case_logs, pfr_case_body, try_except, bind.
  destruct (pfr_setup E temp vol s) as [[fs | e] s1]; [| reflexivity].
  destruct (run_simulation E s1) as [[[ok errs] | e] s2]; [| reflexivity].
  destruct (pfr_extract E fs s2) as [[m | e] s3]; reflexivity.
Qed.

Lemma distillation_case_unfold rr stages s :
  distillation_case E rr stages s =
  (d <- distillation_case_logs E rr stages ;;
   log_result E "Distillation_Sweep" d) s.
Proof.
  unfold distillation_case, distillation_case_logs, distillation_case_body,
    try_except, bind.
  destruct (distillation_setup E rr stages s) as [[dist | e] s1];
    [| reflexivity].
  destruct (run_simulation E s1) as [[[ok errs] | e] s2]; [| reflexivity].
  destruct (distillation_extract E dist s2) as [[[c r] | e] s3]; reflexivity.
Qed.

(** The dictionary of a PFR case, phase by phase. *)
Lemma pfr_case_logs_trace temp vol s :
  pfr_case_logs E temp vol s =
  match pfr_setup E temp vol s with
  | (Raise e, s1) => (Ok (pfr_failed_row temp vol e), s1)
  | (Ok fs, s1) =>
      match run_simulation E s1 with
      | (Raise e, s2) => (Ok (pfr_failed_row temp vol e), s2)
      | (Ok (ok, errs), s2) =>
          match pfr_extract E fs s2 with
          | (Raise e, s3) => (Ok (pfr_failed_row temp vol e), s3)
          | (Ok m, s3) => (Ok (pfr_row E temp vol m ok errs), s3)
          end
      end
  end.
Proof.
  unfold pfr_case_logs, try_except, bind, ret.
  destruct (pfr_setup E temp vol s) as [[fs | e] s1]; [| reflexivity].
  destruct (run_simulation E s1) as [[[ok errs] | e] s2]; [| reflexivity].
  destruct (pfr_extract E fs s2) as [[m | e] s3]; reflexivity.
Qed.

Lemma distillation_case_logs_trace rr stages s :
  distillation_case_logs E rr stages s =
  match distillation_setup E rr stages s with
  | (Raise e, s1) => (Ok (distillation_failed_row rr stages e), s1)
  | (Ok dist, s1) =>
      match run_simulation E s1 with
      | (Raise e, s2) => (Ok (distillation_failed_row rr stages e), s2)
      | (Ok (ok, errs), s2) =>
          match distillation_extract E dist s2 with
          | (Raise e, s3) => (Ok (distillation_failed_row rr stages e), s3)
          | (Ok (c, r), s3) =>
              (Ok (distillation_row E rr stages c r ok errs), s3)
          end
      end
  end.
Proof.
  unfold distillation_case_logs, try_except, bind, ret.
  destruct (distillation_setup E rr stages s) as [[dist | e] s1];
    [| reflexivity].
  destruct (run_simulation E s1) as [[[ok errs] | e] s2]; [| reflexivity].
  destruct (distillation_extract E dist s2) as [[[c r] | e] s3]; reflexivity.
Qed.

Lemma frames_pfr_case_logs temp vol : frames (pfr_case_logs E temp vol).
Proof.
  unfold pfr_case_logs.
  frame; auto using frames_pfr_setup, frames_pfr_extract.
Qed.

Lemma frames_distillation_case_logs rr n :
  frames (distillation_case_logs E rr n).
Proof.
  unfold distillation_case_logs.
  frame; auto using frames_distillation_setup, frames_distillation_extract.
Qed.

Lemma total_pfr_case_logs temp vol : total (pfr_case_logs E temp vol).
Proof.
  intros s. rewrite pfr_case_logs_trace.
  destruct (pfr_setup E temp vol s) as [[fs | e] s1]; [| eauto].
  destruct (run_simulation E s1) as [[[ok errs] | e] s2]; [| eauto].
  destruct (pfr_extract E fs s2) as [[m | e] s3]; eauto.
Qed.

Lemma total_distillation_case_logs rr n :
  total (distillation_case_logs E rr n).
Proof.
  intros s. rewrite distillation_case_logs_trace.
  destruct (distillation_setup E rr n s) as [[d | e] s1]; [| eauto].
  destruct (run_simulation E s1) as [[[ok errs] | e] s2]; [| eauto].
  destruct (distillation_extract E d s2) as [[[c r] | e] s3]; eauto.
Qed.

(** A PFR case returns, having added the stamped dictionary and no other
    row. *)
Lemma pfr_case_run temp vol s :
  exists d s1,
    pfr_case_logs E temp vol s = (Ok d, s1) /\
    mgr_results s1 = mgr_results s /\
    pfr_case E temp vol s = log_result E "PFR_Sweep" d s1.
Proof.
  destruct (total_pfr_case_logs temp vol s) as (d & s1 & Hd).
  exists d, s1. repeat split.
  - exact Hd.
  - pose proof (frames_pfr_case_logs temp vol s) as Hf.
    rewrite Hd in Hf. exact Hf.
  - rewrite pfr_case_unfold. unfold bind. rewrite Hd. reflexivity.
Qed.

Lemma distillation_case_run rr n s :
  exists d s1,
    distillation_case_logs E rr n s = (Ok d, s1) /\
    mgr_results s1 = mgr_results s /\
    distillation_case E rr n s = log_result E "Distillation_Sweep" d s1.
Proof.
  destruct (total_distillation_case_logs rr n s) as (d & s1 & Hd).
  exists d, s1. repeat split.
  - exact Hd.
  - pose proof (frames_distillation_case_logs rr n s) as Hf.
    rewrite Hd in Hf. exact Hf.
  - rewrite distillation_case_unfold. unfold bind. rewrite Hd. reflexivity.
Qed.

End OneCase.

(* ------------------------------------------------------------------ *)
(** ** The solve wrapper *)

Section Solve.

Context {W : Type}.
Variable E : Automation W.

(** C10. [run_simulation] reports success exactly when the solve call
    returns a null or an empty error list: a null becomes
    [(True, [])], an empty list gives [(True, that list)], a list with an
    element gives [(False, that list)]; when the call raises, so does the
    wrapper. *)
Theorem run_simulation_reports (s : state W) :
  fst (run_simulation E s) =
  match fst (CalculateFlowsheet2 E (mgr_interf s) (mgr_sim s) (world s)) with
  | Ok None => Ok (true, [])
  | Ok (Some []) => Ok (true, [])
  | Ok (Some (e :: l)) => Ok (false, e :: l)
  | Raise e => Raise e
  end.
Proof.
  unfold run_simulation, bind, call.
  destruct (CalculateFlowsheet2 E (mgr_interf s) (mgr_sim s) (world s))
    as [[[[| e l] |] | e] w']; reflexivity.
Qed.

End Solve.

(* ------------------------------------------------------------------ *)
(** ** The conversion *)

Lemma positive_not_zero (x : float) :
  PyFloat.ltb PyFloat.zero x = true -> PyFloat.is_zero x = false.
Proof. destruct x; simpl; intros H; try reflexivity; discriminate H. Qed.

(** C4, as stated, fails on a negative inlet flow: with an inlet of -100
    and an outlet of -40 the quotient (in - out) / in is the double 0.6,
    and the script records the integer 0. *)
Lemma conversion_negative_inlet :
  PyFloat.div (PyFloat.sub (PyFloat.of_Z (-100)) (PyFloat.of_Z (-40)))
              (PyFloat.of_Z (-100))
  = S754_finite false 5404319552844595 (-53) /\
  conversion (PyFloat.of_Z (-100)) (PyFloat.of_Z (-40)) = Ok (VInt 0).
Proof. split; vm_compute; reflexivity. Qed.

(** C4, amended. For every inlet and outlet flow the conversion is
    (in - out) / in when the inlet flow is greater than 0 and the integer 0
    otherwise (a zero, negative or NaN inlet); it never raises, so no
    division by zero gets out. An inlet of 100 and an outlet of 40 give the
    double 0.6; an inlet of 0 gives 0. *)
Theorem conversion_formula (in_flow out_flow_A : float) :
  conversion in_flow out_flow_A =
    (if PyFloat.ltb PyFloat.zero in_flow
     then Ok (VFloat (PyFloat.div (PyFloat.sub in_flow out_flow_A) in_flow))
     else Ok (VInt 0)) /\
  conversion (PyFloat.of_Z 100) (PyFloat.of_Z 40)
    = Ok (VFloat (PyFloat.decimal 6 10)) /\
  conversion PyFloat.zero out_flow_A = Ok (VInt 0).
Proof.
  split; [| split].
  - unfold conversion, truediv.
    destruct (PyFloat.ltb PyFloat.zero in_flow) eqn:Hpos; [| reflexivity].
    rewrite (positive_not_zero _ Hpos). reflexivity.
  - vm_compute. reflexivity.
  - reflexivity.
Qed.

(* ------------------------------------------------------------------ *)
(** ** The distillate purity *)

Section Purity.

Context {W : Type}.
Variable E : Automation W.

(** C9. A distillation case whose [try] body runs to its end without
    raising has logged one row, and the [DistillatePurity] of that row is
    the constant 0.95, whatever the solver and the column reported. *)
Theorem distillate_purity_is_constant (rr : float) (stages : Z)
    (s s' : state W) :
  distillation_case_body E rr stages s = (Ok tt, s') ->
  exists row,
    mgr_results s' = mgr_results s ++ [row] /\
    dict_get row "DistillatePurity" = Some (VFloat (PyFloat.decimal 95 100)).
Proof.
  unfold distillation_case_body, bind. intros H.
  pose proof (frames_distillation_setup E rr stages s) as F1.
  destruct (distillation_setup E rr stages s) as [[dist | e] s1];
    [| discriminate H].
  pose proof (frames_run_simulation E s1) as F2.
  destruct (run_simulation E s1) as [[[ok errs] | e] s2]; [| discriminate H].
  pose proof (frames_distillation_extract E dist s2) as F3.
  destruct (distillation_extract E dist s2) as [[[c r] | e] s3];
    [| discriminate H].
  simpl in F1, F2, F3. rewrite log_result_run in H.
  injection H as <-. simpl.
  eexists. split.
  - rewrite F3, F2, F1. reflexivity.
  - reflexivity.
Qed.

End Purity.

(** C9 at a case whose solver reports an error: the row says
    [Success = False] and the purity is 0.95 all the same. *)
Lemma distillate_purity_is_constant_witness :
  (exists row,
      mgr_results
        (snd (distillation_case_body (scripted (failing_solver [1%nat]))
                (PyFloat.decimal 15 10) 10 (fresh 0)))
      = mgr_results (fresh 0) ++ [row] /\
      dict_get row "DistillatePurity"
      = Some (VFloat (PyFloat.decimal 95 100))) /\
  look ["Success"; "DistillatePurity"]
    (mgr_results
       (snd (distillation_case_body (scripted (failing_solver [1%nat]))
               (PyFloat.decimal 15 10) 10 (fresh 0))))
  = [[Some (VBool false);
      Some (VFloat (S754_finite false 8556839292003942 (-53)))]].
Proof.
  split.
  - apply (distillate_purity_is_constant (scripted (failing_solver [1%nat]))
             (PyFloat.decimal 15 10) 10 (fresh 0)).
    vm_compute. reflexivity.
  - vm_compute. reflexivity.
Defined.

(* ------------------------------------------------------------------ *)
(** ** The cases of a sweep are the cartesian product *)

Section Product.

Context {A B : Type}.

Lemma cases_cons (x : A) (xs : list A) (ys : list B) :
  cases (x :: xs) ys = map (fun y => (x, y)) ys ++ cases xs ys.
Proof. reflexivity. Qed.

Lemma length_cases (xs : list A) (ys : list B) :
  List.length (cases xs ys) = List.length xs * List.length ys.
Proof.
  induction xs as [| x xs IH]; [reflexivity |].
  rewrite cases_cons, length_app, length_map, IH. reflexivity.
Qed.

Lemma in_cases (xs : list A) (ys : list B) (c : A * B) :
  In c (cases xs ys) <-> In (fst c) xs /\ In (snd c) ys.
Proof.
  unfold cases. rewrite in_flat_map. split.
  - intros (x & Hx & Hc). apply in_map_iff in Hc.
    destruct Hc as (y & <- & Hy). auto.
  - intros [Hx Hy]. exists (fst c). split; [exact Hx |].
    apply in_map_iff. exists (snd c). destruct c; auto.
Qed.

(** The case of the [i]-th outer and [j]-th inner value is visited at
    turn [i * |ys| + j]. *)
Lemma nth_error_cases (xs : list A) (ys : list B) i j x y :
  nth_error xs i = Some x ->
  nth_error ys j = Some y ->
  nth_error (cases xs ys) (i * List.length ys + j) = Some (x, y).
Proof.
  revert i. induction xs as [| x0 xs IH]; intros i Hx Hy.
  - destruct i; discriminate Hx.
  - rewrite cases_cons.
    assert (Hj : j < List.length ys)
      by (apply nth_error_Some; rewrite Hy; discriminate).
    destruct i as [| i]; simpl in Hx.
    + injection Hx as ->. simpl.
      rewrite nth_error_app1 by (rewrite length_map; exact Hj).
      rewrite nth_error_map, Hy. reflexivity.
    + rewrite nth_error_app2 by (rewrite length_map; simpl; lia).
      rewrite length_map.
      replace (S i * List.length ys + j - List.length ys)
        with (i * List.length ys + j) by (simpl; lia).
      apply IH; assumption.
Qed.

Lemma NoDup_cases (xs : list A) (ys : list B) :
  NoDup xs -> NoDup ys -> NoDup (cases xs ys).
Proof.
  intros Hxs Hys. induction Hxs as [| x xs Hx Hxs IH]; [constructor |].
  rewrite cases_cons. apply NoDup_app.
  - apply NoDup_map_NoDup_ForallPairs; [| exact Hys].
    intros y1 y2 _ _ Heq. congruence.
  - exact IH.
  - intros [x' y'] Hin1 Hin2.
    apply in_map_iff in Hin1. destruct Hin1 as (y & Heq & _).
    apply in_cases in Hin2. simpl in Hin2.
    injection Heq as <- _. tauto.
Qed.

End Product.

Section Generator.

Context {A : Type}.

Lemma length_spec_case_generator (axes : list (list A)) :
  List.length (spec_case_generator axes) = product_of_sizes axes.
Proof.
  induction axes as [| axis rest IH]; [reflexivity |].
  simpl. rewrite <- IH.
  apply flat_map_constant_length. intros x _. apply length_map.
Qed.

(** For two axes the generator of the specification gives the pairs of
    the nested loops. *)
Lemma spec_case_generator_one (ys : list A) :
  spec_case_generator [ys] = map (fun y => [y]) ys.
Proof.
  simpl. induction ys as [| y ys IH]; [reflexivity |].
  simpl. rewrite IH. reflexivity.
Qed.

(** For two axes the generator of the specification gives the pairs of
    the nested loops. *)
Lemma spec_case_generator_two (d : A) (xs ys : list A) :
  map (pair_of_list d) (spec_case_generator [xs; ys]) = cases xs ys.
Proof.
  change (spec_case_generator [xs; ys])
    with (flat_map (fun x => map (cons x) (spec_case_generator [ys])) xs).
  rewrite spec_case_generator_one. unfold cases.
  induction xs as [| x xs IH]; [reflexivity |].
  simpl. rewrite map_app, IH, !map_map. reflexivity.
Qed.

Lemma NoDup_spec_case_generator (axes : list (list A)) :
  Forall (@NoDup A) axes -> NoDup (spec_case_generator axes).
Proof.
  induction axes as [| axis rest IH]; intros Hall.
  - simpl. constructor; [intros [] | constructor].
  - inversion Hall as [| ? ? Haxis Hrest]; subst.
    specialize (IH Hrest). simpl.
    induction Haxis as [| x xs Hx Hxs IHxs]; [constructor |].
    simpl. apply NoDup_app.
    + apply NoDup_map_NoDup_ForallPairs; [| exact IH].
      intros l1 l2 _ _ Heq. congruence.
    + apply IHxs. inversion Hall as [| ? ? Hn ?]; subst.
      constructor; [| assumption]. inversion Hn; assumption.
    + intros l Hin1 Hin2.
      apply in_map_iff in Hin1. destruct Hin1 as (g & <- & _).
      apply in_flat_map in Hin2. destruct Hin2 as (x' & Hx' & Hin2).
      apply in_map_iff in Hin2. destruct Hin2 as (g' & Heq & _).
      injection Heq as -> _. contradiction.
Qed.

End Generator.

(* ------------------------------------------------------------------ *)
(** ** The rows of a sweep *)

Section Sweeps.

Context {W : Type}.
Variable E : Automation W.

(** Whatever the engine does, a PFR case returns with one more row, and
    that row carries the tag and the parameters of the case. *)
Lemma pfr_case_records_tagged :
  records_one (fun c => pfr_case E (fst c) (snd c)) pfr_tagged.
Proof.
  intros [temp vol] s. simpl.
  destruct (pfr_case_run E temp vol s) as (d & s1 & Hd & Hres & Hrun).
  rewrite Hrun, log_result_run. simpl.
  eexists. eexists. split; [reflexivity |]. simpl.
  split; [rewrite Hres; reflexivity |].
  rewrite pfr_case_logs_trace in Hd.
  destruct (pfr_setup E temp vol s) as [[fs | e] s1'];
    [| injection Hd as <- _; repeat split ].
  destruct (run_simulation E s1') as [[[ok errs] | e] s2];
    [| injection Hd as <- _; repeat split ].
  destruct (pfr_extract E fs s2) as [[m | e] s3];
    injection Hd as <- _; repeat split.
Qed.

Lemma distillation_case_records_tagged :
  records_one (fun c => distillation_case E (fst c) (snd c))
    distillation_tagged.
Proof.
  intros [rr n] s. simpl.
  destruct (distillation_case_run E rr n s) as (d & s1 & Hd & Hres & Hrun).
  rewrite Hrun, log_result_run. simpl.
  eexists. eexists. split; [reflexivity |]. simpl.
  split; [rewrite Hres; reflexivity |].
  rewrite distillation_case_logs_trace in Hd.
  destruct (distillation_setup E rr n s) as [[dist | e] s1'];
    [| injection Hd as <- _; repeat split ].
  destruct (run_simulation E s1') as [[[ok errs] | e] s2];
    [| injection Hd as <- _; repeat split ].
  destruct (distillation_extract E dist s2) as [[[c r] | e] s3];
    injection Hd as <- _; repeat split.
Qed.

(** A PFR sweep comes to its end with one tagged row per case, in the
    order of the cases. *)
Lemma pfr_sweep_rows temps vols s :
  exists rows s',
    pfr_sweep E temps vols s = (Ok tt, s') /\
    mgr_results s' = mgr_results s ++ rows /\
    Forall2 pfr_tagged (cases temps vols) rows.
Proof.
  unfold pfr_sweep. rewrite nested_loops.
  apply (for_each_records_one _ _ pfr_case_records_tagged).
Qed.

Lemma distillation_sweep_rows rrs sts s :
  exists rows s',
    distillation_sweep E rrs sts s = (Ok tt, s') /\
    mgr_results s' = mgr_results s ++ rows /\
    Forall2 distillation_tagged (cases rrs sts) rows.
Proof.
  unfold distillation_sweep. rewrite nested_loops.
  apply (for_each_records_one _ _ distillation_case_records_tagged).
Qed.

(** The two studies of [__main__], one after the other. *)
Lemma both_studies_rows s :
  exists rows_a rows_b s',
    (run_pfr_study E ;; run_distillation_study E) s = (Ok tt, s') /\
    mgr_results s' = mgr_results s ++ rows_a ++ rows_b /\
    Forall2 pfr_tagged (cases temperatures volumes) rows_a /\
    Forall2 distillation_tagged (cases reflux_ratios stages_list) rows_b.
Proof.
  destruct (pfr_sweep_rows temperatures volumes s)
    as (rows_a & s1 & Ha & Hra & Hta).
  destruct (distillation_sweep_rows reflux_ratios stages_list s1)
    as (rows_b & s2 & Hb & Hrb & Htb).
  exists rows_a, rows_b, s2.
  unfold bind, run_pfr_study, run_distillation_study. rewrite Ha, Hb.
  repeat split; try assumption.
  rewrite Hrb, Hra, app_assoc. reflexivity.
Qed.

End Sweeps.

Lemma NoDup_temperatures : NoDup temperatures.
Proof.
  unfold temperatures.
  repeat constructor; simpl; intuition discriminate.
Qed.

Lemma NoDup_volumes : NoDup volumes.
Proof.
  unfold volumes.
  repeat constructor; simpl; intuition discriminate.
Qed.

Lemma NoDup_reflux_ratios : NoDup reflux_ratios.
Proof.
  unfold reflux_ratios.
  repeat constructor; simpl; intuition discriminate.
Qed.

Lemma NoDup_stages_list : NoDup stages_list.
Proof.
  unfold stages_list.
  repeat constructor; simpl; intuition discriminate.
Qed.

Section CaseGenerator.

Context {W : Type}.
Variable E : Automation W.

(** C2. The two nested loops of a study go through the cartesian product
    of its two axes: as many cases as the product of the sizes, the case of
    the i-th outer and j-th inner value at turn i * |inner| + j (first axis
    outermost, none dropped, none moved), all distinct when the values of
    each axis are; the generator the specification describes for any number
    of axes has the product of the sizes as its count, keeps combinations
    distinct, and for two axes is the nested loops. Whatever the engine
    does, the 3 x 3 reactor sweep followed by the 3 x 3 distillation sweep
    returns with 18 more rows, the k-th of each sweep tagged with the case
    type and carrying the parameter values of the k-th case. *)
Theorem sweeps_visit_the_cartesian_product :
  (forall temps vols s,
      pfr_sweep E temps vols s =
      for_each (cases temps vols) (fun c => pfr_case E (fst c) (snd c)) s) /\
  (forall rrs sts s,
      distillation_sweep E rrs sts s =
      for_each (cases rrs sts)
        (fun c => distillation_case E (fst c) (snd c)) s) /\
  (forall (A B : Type) (xs : list A) (ys : list B),
      List.length (cases xs ys) = List.length xs * List.length ys /\
      (forall i j x y,
          nth_error xs i = Some x ->
          nth_error ys j = Some y ->
          nth_error (cases xs ys) (i * List.length ys + j) = Some (x, y)) /\
      (NoDup xs -> NoDup ys -> NoDup (cases xs ys))) /\
  (forall (A : Type) (axes : list (list A)),
      List.length (spec_case_generator axes) = product_of_sizes axes /\
      (Forall (@NoDup A) axes -> NoDup (spec_case_generator axes))) /\
  (forall (A : Type) (d : A) (xs ys : list A),
      map (pair_of_list d) (spec_case_generator [xs; ys]) = cases xs ys) /\
  NoDup (cases temperatures volumes) /\
  NoDup (cases reflux_ratios stages_list) /\
  (forall s, exists rows_a rows_b s',
      (run_pfr_study E ;; run_distillation_study E) s = (Ok tt, s') /\
      mgr_results s' = mgr_results s ++ rows_a ++ rows_b /\
      Forall2 pfr_tagged (cases temperatures volumes) rows_a /\
      Forall2 distillation_tagged (cases reflux_ratios stages_list) rows_b /\
      List.length rows_a = 9 /\
      List.length rows_b = 9 /\
      List.length (rows_a ++ rows_b) = 18).
Proof.
  split; [| split; [| split; [| split; [| split; [| split; [| split]]]]]].
  - intros. unfold pfr_sweep. apply nested_loops.
  - intros. unfold distillation_sweep. apply nested_loops.
  - intros A B xs ys. split; [apply length_cases | split].
    + intros. apply nth_error_cases; assumption.
    + apply NoDup_cases.
  - intros A axes. split.
    + apply length_spec_case_generator.
    + apply NoDup_spec_case_generator.
  - intros. apply spec_case_generator_two.
  - apply NoDup_cases; [apply NoDup_temperatures | apply NoDup_volumes].
  - apply NoDup_cases; [apply NoDup_reflux_ratios | apply NoDup_stages_list].
  - intros s.
    destruct (both_studies_rows E s) as (ra & rb & s' & Hrun & Hres & Ha & Hb).
    exists ra, rb, s'.
    pose proof (Forall2_length Ha) as La.
    pose proof (Forall2_length Hb) as Lb.
    rewrite length_cases in La. rewrite length_cases in Lb.
    simpl in La, Lb.
    repeat split; auto.
    rewrite length_app, <- La, <- Lb. reflexivity.
Qed.

End CaseGenerator.

(** C2 on the axes of the reactor sweep: the case of the second
    temperature and the third volume is the sixth, and a product of axes
    without repetition has none. *)
Lemma sweeps_visit_the_cartesian_product_witness :
  nth_error (cases temperatures volumes) (1 * 3 + 2)
    = Some (325%Z, PyFloat.of_Z 3) /\
  NoDup (cases temperatures volumes) /\
  NoDup (spec_case_generator [[1; 2; 3]; [4; 5]; [6]]).
Proof.
  pose proof (sweeps_visit_the_cartesian_product (scripted nominal)) as H.
  destruct H as (_ & _ & Hc & Hg & _ & _ & _ & _).
  split; [| split].
  - apply (proj1 (proj2 (Hc _ _ temperatures volumes)) 1 2);
      reflexivity.
  - apply (proj2 (proj2 (Hc _ _ temperatures volumes)));
      [apply NoDup_temperatures | apply NoDup_volumes].
  - apply (proj2 (Hg _ [[1; 2; 3]; [4; 5]; [6]])).
    repeat constructor; simpl; intuition discriminate.
Defined.

(* ------------------------------------------------------------------ *)
(** ** One row per case *)

(** C3, as stated, fails on the error text: when creating the flowsheet
    raises an exception whose message is empty, the case is recorded as
    failed with an empty [Error]. *)
Lemma failed_case_with_empty_error :
  look ["Success"; "Error"]
    (mgr_results
       (snd (pfr_case (scripted silent_crash) 300 (PyFloat.of_Z 1) (fresh 0))))
  = [[Some (VBool false); Some (VStr "")]].
Proof. vm_compute. reflexivity. Qed.

Section Recording.

Context {W : Type}.
Variable E : Automation W.

Lemma rows_of_sweep_count {A B} (P : A * B -> pydict -> Prop)
    (xs : list A) (ys : list B) (rows : list pydict) :
  Forall2 P (cases xs ys) rows ->
  List.length rows = List.length xs * List.length ys.
Proof.
  intros H. rewrite <- (Forall2_length H). apply length_cases.
Qed.

(** C3, amended. Whatever the engine does, a case returns after adding
    exactly one row. The row says [Success = False] with the message of the
    exception as [Error] (empty when the message is) when the set-up, the
    solve or the read-back raised; otherwise [Success] is what the solve
    wrapper reported, and [Error] is empty on success and the text of the
    solver's error list on failure. A sweep goes on to its last case: it
    returns with one more row per case. *)
Theorem every_case_records_one_row :
  (forall temp vol s, exists row s',
      pfr_case E temp vol s = (Ok tt, s') /\
      mgr_results s' = mgr_results s ++ [row] /\
      match pfr_setup E temp vol s with
      | (Raise e, _) => verdict row false e
      | (Ok fs, s1) =>
          match run_simulation E s1 with
          | (Raise e, _) => verdict row false e
          | (Ok (ok, errs), s2) =>
              match pfr_extract E fs s2 with
              | (Raise e, _) => verdict row false e
              | (Ok _, _) =>
                  verdict row ok (if ok then "" else str_errors E errs)
              end
          end
      end) /\
  (forall rr stages s, exists row s',
      distillation_case E rr stages s = (Ok tt, s') /\
      mgr_results s' = mgr_results s ++ [row] /\
      match distillation_setup E rr stages s with
      | (Raise e, _) => verdict row false e
      | (Ok dist, s1) =>
          match run_simulation E s1 with
          | (Raise e, _) => verdict row false e
          | (Ok (ok, errs), s2) =>
              match distillation_extract E dist s2 with
              | (Raise e, _) => verdict row false e
              | (Ok _, _) =>
                  verdict row ok (if ok then "" else str_errors E errs)
              end
          end
      end) /\
  (forall temps vols s, exists rows s',
      pfr_sweep E temps vols s = (Ok tt, s') /\
      mgr_results s' = mgr_results s ++ rows /\
      List.length rows = List.length temps * List.length vols) /\
  (forall rrs sts s, exists rows s',
      distillation_sweep E rrs sts s = (Ok tt, s') /\
      mgr_results s' = mgr_results s ++ rows /\
      List.length rows = List.length rrs * List.length sts).
Proof.
  split; [| split; [| split]].
  - intros temp vol s.
    destruct (pfr_case_run E temp vol s) as (d & s1 & Hd & Hres & Hrun).
    rewrite Hrun, log_result_run. simpl.
    eexists. eexists. split; [reflexivity |]. simpl.
    split; [rewrite Hres; reflexivity |].
    rewrite pfr_case_logs_trace in Hd.
    destruct (pfr_setup E temp vol s) as [[fs | e] s1'];
      [| injection Hd as <- _; split; reflexivity ].
    destruct (run_simulation E s1') as [[[ok errs] | e] s2];
      [| injection Hd as <- _; split; reflexivity ].
    destruct (pfr_extract E fs s2) as [[m | e] s3];
      injection Hd as <- _; [| split; reflexivity].
    destruct ok; split; reflexivity.
  - intros rr n s.
    destruct (distillation_case_run E rr n s) as (d & s1 & Hd & Hres & Hrun).
    rewrite Hrun, log_result_run. simpl.
    eexists. eexists. split; [reflexivity |]. simpl.
    split; [rewrite Hres; reflexivity |].
    rewrite distillation_case_logs_trace in Hd.
    destruct (distillation_setup E rr n s) as [[dist | e] s1'];
      [| injection Hd as <- _; split; reflexivity ].
    destruct (run_simulation E s1') as [[[ok errs] | e] s2];
      [| injection Hd as <- _; split; reflexivity ].
    destruct (distillation_extract E dist s2) as [[[c r] | e] s3];
      injection Hd as <- _; [| split; reflexivity].
    destruct ok; split; reflexivity.
  - intros temps vols s.
    destruct (pfr_sweep_rows E temps vols s) as (rows & s' & H1 & H2 & H3).
    exists rows, s'. repeat split; auto.
    exact (rows_of_sweep_count _ _ _ _ H3).
  - intros rrs sts s.
    destruct (distillation_sweep_rows E rrs sts s)
      as (rows & s' & H1 & H2 & H3).
    exists rows, s'. repeat split; auto.
    exact (rows_of_sweep_count _ _ _ _ H3).
Qed.

End Recording.

(** C3 on a sweep of three cases whose second solve fails: three rows,
    the second one failed, with the text of the solver's errors. *)
Lemma every_case_records_one_row_witness :
  (exists rows s',
      pfr_sweep (scripted (failing_solver [2%nat])) temperatures
        [PyFloat.of_Z 1] (fresh 0) = (Ok tt, s') /\
      mgr_results s' = mgr_results (fresh 0) ++ rows /\
      List.length rows = 3 * 1) /\
  look ["Success"; "Error"]
    (mgr_results
       (snd (pfr_sweep (scripted (failing_solver [2%nat])) temperatures
               [PyFloat.of_Z 1] (fresh 0))))
  = [[Some (VBool true); Some (VStr "")];
     [Some (VBool false); Some (VStr "[Column did not converge]")];
     [Some (VBool true); Some (VStr "")]].
Proof.
  split.
  - exact (proj1 (proj2 (proj2
             (every_case_records_one_row (scripted (failing_solver [2%nat])))))
             temperatures [PyFloat.of_Z 1] (fresh 0)).
  - vm_compute. reflexivity.
Defined.

(* ------------------------------------------------------------------ *)
(** ** Reading the results back *)

(** C7. The code at the failing inputs. On an engine on which all goes
    well but the temperature of a stream cannot be read, the reactor case
    is recorded as failed, with the message of the read as its error and
    none of its metrics; so is it when the energy flow cannot be read, and
    so is a distillation case whose reboiler duty cannot be read. On the
    same engine with an unreadable molar flow instead, the helper of the
    component flows puts 0.0 in its place and the case is recorded as a
    success with all its metrics: the reads of the flows do what the claim
    says, the reads of the temperature and of the duties do not. *)
Lemma unreadable_temperature_fails_the_case :
  look ["Success"; "Error"; "Conversion"; "OutletTemperature_K"]
    (mgr_results
       (snd (pfr_case (scripted (unreadable "Temperature")) 300
               (PyFloat.of_Z 1) (fresh 0))))
  = [[Some (VBool false); Some (VStr "Property not found"); None; None]] /\
  look ["Success"; "Error"; "CondenserDuty_kW"; "DistillatePurity"]
    (mgr_results
       (snd (distillation_case (scripted (unreadable "Reboiler Duty"))
               (PyFloat.of_Z 2) 10 (fresh 0))))
  = [[Some (VBool false); Some (VStr "Property not found"); None; None]] /\
  look ["Success"; "Error"; "Conversion"; "HeatDuty_kW"]
    (mgr_results
       (snd (pfr_case (scripted (unreadable "Energy Flow")) 300
               (PyFloat.of_Z 1) (fresh 0))))
  = [[Some (VBool false); Some (VStr "Property not found"); None; None]] /\
  look ["Success"; "Error"; "Conversion"; "OutletFlow_B_mol_s";
        "OutletTemperature_K"]
    (mgr_results
       (snd (pfr_case (scripted (unreadable "Molar Flow")) 300
               (PyFloat.of_Z 1) (fresh 0))))
  = [[Some (VBool true); Some (VStr ""); Some (VInt 0);
      Some (VFloat PyFloat.zero); Some (VFloat (PyFloat.of_Z 100))]].
Proof. repeat split; vm_compute; reflexivity. Qed.

Section Extract.

Context {W : Type}.
Variable E : Automation W.

Lemma get_comp_flow_run o name s :
  get_comp_flow E o name s =
  match comp_flow_reads E o name s with
  | (Ok f, s1) => (Ok f, s1)
  | (Raise _, s1) => (Ok PyFloat.zero, s1)
  end.
Proof.
  unfold get_comp_flow, try_except.
  destruct (comp_flow_reads E o name s) as [[f | e] s1]; reflexivity.
Qed.

End Extract.

(* ------------------------------------------------------------------ *)
(** ** Assigning the reaction set *)



Section Binding.

Context {W : Type}.
Variable E : Automation W.

Lemma total_assign_reaction_set p t rs : total (assign_reaction_set E p t rs).
Proof.
  intros s. unfold assign_reaction_set.
  destruct rs as [rs |]; [| eexists; eexists; reflexivity].
  unfold try_except, bind, call, ret.
  destruct (GetProperty E t "ReactionSetID" (world s)) as [[[h |] | e] w1];
    [| | eexists; eexists; reflexivity].
  - cbn. destruct (SetValue E h p (VStr (rs_ID rs)) w1) as [[[] | e] w2];
      eexists; eexists; reflexivity.
  - cbn.
    destruct (SetPropertyValue E p "Reaction Set" (VStr (rs_ID rs)) w1)
      as [[[] | e] w2]; eexists; eexists; reflexivity.
Qed.

Lemma total_configure_pfr p t v : total (configure_pfr E p t v).
Proof.
  intros s. unfold configure_pfr, try_except.
  match goal with |- context [?m s] =>
    destruct (m s) as [[[] | e] s1] end;
    eexists; eexists; reflexivity.
Qed.

(** A PFR case that ran to its end logs the dictionary of the [try]
    body. *)
Lemma pfr_case_completes temp vol s fs s1 ok errs s2 m s3 :
  pfr_setup E temp vol s = (Ok fs, s1) ->
  run_simulation E s1 = (Ok (ok, errs), s2) ->
  pfr_extract E fs s2 = (Ok m, s3) ->
  pfr_case E temp vol s =
  log_result E "PFR_Sweep" (pfr_row E temp vol m ok errs) s3.
Proof.
  intros H1 H2 H3.
  rewrite pfr_case_unfold. unfold bind.
  rewrite pfr_case_logs_trace, H1, H2, H3. reflexivity.
Qed.


End Binding.


Section Resolver.

Context {W : Type}.
Variable E : Automation W.

Lemma try_property_run p t name i s :
  try_property E p t name i s =
  match GetProperty E t name (world s) with
  | (Ok (Some h), w1) =>
      match SetValue E h p (VInt i) w1 with
      | (Ok _, w2) =>
          (Ok true, mkState w2 (mgr_interf s) (mgr_sim s) (mgr_results s)
                      (files s))
      | (Raise _, w2) =>
          (Ok false, mkState w2 (mgr_interf s) (mgr_sim s) (mgr_results s)
                       (files s))
      end
  | (Ok None, w1) | (Raise _, w1) =>
      (Ok false, mkState w1 (mgr_interf s) (mgr_sim s) (mgr_results s)
                   (files s))
  end.
Proof.
  unfold try_property, try_except, bind, call, ret.
  destruct (GetProperty E t name (world s)) as [[[h |] | e] w1];
    try reflexivity.
  cbn. destruct (SetValue E h p (VInt i) w1) as [[[] | e] w2]; reflexivity.
Qed.

Lemma try_attribute_run p i s :
  try_attribute E p i s =
  match SetAttr E p "ReactionSet" (VInt i) (world s) with
  | (Ok _, w1) =>
      (Ok true, mkState w1 (mgr_interf s) (mgr_sim s) (mgr_results s)
                  (files s))
  | (Raise _, w1) =>
      (Ok false, mkState w1 (mgr_interf s) (mgr_sim s) (mgr_results s)
                   (files s))
  end.
Proof.
  unfold try_attribute, try_except, bind, call, ret.
  destruct (SetAttr E p "ReactionSet" (VInt i) (world s)) as [[[] | e] w1];
    reflexivity.
Qed.

Lemma total_try_property p t name i : total (try_property E p t name i).
Proof.
  intros s. rewrite try_property_run.
  destruct (GetProperty E t name (world s)) as [[[h |] | e] w1];
    try (eexists; eexists; reflexivity).
  destruct (SetValue E h p (VInt i) w1) as [[[] | e] w2];
    eexists; eexists; reflexivity.
Qed.

Lemma total_try_attribute p i : total (try_attribute E p i).
Proof.
  intros s. rewrite try_attribute_run.
  destruct (SetAttr E p "ReactionSet" (VInt i) (world s)) as [[[] | e] w1];
    eexists; eexists; reflexivity.
Qed.


End Resolver.

(** The debug script on a reactor that has "ReactionSet" and
    "ReactionSetID": the second method is the one used. *)
Example debug_script_uses_second_method :
  fst (debug_assign_reaction_set
         (scripted (reactor_with ["ReactionSet"; "ReactionSetID"] []))
         1000 105 105 default_set (fresh 0))
  = Ok (AssignedBy Method2).
Proof. vm_compute. reflexivity. Qed.

(* ------------------------------------------------------------------ *)
(** ** The export *)

Lemma mem_string_In (k : string) (l : list string) :
  mem_string k l = true <-> In k l.
Proof.
  unfold mem_string. rewrite existsb_exists. split.
  - intros (x & Hx & Heq). apply String.eqb_eq in Heq. subst. exact Hx.
  - intros H. exists k. split; [exact H | apply String.eqb_refl].
Qed.

Lemma mem_string_not_In (k : string) (l : list string) :
  mem_string k l = false <-> ~ In k l.
Proof.
  rewrite <- mem_string_In. destruct (mem_string k l); split; intros H;
    try reflexivity; try discriminate; try (intros H'; discriminate H').
  exfalso; apply H; reflexivity.
Qed.

Lemma string_app_nil_r (s : string) : (s ++ "")%string = s.
Proof. induction s as [| c s IH]; simpl; [| rewrite IH]; reflexivity. Qed.

Lemma in_add_keys (cols ks : list string) (k : string) :
  In k (add_keys cols ks) <-> In k cols \/ In k ks.
Proof.
  revert cols. induction ks as [| k0 ks IH]; intros cols; simpl.
  - tauto.
  - rewrite IH. destruct (mem_string k0 cols) eqn:Hm.
    + apply mem_string_In in Hm. intuition (subst; auto).
    + rewrite in_app_iff. simpl. tauto.
Qed.

Lemma NoDup_add_keys (cols ks : list string) :
  NoDup cols -> NoDup (add_keys cols ks).
Proof.
  revert cols. induction ks as [| k0 ks IH]; intros cols Hc; simpl.
  - exact Hc.
  - apply IH. destruct (mem_string k0 cols) eqn:Hm; [exact Hc |].
    apply mem_string_not_In in Hm.
    apply NoDup_app; [exact Hc | repeat constructor; intros [] |].
    intros a Ha [<- | []]. contradiction.
Qed.

(** New keys go to the end, in the order of the row. *)
Lemma add_keys_new (cols ks : list string) :
  NoDup ks ->
  add_keys cols ks =
  cols ++ filter (fun k => negb (mem_string k cols)) ks.
Proof.
  revert cols. induction ks as [| k0 ks IH]; intros cols Hks; simpl.
  - rewrite app_nil_r. reflexivity.
  - inversion Hks as [| ? ? Hk0 Hks']; subst.
    rewrite (IH _ Hks').
    destruct (mem_string k0 cols) eqn:Hm; simpl.
    + reflexivity.
    + rewrite <- app_assoc. simpl. f_equal. f_equal.
      apply filter_ext_in. intros k Hk.
      unfold mem_string. rewrite existsb_app. simpl.
      destruct (String.eqb_spec k k0) as [-> | Hne]; [contradiction |].
      rewrite !orb_false_r. reflexivity.
Qed.

Lemma add_keys_extends (cols ks : list string) :
  exists extra, add_keys cols ks = cols ++ extra.
Proof.
  revert cols. induction ks as [| k0 ks IH]; intros cols; simpl.
  - exists []. rewrite app_nil_r. reflexivity.
  - destruct (mem_string k0 cols).
    + apply IH.
    + destruct (IH (cols ++ [k0])) as (extra & ->).
      exists (k0 :: extra). rewrite <- app_assoc. reflexivity.
Qed.

(** The columns, started from the columns [acc] seen so far. *)
Lemma columns_from_spec (rows : list pydict) (acc : list string) :
  let cols := fold_left (fun cols r => add_keys cols (dict_keys r)) rows acc in
  (NoDup acc -> NoDup cols) /\
  (forall k, In k cols <->
             In k acc \/ exists r, In r rows /\ In k (dict_keys r)) /\
  (exists extra, cols = acc ++ extra).
Proof.
  revert acc. induction rows as [| r rows IH]; intros acc; simpl.
  - split; [auto | split].
    + intros k. split; [auto | intros [H | (r & [] & _)]; exact H].
    + exists []. rewrite app_nil_r. reflexivity.
  - destruct (IH (add_keys acc (dict_keys r))) as (Hn & Hin & Hext).
    split; [| split].
    + intros Hacc. apply Hn, NoDup_add_keys, Hacc.
    + intros k. rewrite Hin, in_add_keys. split.
      * intros [[H | H] | (r' & Hr' & Hk)]; eauto.
      * intros [H | (r' & [<- | Hr'] & Hk)]; eauto.
    + destruct Hext as (extra & ->).
      destruct (add_keys_extends acc (dict_keys r)) as (extra' & ->).
      exists (extra' ++ extra). rewrite app_assoc. reflexivity.
Qed.

Lemma columns_app (rows1 rows2 : list pydict) :
  columns (rows1 ++ rows2) =
  fold_left (fun cols r => add_keys cols (dict_keys r)) rows2 (columns rows1).
Proof. unfold columns. apply fold_left_app. Qed.

Lemma file_write_twice fs path content :
  file_write (file_write fs path content) path content =
  file_write fs path content.
Proof.
  induction fs as [| [p c] fs IH]; simpl.
  - rewrite String.eqb_refl. reflexivity.
  - destruct (String.eqb p path) eqn:Hp; simpl; rewrite Hp.
    + reflexivity.
    + rewrite IH. reflexivity.
Qed.

Lemma file_read_write fs path content :
  file_read (file_write fs path content) path = Some content.
Proof.
  induction fs as [| [p c] fs IH]; simpl.
  - rewrite String.eqb_refl. reflexivity.
  - destruct (String.eqb p path) eqn:Hp; simpl; rewrite Hp.
    + reflexivity.
    + exact IH.
Qed.

Lemma file_read_write_other fs path content p :
  p <> path -> file_read (file_write fs path content) p = file_read fs p.
Proof.
  intros Hp. induction fs as [| [q c] fs IH]; simpl.
  - destruct (String.eqb_spec path p); [congruence | reflexivity].
  - destruct (String.eqb_spec q path) as [-> | Hq]; simpl.
    + destruct (String.eqb_spec path p); [congruence | reflexivity].
    + destruct (String.eqb q p); [reflexivity | exact IH].
Qed.

Lemma concat_cons (x : string) (xs : list string) :
  String.concat EmptyString (x :: xs)
  = (x ++ String.concat EmptyString xs)%string.
Proof.
  destruct xs as [| y ys]; simpl; [| reflexivity].
  symmetry. apply string_app_nil_r.
Qed.

(** The text is the header row followed by the rows of data. *)
Lemma to_csv_lines (F : CsvFormat) (rows : list pydict) :
  to_csv F rows =
  String.concat EmptyString
    (map (csv_line (lineterminator F))
         (columns rows :: map (data_fields F rows) rows)).
Proof.
  unfold to_csv. rewrite map_cons, concat_cons, map_map. reflexivity.
Qed.

Lemma fields_of_app (f rest : string) :
  has_comma f = false ->
  fields_of (f ++ "," ++ rest) = f :: fields_of rest.
Proof.
  induction f as [| c f IH]; intros H.
  - reflexivity.
  - simpl in H. apply orb_false_elim in H. destruct H as [Hc Hf].
    simpl. rewrite Hc. simpl in IH. rewrite (IH Hf). reflexivity.
Qed.

Lemma fields_of_field (f : string) :
  has_comma f = false -> fields_of f = [f].
Proof.
  induction f as [| c f IH]; intros H.
  - reflexivity.
  - simpl in H. apply orb_false_elim in H. destruct H as [Hc Hf].
    simpl. rewrite Hc, (IH Hf). reflexivity.
Qed.

(** Fields that hold no comma are read back as they were written. *)
Lemma fields_of_join (fs : list string) :
  fs <> [] ->
  Forall (fun f => has_comma f = false) fs ->
  fields_of (join "," fs) = fs.
Proof.
  induction fs as [| f fs IH]; intros Hne Hall; [contradiction |].
  inversion Hall as [| ? ? Hf Hfs]; subst.
  destruct fs as [| g fs].
  - simpl. apply fields_of_field, Hf.
  - change (join "," (f :: g :: fs))
      with (f ++ "," ++ join "," (g :: fs))%string.
    rewrite (fields_of_app _ _ Hf), IH; [reflexivity | discriminate | exact Hfs].
Qed.

Lemma nth_error_data_fields (F : CsvFormat) (rows : list pydict) (r : pydict)
    (i : nat) :
  nth_error (data_fields F rows r) i =
  option_map (cell_text F rows r) (nth_error (columns rows) i).
Proof. unfold data_fields. apply nth_error_map. Qed.




(* ------------------------------------------------------------------ *)
(** ** How the process ends *)

Lemma find_dwsim_none (h : host) (paths : list string) :
  (forall p, In p paths -> path_exists h (path_join p dll) = false) ->
  find_dwsim h paths = None.
Proof.
  induction paths as [| p paths IH]; intros H; simpl.
  - reflexivity.
  - rewrite (H p (or_introl eq_refl)). apply IH.
    intros q Hq. apply H. right. exact Hq.
Qed.

Section Process.

Context {W : Type}.
Variable E : Automation W.
Variable F : CsvFormat.
Variable h : host.

Lemma main_started p w interf w' :
  startup h = Started p ->
  Automation3 E w = (Ok interf, w') ->
  exists s,
    main E F h w = Finished s /\
    List.length (mgr_results s) = 18.
Proof.
  intros Hs Ha. unfold main. rewrite Hs, Ha.
  destruct (both_studies_rows E (mkState w' interf None [] []))
    as (ra & rb & s1 & Hrun & Hres & HFa & HFb).
  unfold bind in *.
  destruct (run_pfr_study E (mkState w' interf None [] []))
    as [[[] | e] s0]; [| discriminate Hrun].
  rewrite Hrun. simpl.
  eexists. split; [reflexivity |]. simpl.
  rewrite Hres. simpl. rewrite length_app.
  rewrite <- (Forall2_length HFa), <- (Forall2_length HFb).
  reflexivity.
Qed.


End Process.


(* ================================================================== *)
(** * Further properties of the scripts *)

(* ------------------------------------------------------------------ *)
(** ** What a computation leaves alone *)

Section Keeps.

Context {W X : Type}.
Variable f : state W -> X.
Hypothesis f_world :
  forall s w',
    f (mkState w' (mgr_interf s) (mgr_sim s) (mgr_results s) (files s)) = f s.

Lemma keeps_ret {A} (a : A) : keeps f (@ret W A a).
Proof. intros s; reflexivity. Qed.

Lemma keeps_raise {A} (e : exn) : keeps f (@raise W A e).
Proof. intros s; reflexivity. Qed.

Lemma keeps_eval {A} (r : res A) : keeps f (@eval W A r).
Proof. intros s; reflexivity. Qed.

Lemma keeps_call {A} (g : W -> res A * W) : keeps f (call g).
Proof.
  intros s. unfold call. destruct (g (world s)) as [r w']. apply f_world.
Qed.

Lemma keeps_bind {A B} (m : M W A) (k : A -> M W B) :
  keeps f m -> (forall a, keeps f (k a)) -> keeps f (bind m k).
Proof.
  intros Hm Hk s. unfold bind.
  specialize (Hm s). destruct (m s) as [[a | e] s1]; simpl in *.
  - rewrite (Hk a s1). exact Hm.
  - exact Hm.
Qed.

Lemma keeps_try_except {A} (m : M W A) (h : exn -> M W A) :
  keeps f m -> (forall e, keeps f (h e)) -> keeps f (try_except m h).
Proof.
  intros Hm Hh s. unfold try_except.
  specialize (Hm s). destruct (m s) as [[a | e] s1]; simpl in *.
  - exact Hm.
  - rewrite (Hh e s1). exact Hm.
Qed.

Lemma keeps_for_each {A} (l : list A) (body : A -> M W unit) :
  (forall x, keeps f (body x)) -> keeps f (for_each l body).
Proof.
  intros Hb. induction l as [| x l IH]; simpl.
  - apply keeps_ret.
  - apply keeps_bind; [apply Hb | intros _; exact IH].
Qed.

Lemma keeps_self_sim (attr : string) : keeps f (@self_sim W attr).
Proof. intros s; unfold self_sim; destruct (mgr_sim s); reflexivity. Qed.

Lemma keeps_self_interf : keeps f (@self_interf W).
Proof. intros s; reflexivity. Qed.

Lemma keeps_run_simulation (E : Automation W) : keeps f (run_simulation E).
Proof.
  intros s. unfold run_simulation, bind, call.
  destruct (CalculateFlowsheet2 E (mgr_interf s) (mgr_sim s) (world s))
    as [[[l |] | e] w']; apply f_world.
Qed.

End Keeps.

(** Goes through a computation, given the proof [H] that the component
    does not depend on the world. *)
Ltac keep_step H :=
  match goal with
  | |- keeps _ (bind _ _) => apply keeps_bind; [| intros ?]
  | |- keeps _ (try_except _ _) => apply keeps_try_except; [| intros ?]
  | |- keeps _ (for_each _ _) => apply keeps_for_each; intros ?
  | |- keeps _ (call _) => apply keeps_call; exact H
  | |- keeps _ (run_simulation _) => apply keeps_run_simulation; exact H
  | |- keeps _ (ret _) => apply keeps_ret
  | |- keeps _ (raise _) => apply keeps_raise
  | |- keeps _ (eval _) => apply keeps_eval
  | |- keeps _ (self_sim _) => apply keeps_self_sim
  | |- keeps _ self_interf => apply keeps_self_interf
  | |- keeps _ (match ?x with _ => _ end) => destruct x
  | |- keeps _ (if ?b then _ else _) => destruct b
  end.

Ltac keep H := repeat (keep_step H).

(* ------------------------------------------------------------------ *)
(** ** Adding the compounds *)

Section Compounds.

Context {W : Type}.
Variable E : Automation W.

(** X1. [setup_compounds] never raises. With a flowsheet in place it
    calls [AddCompound] once for every compound of the list, in order, also
    after a call that raised, and changes nothing in the manager; with no
    flowsheet it makes no call at all. *)
Theorem setup_compounds_attempts_every_compound :
  (forall compounds s sim,
      mgr_sim s = Some sim ->
      setup_compounds E compounds s =
      (Ok tt,
       mkState (compound_worlds E sim compounds (world s))
         (mgr_interf s) (mgr_sim s) (mgr_results s) (files s))) /\
  (forall compounds s,
      mgr_sim s = None ->
      setup_compounds E compounds s =
      (Ok tt,
       mkState (world s) (mgr_interf s) (mgr_sim s) (mgr_results s)
         (files s))).
Proof.
  split.
  - intros compounds. induction compounds as [| c l IH];
      intros [w i sm r fl] sim Hsim; simpl in Hsim; subst sm.
    + reflexivity.
    + unfold setup_compounds in *. simpl.
      unfold bind at 1. unfold try_except, bind, self_sim, call. simpl.
      unfold compound_worlds. simpl fold_left.
      destruct (AddCompound E sim c w) as [[[] | e] w'];
        simpl; rewrite (IH _ sim) by reflexivity; reflexivity.
  - intros compounds. induction compounds as [| c l IH];
      intros [w i sm r fl] Hsim; simpl in Hsim; subst sm.
    + reflexivity.
    + unfold setup_compounds in *. simpl.
      unfold bind at 1. unfold try_except, bind, self_sim. simpl.
      rewrite IH by reflexivity. reflexivity.
Qed.

End Compounds.

(** X1 on the two compounds of the reactor study. *)
Lemma setup_compounds_attempts_every_compound_witness :
  setup_compounds (scripted nominal) ["Water"; "Ethanol"]
    (mkState 1%nat 0%nat (Some 1000%nat) [] [])
  = (Ok tt, mkState 1%nat 0%nat (Some 1000%nat) [] []).
Proof.
  exact (proj1 (setup_compounds_attempts_every_compound (scripted nominal))
           ["Water"; "Ethanol"] (mkState 1%nat 0%nat (Some 1000%nat) [] [])
           1000%nat eq_refl).
Defined.

(* ------------------------------------------------------------------ *)
(** ** The flowsheet of a case *)

Section Isolation.

Context {W : Type}.
Variable E : Automation W.

Lemma sim_world (s : state W) (w' : W) :
  mgr_sim (mkState w' (mgr_interf s) (mgr_sim s) (mgr_results s) (files s))
  = mgr_sim s.
Proof. reflexivity. Qed.

Lemma create_simulation_run (s : state W) :
  create_simulation E s =
  match CreateFlowsheet E (mgr_interf s) (world s) with
  | (Ok sim, w1) =>
      (Ok sim, mkState w1 (mgr_interf s) (Some sim) (mgr_results s) (files s))
  | (Raise e, w1) =>
      (Raise e,
       mkState w1 (mgr_interf s) (mgr_sim s) (mgr_results s) (files s))
  end.
Proof.
  unfold create_simulation, bind, self_interf, call, set_self_sim, ret.
  destruct (CreateFlowsheet E (mgr_interf s) (world s)) as [[sim | e] w1];
    reflexivity.
Qed.

Lemma pfr_setup_split temp vol s :
  pfr_setup E temp vol s =
  match create_simulation E s with
  | (Ok _, s0) => pfr_after_create E temp vol s0
  | (Raise e, s0) => (Raise e, s0)
  end.
Proof.
  unfold pfr_setup, pfr_build, pfr_after_create, bind.
  destruct (create_simulation E s) as [[sim | e] s0]; [| reflexivity].
  repeat match goal with
         | |- context [match ?m s0 with _ => _ end] =>
             destruct (m s0) as [[? | ?] s0']; try reflexivity; clear s0;
             rename s0' into s0
         end.
Qed.

Lemma distillation_setup_split rr n s :
  distillation_setup E rr n s =
  match create_simulation E s with
  | (Ok _, s0) => distillation_after_create E rr n s0
  | (Raise e, s0) => (Raise e, s0)
  end.
Proof.
  unfold distillation_setup, distillation_after_create, bind.
  destruct (create_simulation E s) as [[sim | e] s0]; reflexivity.
Qed.

Lemma keeps_sim_pfr_after_create temp vol :
  keeps mgr_sim (pfr_after_create E temp vol).
Proof.
  unfold pfr_after_create, setup_compounds, add_material_stream,
    define_reaction, add_reaction_to_set, add_pfr, connect,
    assign_reaction_set, configure_pfr.
  keep (@sim_world).
Qed.

Lemma keeps_sim_distillation_after_create rr n :
  keeps mgr_sim (distillation_after_create E rr n).
Proof.
  unfold distillation_after_create, setup_compounds, add_material_stream.
  keep (@sim_world).
Qed.

Lemma keeps_sim_pfr_extract fs : keeps mgr_sim (pfr_extract E fs).
Proof.
  unfold pfr_extract, get_comp_flow, comp_flow_reads, get_temp, get_duty.
  keep (@sim_world).
Qed.

Lemma keeps_sim_distillation_extract d :
  keeps mgr_sim (distillation_extract E d).
Proof. unfold distillation_extract. keep (@sim_world). Qed.

Lemma keeps_sim_log_result ct logs : keeps mgr_sim (log_result E ct logs).
Proof. intros s. reflexivity. Qed.

End Isolation.

Section OwnFlowsheet.

Context {W : Type}.
Variable E : Automation W.

Lemma sim_after_pfr_case temp vol s :
  mgr_sim (snd (pfr_case E temp vol s)) =
  mgr_sim (snd (pfr_setup E temp vol s)) /\
  (forall e s1, pfr_setup E temp vol s = (Raise e, s1) ->
                world (snd (pfr_case E temp vol s)) = world s1).
Proof.
  rewrite pfr_case_unfold. unfold bind. rewrite pfr_case_logs_trace.
  destruct (pfr_setup E temp vol s) as [[fs | e] s1]; simpl.
  - split; [| intros ? ? H; discriminate H].
    pose proof (keeps_run_simulation mgr_sim (@sim_world W) E s1) as K2.
    destruct (run_simulation E s1) as [[[ok errs] | e] s2]; simpl in *;
      [| exact K2].
    pose proof (keeps_sim_pfr_extract E fs s2) as K3.
    destruct (pfr_extract E fs s2) as [[m | e] s3]; simpl in *;
      rewrite K3; exact K2.
  - split; [reflexivity |]. intros e' s1' H. injection H as _ <-.
    reflexivity.
Qed.

Lemma sim_after_distillation_case rr n s :
  mgr_sim (snd (distillation_case E rr n s)) =
  mgr_sim (snd (distillation_setup E rr n s)) /\
  (forall e s1, distillation_setup E rr n s = (Raise e, s1) ->
                world (snd (distillation_case E rr n s)) = world s1).
Proof.
  rewrite distillation_case_unfold. unfold bind.
  rewrite distillation_case_logs_trace.
  destruct (distillation_setup E rr n s) as [[d | e] s1]; simpl.
  - split; [| intros ? ? H; discriminate H].
    pose proof (keeps_run_simulation mgr_sim (@sim_world W) E s1) as K2.
    destruct (run_simulation E s1) as [[[ok errs] | e] s2]; simpl in *;
      [| exact K2].
    pose proof (keeps_sim_distillation_extract E d s2) as K3.
    destruct (distillation_extract E d s2) as [[[c r] | e] s3]; simpl in *;
      rewrite K3; exact K2.
  - split; [reflexivity |]. intros e' s1' H. injection H as _ <-.
    reflexivity.
Qed.

(** X2. A case works on the flowsheet it creates. When [CreateFlowsheet]
    returns, the manager holds the new flowsheet from then on: through the
    set-up, the solve, the read-back and the logging, whatever fails on the
    way. When [CreateFlowsheet] raises, the case makes no further call to
    the engine, is recorded as failed, and the manager is left with the
    flowsheet of the case before. *)
Theorem each_case_runs_on_its_own_flowsheet :
  (forall temp vol s,
      match CreateFlowsheet E (mgr_interf s) (world s) with
      | (Ok sim, _) =>
          mgr_sim (snd (pfr_setup E temp vol s)) = Some sim /\
          mgr_sim (snd (pfr_case E temp vol s)) = Some sim
      | (Raise e, w1) =>
          fst (pfr_setup E temp vol s) = Raise e /\
          mgr_sim (snd (pfr_case E temp vol s)) = mgr_sim s /\
          world (snd (pfr_case E temp vol s)) = w1
      end) /\
  (forall rr stages s,
      match CreateFlowsheet E (mgr_interf s) (world s) with
      | (Ok sim, _) =>
          mgr_sim (snd (distillation_setup E rr stages s)) = Some sim /\
          mgr_sim (snd (distillation_case E rr stages s)) = Some sim
      | (Raise e, w1) =>
          fst (distillation_setup E rr stages s) = Raise e /\
          mgr_sim (snd (distillation_case E rr stages s)) = mgr_sim s /\
          world (snd (distillation_case E rr stages s)) = w1
      end).
Proof.
  split.
  - intros temp vol s.
    destruct (sim_after_pfr_case temp vol s) as [Hsim Hworld].
    rewrite Hsim. clear Hsim.
    rewrite pfr_setup_split, create_simulation_run in *.
    destruct (CreateFlowsheet E (mgr_interf s) (world s)) as [[sim | e] w1].
    + rewrite (keeps_sim_pfr_after_create E temp vol _). split; reflexivity.
    + repeat split. exact (Hworld _ _ eq_refl).
  - intros rr n s.
    destruct (sim_after_distillation_case rr n s) as [Hsim Hworld].
    rewrite Hsim. clear Hsim.
    rewrite distillation_setup_split, create_simulation_run in *.
    destruct (CreateFlowsheet E (mgr_interf s) (world s)) as [[sim | e] w1].
    + rewrite (keeps_sim_distillation_after_create E rr n _).
      split; reflexivity.
    + repeat split. exact (Hworld _ _ eq_refl).
Qed.

End OwnFlowsheet.

(* ------------------------------------------------------------------ *)
(** ** The shape of the rows *)

Lemma Forall2_right {A B} (P : B -> Prop) (l : list A) (rows : list B) :
  Forall2 (fun _ r => P r) l rows -> Forall P rows.
Proof. induction 1; constructor; assumption. Qed.

Section Shape.

Context {W : Type}.
Variable E : Automation W.

Lemma pfr_case_records_shaped :
  records_one (fun c => pfr_case E (fst c) (snd c))
    (fun _ row => row_shape pfr_full_keys pfr_failed_keys row).
Proof.
  intros [temp vol] s. simpl.
  destruct (pfr_case_run E temp vol s) as (d & s1 & Hd & Hres & Hrun).
  rewrite Hrun, log_result_run. simpl.
  eexists. eexists. split; [reflexivity |]. simpl.
  split; [rewrite Hres; reflexivity |].
  rewrite pfr_case_logs_trace in Hd.
  assert (Hfail : forall e,
             row_shape pfr_full_keys pfr_failed_keys
               (stamped E "PFR_Sweep" (pfr_failed_row temp vol e) (world s1))).
  { intros e. split; [right; split; reflexivity |].
    exists false, e. repeat split; discriminate. }
  destruct (pfr_setup E temp vol s) as [[fs | e] s1'];
    [| injection Hd as <- _; apply Hfail ].
  destruct (run_simulation E s1') as [[[ok errs] | e] s2];
    [| injection Hd as <- _; apply Hfail ].
  destruct (pfr_extract E fs s2) as [[m | e] s3];
    injection Hd as <- _; [| apply Hfail].
  split; [left; reflexivity |].
  exists ok, (error_text E ok errs).
  split; [reflexivity | split; [reflexivity |]].
  intros ->. split; reflexivity.
Qed.

Lemma distillation_case_records_shaped :
  records_one (fun c => distillation_case E (fst c) (snd c))
    (fun _ row => row_shape distillation_full_keys distillation_failed_keys row).
Proof.
  intros [rr n] s. simpl.
  destruct (distillation_case_run E rr n s) as (d & s1 & Hd & Hres & Hrun).
  rewrite Hrun, log_result_run. simpl.
  eexists. eexists. split; [reflexivity |]. simpl.
  split; [rewrite Hres; reflexivity |].
  rewrite distillation_case_logs_trace in Hd.
  assert (Hfail : forall e,
             row_shape distillation_full_keys distillation_failed_keys
               (stamped E "Distillation_Sweep"
                  (distillation_failed_row rr n e) (world s1))).
  { intros e. split; [right; split; reflexivity |].
    exists false, e. repeat split; discriminate. }
  destruct (distillation_setup E rr n s) as [[dist | e] s1'];
    [| injection Hd as <- _; apply Hfail ].
  destruct (run_simulation E s1') as [[[ok errs] | e] s2];
    [| injection Hd as <- _; apply Hfail ].
  destruct (distillation_extract E dist s2) as [[[c r] | e] s3];
    injection Hd as <- _; [| apply Hfail].
  split; [left; reflexivity |].
  exists ok, (error_text E ok errs).
  split; [reflexivity | split; [reflexivity |]].
  intros ->. split; reflexivity.
Qed.

(** X3. Every row a sweep records has one of two shapes: the ten keys of
    a reactor case that ran to its end (nine for a distillation case), in
    the order of the dictionary literal followed by [CaseType] and
    [Timestamp], or the six keys of a case stopped by an exception, which
    then says [Success = False]. [Success] is always a boolean and [Error] a
    string, and a row that says [Success = True] has all the metrics and an
    empty [Error]. *)
Theorem rows_have_one_of_two_shapes :
  (forall temps vols s, exists rows s',
      pfr_sweep E temps vols s = (Ok tt, s') /\
      mgr_results s' = mgr_results s ++ rows /\
      Forall (row_shape pfr_full_keys pfr_failed_keys) rows) /\
  (forall rrs sts s, exists rows s',
      distillation_sweep E rrs sts s = (Ok tt, s') /\
      mgr_results s' = mgr_results s ++ rows /\
      Forall (row_shape distillation_full_keys distillation_failed_keys)
        rows).
Proof.
  split.
  - intros temps vols s. unfold pfr_sweep. rewrite nested_loops.
    destruct (for_each_records_one _ _ pfr_case_records_shaped
                (cases temps vols) s) as (rows & s' & H1 & H2 & H3).
    exists rows, s'. repeat split; auto.
    exact (Forall2_right _ _ _ H3).
  - intros rrs sts s. unfold distillation_sweep. rewrite nested_loops.
    destruct (for_each_records_one _ _ distillation_case_records_shaped
                (cases rrs sts) s) as (rows & s' & H1 & H2 & H3).
    exists rows, s'. repeat split; auto.
    exact (Forall2_right _ _ _ H3).
Qed.

End Shape.

(* ------------------------------------------------------------------ *)
(** ** The component flows *)

Section ComponentFlow.

Context {W : Type}.
Variable E : Automation W.

Lemma scaled_component_ok tf comps k f :
  scaled_component tf comps k = Ok f ->
  exists t l c,
    tf = EFloat t /\ comps = EArr l /\ nth_error l k = Some c /\
    f = PyFloat.mul t c.
Proof.
  unfold scaled_component. intros H.
  destruct tf as [t | a | v |]; destruct comps as [c0 | l | u |];
    try discriminate H.
  - destruct (nth_error l k) as [c |] eqn:Hk; [| discriminate H].
    injection H as <-. exists t, l, c. auto.
  - destruct (String.get k u); discriminate H.
  - destruct (nth_error l k); discriminate H.
Qed.

(** What the helper gives once its three reads have returned a double
    and an array. *)
Lemma get_comp_flow_reads_ok o name (s : state W) str w1 t w2 l w3 :
  ToString E o (world s) = (Ok str, w1) ->
  GetPropertyValue E o "Molar Flow" w1 = (Ok (EFloat t), w2) ->
  GetPropertyValue E o "OverallMolarComposition" w2 = (Ok (EArr l), w3) ->
  get_comp_flow E o name s =
  (Ok match nth_error l (if String.eqb name "Water" then 0 else 1) with
      | Some c => PyFloat.mul t c
      | None => PyFloat.zero
      end,
   mkState w3 (mgr_interf s) (mgr_sim s) (mgr_results s) (files s)).
Proof.
  intros H1 H2 H3.
  unfold get_comp_flow, try_except, comp_flow_reads, bind, call, eval.
  rewrite H1. simpl. rewrite H2. simpl. rewrite H3. simpl.
  destruct (String.eqb name "Water"); unfold scaled_component.
  - destruct l as [| c l']; reflexivity.
  - destruct l as [| c [| c' l']]; reflexivity.
Qed.

(** X4. [get_comp_flow] never raises and leaves the manager as it was:
    whatever raises in its three reads or in the product, it returns 0.0.
    When the reads return a double and an array, it returns the double
    times the entry of the array at index 0 for "Water" and at index 1
    for any other name (so every other component is read as "Ethanol"
    is), and 0.0 when the array has no entry at that index. A product
    exists only for a flow that is a double and a composition that is an
    array long enough for the entry. *)
Theorem component_flow_index_and_fallback :
  (forall o name s, exists f s',
      get_comp_flow E o name s = (Ok f, s') /\
      mgr_results s' = mgr_results s /\ mgr_sim s' = mgr_sim s) /\
  (forall o name s e s1,
      comp_flow_reads E o name s = (Raise e, s1) ->
      get_comp_flow E o name s = (Ok PyFloat.zero, s1)) /\
  (forall o name (s : state W) str w1 t w2 l w3,
      ToString E o (world s) = (Ok str, w1) ->
      GetPropertyValue E o "Molar Flow" w1 = (Ok (EFloat t), w2) ->
      GetPropertyValue E o "OverallMolarComposition" w2 = (Ok (EArr l), w3) ->
      get_comp_flow E o name s =
      (Ok match nth_error l (if String.eqb name "Water" then 0 else 1) with
          | Some c => PyFloat.mul t c
          | None => PyFloat.zero
          end,
       mkState w3 (mgr_interf s) (mgr_sim s) (mgr_results s) (files s))) /\
  (forall o name s,
      String.eqb name "Water" = false ->
      get_comp_flow E o name s = get_comp_flow E o "Ethanol" s) /\
  (forall tf comps k f,
      scaled_component tf comps k = Ok f ->
      exists t l c,
        tf = EFloat t /\ comps = EArr l /\ nth_error l k = Some c /\
        f = PyFloat.mul t c) /\
  (forall t l k,
      List.length l <= k ->
      exists e, scaled_component (EFloat t) (EArr l) k = Raise e).
Proof.
  split; [| split; [| split; [| split; [| split]]]].
  - intros o name s.
    pose proof (frames_get_comp_flow E o name s) as Hr.
    assert (Hs : keeps mgr_sim (get_comp_flow E o name)).
    { unfold get_comp_flow, comp_flow_reads. keep (@sim_world W). }
    specialize (Hs s).
    rewrite get_comp_flow_run in *.
    destruct (comp_flow_reads E o name s) as [[f | e] s1];
      eexists; eexists; (split; [reflexivity | split; assumption]).
  - intros o name s e s1 H. rewrite get_comp_flow_run, H. reflexivity.
  - apply get_comp_flow_reads_ok.
  - intros o name s Hname.
    unfold get_comp_flow, comp_flow_reads. rewrite Hname. reflexivity.
  - apply scaled_component_ok.
  - intros t l k Hk. unfold scaled_component.
    rewrite (proj2 (nth_error_None l k) Hk). eexists. reflexivity.
Qed.

End ComponentFlow.

(** X4 on streams of 100 mol/s: with 40 % water and 60 % of the other
    component the two flows are the two products; with a composition of a
    single entry the water flow is a product and the flow of any other
    component is 0.0. *)
Lemma component_flow_index_and_fallback_witness :
  fst (get_comp_flow (scripted nominal) 107 "Water" (fresh 0))
  = Ok (PyFloat.mul (PyFloat.of_Z 100) (PyFloat.decimal 4 10)) /\
  fst (get_comp_flow (scripted nominal) 107 "Ethanol" (fresh 0))
  = Ok (PyFloat.mul (PyFloat.of_Z 100) (PyFloat.decimal 6 10)) /\
  fst (get_comp_flow (scripted (with_composition [PyFloat.of_Z 1])) 107
         "Water" (fresh 0))
  = Ok (PyFloat.mul (PyFloat.of_Z 100) (PyFloat.of_Z 1)) /\
  fst (get_comp_flow (scripted (with_composition [PyFloat.of_Z 1])) 107
         "Ethanol" (fresh 0))
  = Ok PyFloat.zero /\
  get_comp_flow (scripted nominal) 107 "Benzene" (fresh 0)
  = get_comp_flow (scripted nominal) 107 "Ethanol" (fresh 0) /\
  exists e,
    scaled_component (EFloat (PyFloat.of_Z 100)) (EArr [PyFloat.of_Z 1]) 1
    = Raise e.
Proof.
  destruct (component_flow_index_and_fallback (scripted nominal))
    as (_ & _ & Hreads & Hname & _ & Hshort).
  destruct (component_flow_index_and_fallback
              (scripted (with_composition [PyFloat.of_Z 1])))
    as (_ & _ & Hreads1 & _).
  split; [| split; [| split; [| split; [| split]]]].
  - rewrite (Hreads 107%nat "Water" (fresh 0) "object" 0%nat
               (PyFloat.of_Z 100) 0%nat
               [PyFloat.decimal 4 10; PyFloat.decimal 6 10] 0%nat)
      by reflexivity.
    reflexivity.
  - rewrite (Hreads 107%nat "Ethanol" (fresh 0) "object" 0%nat
               (PyFloat.of_Z 100) 0%nat
               [PyFloat.decimal 4 10; PyFloat.decimal 6 10] 0%nat)
      by reflexivity.
    reflexivity.
  - rewrite (Hreads1 107%nat "Water" (fresh 0) "object" 0%nat
               (PyFloat.of_Z 100) 0%nat [PyFloat.of_Z 1] 0%nat)
      by reflexivity.
    reflexivity.
  - rewrite (Hreads1 107%nat "Ethanol" (fresh 0) "object" 0%nat
               (PyFloat.of_Z 100) 0%nat [PyFloat.of_Z 1] 0%nat)
      by reflexivity.
    reflexivity.
  - apply Hname. reflexivity.
  - apply Hshort. simpl. lia.
Defined.

(* ------------------------------------------------------------------ *)
(** ** Edge values of the conversion *)

Lemma sub_self_finite (s : bool) (m : positive) (e : Z) :
  PyFloat.sub (S754_finite s m e) (S754_finite s m e) = S754_zero false.
Proof.
  unfold PyFloat.sub, SFsub. cbv zeta. rewrite Z.sub_diag. reflexivity.
Qed.

(** X5. When the outlet flow equals a positive finite inlet flow the
    conversion is the float 0.0 (and not the integer 0 recorded for an
    inlet that is not positive); an infinite inlet flow gives a NaN,
    whatever the outlet flow is. *)
Theorem conversion_edge_values :
  (forall m e,
      conversion (S754_finite false m e) (S754_finite false m e)
      = Ok (VFloat (S754_zero false))) /\
  (forall out_flow_A,
      conversion (S754_infinity false) out_flow_A = Ok (VFloat S754_nan)).
Proof.
  split.
  - intros m e. unfold conversion, truediv.
    change (PyFloat.ltb PyFloat.zero (S754_finite false m e)) with true.
    cbv iota. change (PyFloat.is_zero (S754_finite false m e)) with false.
    cbv iota. rewrite sub_self_finite. reflexivity.
  - intros out. destruct out as [[] | [] | | [] m e]; reflexivity.
Qed.

(* ------------------------------------------------------------------ *)
(** ** A feed that cannot be read *)

Section SilentZero.

Context {W : Type}.
Variable E : Automation W.

(** X6. When the read of the feed flow fails, the read-back does not
    fail with it: the inlet flow is taken as 0.0, and a read-back that
    comes to its end reports the integer 0 as the conversion, whatever the
    product stream holds. *)
Theorem unreadable_feed_gives_zero_conversion fs s s1 e s2 m s' :
  call (import_IMaterialStream E) s = (Ok tt, s1) ->
  comp_flow_reads E (pf_feed fs) "Water" s1 = (Raise e, s2) ->
  pfr_extract E fs s = (Ok m, s') ->
  pm_conversion m = VInt 0.
Proof.
  intros H1 H2 H3. unfold pfr_extract, bind in H3. rewrite H1 in H3.
  rewrite get_comp_flow_run, H2 in H3.
  destruct (get_comp_flow E (pf_prod fs) "Water" s2) as [[fa | ea] s3];
    [| discriminate H3].
  destruct (get_comp_flow E (pf_prod fs) "Ethanol" s3) as [[fb | eb] s4];
    [| discriminate H3].
  unfold eval in H3.
  change (conversion PyFloat.zero fa) with (@Ok value (VInt 0)) in H3.
  cbv iota beta in H3.
  destruct (get_temp E (pf_prod fs) s4) as [[t | et] s5];
    [| discriminate H3].
  destruct (get_duty E (pf_energy fs) s5) as [[d | ed] s6];
    [| discriminate H3].
  unfold ret in H3. injection H3 as <- _. reflexivity.
Qed.

End SilentZero.

(** X6 on an engine whose streams have no readable molar flow. *)
Lemma unreadable_feed_gives_zero_conversion_witness :
  exists m s',
    pfr_extract (scripted (unreadable "Molar Flow"))
      {| pf_feed := 104; pf_prod := 107; pf_energy := 104;
         pf_rs := None; pf_pfr := 105; pf_type := 105 |} (fresh 0)
    = (Ok m, s') /\
    pm_conversion m = VInt 0.
Proof.
  eexists. eexists. split.
  - vm_compute. reflexivity.
  - eapply (unreadable_feed_gives_zero_conversion
              (scripted (unreadable "Molar Flow"))
              {| pf_feed := 104; pf_prod := 107; pf_energy := 104;
                 pf_rs := None; pf_pfr := 105; pf_type := 105 |}
              (fresh 0)).
    + vm_compute. reflexivity.
    + vm_compute. reflexivity.
    + vm_compute. reflexivity.
Defined.

(* ------------------------------------------------------------------ *)
(** ** The reactor settings *)

Section Settings.

Context {W : Type}.
Variable E : Automation W.

(** X7. The volume and the operation mode are written in one [try]
    block: when the write of the volume is refused, the block ends there,
    the operation mode is not even looked up, and the case goes on; when
    the reactor type has no "Volume" property, the volume is skipped and
    the operation mode is still written when the type has it. *)
Theorem refused_volume_skips_the_mode :
  (forall pfr t vol s p w1 e w2,
      GetProperty E t "Volume" (world s) = (Ok (Some p), w1) ->
      SetValue E p pfr (VFloat vol) w1 = (Raise e, w2) ->
      configure_pfr E pfr t vol s =
      (Ok tt, mkState w2 (mgr_interf s) (mgr_sim s) (mgr_results s)
                (files s))) /\
  (forall pfr t vol s w1 q w2,
      GetProperty E t "Volume" (world s) = (Ok None, w1) ->
      GetProperty E t "ReactorOperationMode" w1 = (Ok (Some q), w2) ->
      configure_pfr E pfr t vol s =
      (Ok tt, mkState (snd (SetValue E q pfr (VInt 1) w2)) (mgr_interf s)
                (mgr_sim s) (mgr_results s) (files s))).
Proof.
  split.
  - intros pfr t vol s p w1 e w2 H1 H2.
    unfold configure_pfr, try_except, bind, call, ret.
    rewrite H1. cbn. rewrite H2. reflexivity.
  - intros pfr t vol s w1 q w2 H1 H2.
    unfold configure_pfr, try_except, bind, call, ret.
    rewrite H1. cbn. rewrite H2. cbn.
    destruct (SetValue E q pfr (VInt 1) w2) as [[[] | e] w3]; reflexivity.
Qed.

End Settings.

(** X7 on a reactor whose "Volume" cannot be written. *)
Lemma refused_volume_skips_the_mode_witness :
  configure_pfr (scripted (reactor_with ["Volume"] ["Volume"])) 105 105
    (PyFloat.of_Z 1) (fresh 0)
  = (Ok tt, fresh 0).
Proof.
  eapply (proj1 (refused_volume_skips_the_mode
                   (scripted (reactor_with ["Volume"] ["Volume"])))
            105%nat 105%nat (PyFloat.of_Z 1) (fresh 0)).
  - reflexivity.
  - reflexivity.
Defined.

(* ------------------------------------------------------------------ *)
(** ** Logging a result *)

Lemma dict_get_set_same (d : pydict) (k : string) (v : value) :
  dict_get (dict_set d k v) k = Some v.
Proof.
  induction d as [| [k' v'] d IH]; simpl.
  - rewrite String.eqb_refl. reflexivity.
  - destruct (String.eqb k' k) eqn:Hk; simpl; rewrite Hk; auto.
Qed.

Lemma dict_get_set_other (d : pydict) (k k' : string) (v : value) :
  k <> k' -> dict_get (dict_set d k v) k' = dict_get d k'.
Proof.
  intros Hne. induction d as [| [k0 v0] d IH]; simpl.
  - destruct (String.eqb_spec k k'); [contradiction | reflexivity].
  - destruct (String.eqb_spec k0 k) as [-> | Hk0]; simpl.
    + destruct (String.eqb_spec k k'); [contradiction | reflexivity].
    + destruct (String.eqb k0 k'); [reflexivity | exact IH].
Qed.

Lemma dict_keys_set (d : pydict) (k : string) (v : value) :
  dict_keys (dict_set d k v) =
  if mem_string k (dict_keys d) then dict_keys d else dict_keys d ++ [k].
Proof.
  induction d as [| [k0 v0] d IH]; simpl.
  - reflexivity.
  - unfold mem_string in *. simpl.
    rewrite (String.eqb_sym k k0).
    destruct (String.eqb k0 k); simpl; [reflexivity |].
    unfold dict_keys in *. rewrite IH.
    destruct (existsb (String.eqb k) (map fst d)); reflexivity.
Qed.

Lemma NoDup_dict_keys_set (d : pydict) (k : string) (v : value) :
  NoDup (dict_keys d) -> NoDup (dict_keys (dict_set d k v)).
Proof.
  intros H. rewrite dict_keys_set.
  destruct (mem_string k (dict_keys d)) eqn:Hm; [exact H |].
  apply mem_string_not_In in Hm.
  apply NoDup_app; [exact H | repeat constructor; intros [] |].
  intros a Ha [<- | []]. contradiction.
Qed.

Lemma dict_keys_set_extends (d : pydict) (k : string) (v : value) :
  exists extra, dict_keys (dict_set d k v) = dict_keys d ++ extra.
Proof.
  rewrite dict_keys_set. destruct (mem_string k (dict_keys d)).
  - exists []. rewrite app_nil_r. reflexivity.
  - exists [k]. reflexivity.
Qed.

Lemma length_setitem st a k v :
  List.length (setitem st a k v) = List.length st.
Proof.
  revert a. induction st as [| d st IH]; intros [| a]; simpl; auto.
Qed.

Lemma deref_setitem_same st a k v :
  a < List.length st ->
  deref (setitem st a k v) a = dict_set (deref st a) k v.
Proof.
  unfold deref. revert a.
  induction st as [| d st IH]; intros [| a] H; simpl in *; try lia.
  - reflexivity.
  - apply IH. lia.
Qed.

Lemma deref_setitem_other st a b k v :
  b <> a -> deref (setitem st a k v) b = deref st b.
Proof.
  unfold deref. revert a b.
  induction st as [| d st IH]; intros [| a] [| b] H; simpl;
    try reflexivity; try contradiction.
  apply IH. congruence.
Qed.

Section Logging.

Context {W : Type}.
Variable E : Automation W.

Lemma stamped_entries case_type logs (w : W) :
  dict_get (stamped E case_type logs w) "CaseType" = Some (VStr case_type) /\
  dict_get (stamped E case_type logs w) "Timestamp"
  = Some (VStr (now_HMS E w)) /\
  (forall k, k <> "CaseType" -> k <> "Timestamp" ->
             dict_get (stamped E case_type logs w) k = dict_get logs k) /\
  (NoDup (dict_keys logs) -> NoDup (dict_keys (stamped E case_type logs w))) /\
  (exists extra,
      dict_keys (stamped E case_type logs w) = dict_keys logs ++ extra).
Proof.
  unfold stamped. split; [| split; [| split; [| split]]].
  - rewrite dict_get_set_other by discriminate. apply dict_get_set_same.
  - apply dict_get_set_same.
  - intros k H1 H2.
    rewrite !dict_get_set_other by (intros Heq; subst; contradiction).
    reflexivity.
  - intros H. apply NoDup_dict_keys_set, NoDup_dict_keys_set, H.
  - destruct (dict_keys_set_extends
                (dict_set logs "CaseType" (VStr case_type)) "Timestamp"
                (VStr (now_HMS E w))) as (x2 & ->).
    destruct (dict_keys_set_extends logs "CaseType" (VStr case_type))
      as (x1 & ->).
    exists (x1 ++ x2). rewrite app_assoc. reflexivity.
Qed.

(** The store after [log_result_shared]. *)
Lemma log_result_shared_store case_type a (w : W) h :
  a < List.length (store h) ->
  forall b,
    deref (store (log_result_shared E case_type a w h)) b =
    if Nat.eqb b a then stamped E case_type (deref (store h) a) w
    else deref (store h) b.
Proof.
  intros Ha b. unfold log_result_shared. simpl.
  destruct (Nat.eqb_spec b a) as [-> | Hne].
  - rewrite deref_setitem_same by (rewrite length_setitem; exact Ha).
    rewrite deref_setitem_same by exact Ha. reflexivity.
  - rewrite !deref_setitem_other by exact Hne. reflexivity.
Qed.

Lemma map_deref_fresh st d (l : list nat) :
  Forall (fun b => b < List.length st) l ->
  map (deref (st ++ [d])) l = map (deref st) l.
Proof.
  intros H. apply map_ext_in. intros b Hb.
  rewrite Forall_forall in H. unfold deref. apply app_nth1, H, Hb.
Qed.

(** X8. [log_result] writes into the dictionary it is given, which is the
    caller's own object, and appends that object to the results. The
    dictionary then has the case type under [CaseType] and the time under
    [Timestamp], also when it had these keys before; its other entries are
    unchanged, its keys keep their places and stay distinct. No other
    dictionary is touched and none is made. The rows read through the
    results are the rows as they were, one more at the end, and every
    earlier row that is this same dictionary now reads as the new row
    does: logging a dictionary a second time rewrites the row of the first
    time. For a dictionary that was not logged before, and so for a
    dictionary literal, which is what both sweeps pass, the rows are those
    of before and the new one, the rows that [log_result] on values
    records. *)
Theorem log_result_keeps_the_entries (case_type : string) (a : nat) (w : W)
    (h : shared) :
  a < List.length (store h) ->
  results (log_result_shared E case_type a w h) = results h ++ [a] /\
  deref (store (log_result_shared E case_type a w h)) a
  = stamped E case_type (deref (store h) a) w /\
  (forall b, b <> a ->
      deref (store (log_result_shared E case_type a w h)) b
      = deref (store h) b) /\
  List.length (store (log_result_shared E case_type a w h))
  = List.length (store h) /\
  dict_get (stamped E case_type (deref (store h) a) w) "CaseType"
  = Some (VStr case_type) /\
  dict_get (stamped E case_type (deref (store h) a) w) "Timestamp"
  = Some (VStr (now_HMS E w)) /\
  (forall k, k <> "CaseType" -> k <> "Timestamp" ->
      dict_get (stamped E case_type (deref (store h) a) w) k
      = dict_get (deref (store h) a) k) /\
  (NoDup (dict_keys (deref (store h) a)) ->
   NoDup (dict_keys (stamped E case_type (deref (store h) a) w))) /\
  (exists extra,
      dict_keys (stamped E case_type (deref (store h) a) w)
      = dict_keys (deref (store h) a) ++ extra) /\
  rows_of (log_result_shared E case_type a w h)
  = map (fun b => if Nat.eqb b a
                  then stamped E case_type (deref (store h) a) w
                  else deref (store h) b) (results h)
    ++ [stamped E case_type (deref (store h) a) w] /\
  (~ In a (results h) ->
   rows_of (log_result_shared E case_type a w h)
   = rows_of h ++ [stamped E case_type (deref (store h) a) w] /\
   forall s : state W,
     world s = w -> mgr_results s = rows_of h ->
     mgr_results (snd (log_result E case_type (deref (store h) a) s))
     = rows_of (log_result_shared E case_type a w h)) /\
  (forall d,
      Forall (fun b => b < List.length (store h)) (results h) ->
      rows_of (log_result_shared E case_type (fst (new_dict d h)) w
                 (snd (new_dict d h)))
      = rows_of h ++ [stamped E case_type d w]).
Proof.
  intros Ha.
  pose proof (log_result_shared_store case_type a w h Ha) as Hstore.
  assert (Hrows :
            rows_of (log_result_shared E case_type a w h)
            = map (fun b => if Nat.eqb b a
                            then stamped E case_type (deref (store h) a) w
                            else deref (store h) b) (results h)
              ++ [stamped E case_type (deref (store h) a) w]).
  { unfold rows_of.
    change (results (log_result_shared E case_type a w h))
      with (results h ++ [a]).
    rewrite map_app. f_equal.
    - apply map_ext. exact Hstore.
    - cbn [map]. rewrite (Hstore a), Nat.eqb_refl. reflexivity. }
  assert (Hfresh :
            ~ In a (results h) ->
            rows_of (log_result_shared E case_type a w h)
            = rows_of h ++ [stamped E case_type (deref (store h) a) w]).
  { intros Hnot. rewrite Hrows. f_equal. unfold rows_of.
    apply map_ext_in. intros b Hb.
    destruct (Nat.eqb_spec b a) as [-> | _]; [contradiction | reflexivity]. }
  destruct (stamped_entries case_type (deref (store h) a) w)
    as (Hct & Hts & Hother & Hnodup & Hkeys).
  split; [reflexivity |].
  split; [rewrite (Hstore a), Nat.eqb_refl; reflexivity |].
  split.
  { intros b Hb. rewrite (Hstore b).
    destruct (Nat.eqb_spec b a); [contradiction | reflexivity]. }
  split; [unfold log_result_shared; simpl; rewrite !length_setitem;
          reflexivity |].
  split; [exact Hct |]. split; [exact Hts |]. split; [exact Hother |].
  split; [exact Hnodup |]. split; [exact Hkeys |].
  split; [exact Hrows |].
  split.
  - intros Hnot. split; [exact (Hfresh Hnot) |].
    intros s Hw Hres. rewrite log_result_run. simpl.
    rewrite Hres, Hw. symmetry. exact (Hfresh Hnot).
  - intros d Hwf. unfold new_dict, rows_of, log_result_shared. simpl.
    rewrite map_app. simpl.
    assert (Hlen : List.length (store h) < List.length (store h ++ [d]))
      by (rewrite length_app; simpl; lia).
    rewrite deref_setitem_same by (rewrite length_setitem; exact Hlen).
    rewrite deref_setitem_same by exact Hlen.
    assert (Hd : deref (store h ++ [d]) (List.length (store h)) = d).
    { unfold deref. rewrite app_nth2 by lia. rewrite Nat.sub_diag.
      reflexivity. }
    rewrite Hd. f_equal.
    rewrite <- (map_deref_fresh (store h) d (results h) Hwf).
    apply map_ext_in. intros b Hb.
    rewrite Forall_forall in Hwf.
    rewrite !deref_setitem_other by (specialize (Hwf b Hb); lia).
    reflexivity.
Qed.

End Logging.

(** X8 on a dictionary that is logged twice: both rows then carry the
    case type of the second call, although the first call recorded
    another. A dictionary literal logged after it leaves it alone. *)
Lemma log_result_keeps_the_entries_witness :
  look ["CaseType"; "Success"]
    (rows_of
       (log_result_shared (scripted nominal) "PFR_Sweep" 0 0%nat
          (mkShared [[("Success", VBool true)]] [])))
  = [[Some (VStr "PFR_Sweep"); Some (VBool true)]] /\
  look ["CaseType"; "Success"]
    (rows_of
       (log_result_shared (scripted nominal) "Distillation_Sweep" 0 0%nat
          (log_result_shared (scripted nominal) "PFR_Sweep" 0 0%nat
             (mkShared [[("Success", VBool true)]] []))))
  = [[Some (VStr "Distillation_Sweep"); Some (VBool true)];
     [Some (VStr "Distillation_Sweep"); Some (VBool true)]] /\
  look ["CaseType"; "Success"]
    (rows_of
       (log_result_shared (scripted nominal) "Distillation_Sweep" 1 0%nat
          (snd (new_dict [("Success", VBool false)]
                  (log_result_shared (scripted nominal) "PFR_Sweep" 0 0%nat
                     (mkShared [[("Success", VBool true)]] []))))))
  = [[Some (VStr "PFR_Sweep"); Some (VBool true)];
     [Some (VStr "Distillation_Sweep"); Some (VBool false)]].
Proof.
  split; [| split].
  - destruct (log_result_keeps_the_entries (scripted nominal) "PFR_Sweep"
                0 0%nat (mkShared [[("Success", VBool true)]] []))
      as (_ & _ & _ & _ & _ & _ & _ & _ & _ & Hrows & _); [simpl; lia |].
    rewrite Hrows. reflexivity.
  - destruct (log_result_keeps_the_entries (scripted nominal)
                "Distillation_Sweep" 0 0%nat
                (log_result_shared (scripted nominal) "PFR_Sweep" 0 0%nat
                   (mkShared [[("Success", VBool true)]] [])))
      as (_ & _ & _ & _ & _ & _ & _ & _ & _ & Hrows & _); [simpl; lia |].
    rewrite Hrows. reflexivity.
  - destruct (log_result_keeps_the_entries (scripted nominal)
                "Distillation_Sweep" 0 0%nat
                (log_result_shared (scripted nominal) "PFR_Sweep" 0 0%nat
                   (mkShared [[("Success", VBool true)]] [])))
      as (_ & _ & _ & _ & _ & _ & _ & _ & _ & _ & _ & Hlit); [simpl; lia |].
    specialize (Hlit [("Success", VBool false)]).
    change (fst (new_dict [("Success", VBool false)]
                   (log_result_shared (scripted nominal) "PFR_Sweep" 0 0%nat
                      (mkShared [[("Success", VBool true)]] []))))
      with 1 in Hlit.
    rewrite Hlit; [reflexivity |].
    repeat constructor.
Defined.

(* ------------------------------------------------------------------ *)
(** ** The column is never wired *)

Section Wiring.

Context {W : Type}.
Variable E : Automation W.

(** X9. The distillation study never asks for a graphic object and never
    connects anything: a case gives the same result and leaves the same
    state whatever the engine would answer to [GraphicObject] and
    [ConnectObjects], so the feed it creates is not connected to the
    column. The reactor study does connect: on an engine that refuses
    connections every reactor case is recorded as failed. *)
Theorem distillation_connects_nothing :
  (forall graphic connect_objects rr stages s,
      distillation_case (with_wiring E graphic connect_objects) rr stages s
      = distillation_case E rr stages s) /\
  look ["Success"; "Error"]
    (mgr_results (snd (pfr_case unwired 300 (PyFloat.of_Z 1) (fresh 0))))
  = [[Some (VBool false); Some (VStr "No free connection port")]] /\
  look ["Success"; "Error"]
    (mgr_results
       (snd (distillation_case unwired (PyFloat.of_Z 2) 10 (fresh 0))))
  = [[Some (VBool true); Some (VStr "")]].
Proof.
  split; [| split].
  - intros. reflexivity.
  - vm_compute. reflexivity.
  - vm_compute. reflexivity.
Qed.

End Wiring.

(* ------------------------------------------------------------------ *)
(** ** Locating the library *)

Lemma find_dwsim_first (h : host) (paths : list string) (p : string) :
  find_dwsim h paths = Some p ->
  exists before after,
    paths = before ++ p :: after /\
    (forall q, In q before -> path_exists h (path_join q dll) = false) /\
    path_exists h (path_join p dll) = true.
Proof.
  induction paths as [| q paths IH]; simpl; [discriminate |].
  destruct (path_exists h (path_join q dll)) eqn:Hq.
  - intros H. injection H as <-. exists [], paths.
    repeat split; [intros ? [] | exact Hq].
  - intros H. destruct (IH H) as (before & after & -> & Hb & Hp).
    exists (q :: before), after. repeat split; [| exact Hp].
    intros r [<- | Hr]; [exact Hq | exact (Hb r Hr)].
Qed.

Lemma locate_dwsim_sound (h : host) (paths : list string) (p : string) :
  locate_dwsim h paths = Some p ->
  path_exists h (path_join p dll) = true.
Proof.
  unfold locate_dwsim.
  destruct (find_dwsim h paths) as [q |] eqn:Hf.
  - intros H. injection H as <-.
    destruct (find_dwsim_first _ _ _ Hf) as (_ & _ & _ & _ & Hq). exact Hq.
  - destruct (drop_quotes (strip (user_line h))) as [| c u] eqn:Hu;
      [discriminate |].
    destruct (path_exists h (path_join (String c u) dll)) eqn:He;
      [| discriminate].
    intros H. injection H as <-. exact He.
Qed.

(** X10. The script goes past its start-up only with a folder that
    holds [DWSIM.Automation.dll] and whose assemblies loaded. The
    candidates are tried in their order and the first that holds the
    library is taken: when the folder under [LOCALAPPDATA] holds it, that
    folder is the one used, whatever is installed elsewhere and whatever
    would be typed at the prompt. When [LOCALAPPDATA] is not set, the
    script ends in an uncaught exception before it looks anywhere. *)
Theorem startup_uses_a_folder_with_the_library :
  (forall h p,
      startup h = Started p ->
      path_exists h (path_join p dll) = true /\
      load_assemblies h p = Ok tt) /\
  (forall h paths p,
      find_dwsim h paths = Some p ->
      exists before after,
        paths = before ++ p :: after /\
        (forall q, In q before -> path_exists h (path_join q dll) = false) /\
        path_exists h (path_join p dll) = true) /\
  (forall h d,
      LOCALAPPDATA h = Some d ->
      path_exists h (path_join (path_join d "DWSIM") dll) = true ->
      startup h =
      match load_assemblies h (path_join d "DWSIM") with
      | Ok _ => Started (path_join d "DWSIM")
      | Raise _ => SysExit 1
      end) /\
  (forall h,
      LOCALAPPDATA h = None ->
      exists e, startup h = Traceback e).
Proof.
  split; [| split; [| split]].
  - intros h p. unfold startup.
    destruct (POSSIBLE_PATHS h) as [paths | e]; [| discriminate].
    destruct (locate_dwsim h paths) as [q |] eqn:Hl; [| discriminate].
    destruct (load_assemblies h q) as [[] | e] eqn:Ha; [| discriminate].
    intros H. injection H as <-.
    split; [exact (locate_dwsim_sound _ _ _ Hl) | exact Ha].
  - apply find_dwsim_first.
  - intros h d Hd He. unfold startup, POSSIBLE_PATHS, locate_dwsim.
    rewrite Hd. simpl. rewrite He. reflexivity.
  - intros h Hd. unfold startup, POSSIBLE_PATHS. rewrite Hd.
    eexists. reflexivity.
Qed.

(** X10 on a machine with DWSIM under [LOCALAPPDATA]. *)
Lemma startup_uses_a_folder_with_the_library_witness :
  path_exists good_host
    (path_join "C:\Users\u\AppData\Local\DWSIM" dll) = true /\
  load_assemblies good_host "C:\Users\u\AppData\Local\DWSIM" = Ok tt.
Proof.
  apply (proj1 startup_uses_a_folder_with_the_library good_host).
  reflexivity.
Defined.

(* ------------------------------------------------------------------ *)
(** ** The folder typed at the prompt *)

Lemma has_quote_drop_quotes (s : string) : has_quote (drop_quotes s) = false.
Proof.
  induction s as [| c s IH]; simpl; [reflexivity |].
  destruct (Nat.eqb (nat_of_ascii c) 34) eqn:H1; simpl; [exact IH |].
  destruct (Nat.eqb (nat_of_ascii c) 39) eqn:H2; simpl; [exact IH |].
  rewrite H1, H2, IH. reflexivity.
Qed.

(** X11. When none of the usual folders holds the library and the
    script still starts, the folder it uses is the line typed at the
    prompt, stripped of the blanks around it and then of every quote of
    either kind, wherever the quote stands; that folder is not empty and
    holds the library. So a folder whose name has an apostrophe is never
    the one used. *)
Theorem typed_folder_loses_its_quotes (h : host) (paths : list string)
    (p : string) :
  POSSIBLE_PATHS h = Ok paths ->
  find_dwsim h paths = None ->
  startup h = Started p ->
  p = drop_quotes (strip (user_line h)) /\
  has_quote p = false /\
  p <> EmptyString /\
  path_exists h (path_join p dll) = true.
Proof.
  intros Hp Hf Hs. unfold startup in Hs. rewrite Hp in Hs.
  destruct (locate_dwsim h paths) as [q |] eqn:Hl; [| discriminate Hs].
  destruct (load_assemblies h q) as [[] | e]; [| discriminate Hs].
  injection Hs as <-.
  pose proof (locate_dwsim_sound _ _ _ Hl) as He.
  unfold locate_dwsim in Hl. rewrite Hf in Hl.
  destruct (drop_quotes (strip (user_line h))) as [| c u] eqn:Hu;
    [discriminate Hl |].
  destruct (path_exists h (path_join (String c u) dll)); [| discriminate Hl].
  injection Hl as <-.
  repeat split; try assumption; try discriminate.
  rewrite <- Hu. apply has_quote_drop_quotes.
Qed.

(** X11 on a folder pasted between quotes, with blanks around. *)
Lemma typed_folder_loses_its_quotes_witness :
  "D:\Tools\DWSIM" = drop_quotes (strip (user_line quoting_host)) /\
  has_quote "D:\Tools\DWSIM" = false /\
  "D:\Tools\DWSIM" <> EmptyString /\
  path_exists quoting_host (path_join "D:\Tools\DWSIM" dll) = true.
Proof.
  apply (typed_folder_loses_its_quotes quoting_host
           ["C:\Users\u\AppData\Local\DWSIM"; "C:\Program Files\DWSIM";
            "C:\Program Files (x86)\DWSIM"]);
    reflexivity.
Defined.

(** The blanks stripped include the no-break space and the next-line
    control; a blank inside the line stays. *)
Example strip_no_break_space :
  strip (String (ascii_of_nat 160)
           ("D:\My Tools" ++ String (ascii_of_nat 133) " "))
  = "D:\My Tools".
Proof. vm_compute. reflexivity. Qed.

(** The separator is left out after a separator and after a bare drive,
    not after another colon. *)
Example path_join_separators :
  path_join "C:\work" "results.csv" = "C:\work\results.csv" /\
  path_join "C:\" "DWSIM" = "C:\DWSIM" /\
  path_join "C:/" "DWSIM" = "C:/DWSIM" /\
  path_join "C:" "DWSIM" = "C:DWSIM" /\
  path_join "data:" "DWSIM" = "data:\DWSIM" /\
  path_join "" "DWSIM" = "DWSIM".
Proof. vm_compute. repeat split. Qed.

(* ------------------------------------------------------------------ *)
(** ** The debug script: looking the reaction set up *)

Lemma find_set_index_from entries target idx vi i :
  find_set_index entries target idx vi = Ok i ->
  (i = vi /\ forall k v, In (k, Some v) entries -> rs_Name v <> target) \/
  (exists n k v,
      i = (idx + Z.of_nat n)%Z /\
      nth_error entries n = Some (k, Some v) /\
      rs_Name v = target /\
      forall j k' v',
        n < j -> nth_error entries j = Some (k', Some v') ->
        rs_Name v' <> target).
Proof.
  revert idx vi.
  induction entries as [| [k0 [v0 |]] rest IH]; intros idx vi H; simpl in H.
  - injection H as <-. left. split; [reflexivity | intros ? ? []].
  - destruct (IH _ _ H) as [[Hi Hno] | (n & k & v & Hi & Hn & Hv & Hlater)].
    + destruct (String.eqb_spec (rs_Name v0) target) as [Heq | Hne].
      * right. exists 0, k0, v0. repeat split.
        -- lia.
        -- exact Heq.
        -- intros j k' v' Hj Hnth. destruct j as [| j]; [lia |].
           simpl in Hnth. apply nth_error_In in Hnth. exact (Hno _ _ Hnth).
      * left. split; [exact Hi |].
        intros k v [Hin | Hin]; [| exact (Hno _ _ Hin)].
        injection Hin as _ <-. exact Hne.
    + right. exists (S n), k, v. repeat split.
      * lia.
      * exact Hn.
      * exact Hv.
      * intros j k' v' Hj Hnth. destruct j as [| j]; [lia |].
        simpl in Hnth. apply (Hlater j k' v'); [lia | exact Hnth].
  - discriminate H.
Qed.

Lemma find_set_index_total entries target idx vi :
  (forall k, ~ In (k, None) entries) ->
  exists i, find_set_index entries target idx vi = Ok i.
Proof.
  revert idx vi.
  induction entries as [| [k0 [v0 |]] rest IH]; intros idx vi Hno; simpl.
  - exists vi. reflexivity.
  - apply IH. intros k Hk. apply (Hno k). right. exact Hk.
  - exfalso. apply (Hno k0). left. reflexivity.
Qed.

Lemma find_set_index_null entries target idx vi k :
  In (k, None) entries ->
  find_set_index entries target idx vi
  = Raise "'NoneType' object has no attribute 'Name'".
Proof.
  revert idx vi.
  induction entries as [| [k0 [v0 |]] rest IH]; intros idx vi Hin; simpl.
  - destruct Hin.
  - apply IH. destruct Hin as [Heq | Hin]; [discriminate Heq | exact Hin].
  - reflexivity.
Qed.

(** X14. The loop that looks the target set up by name goes through the
    whole enumeration. It returns when no entry is null and raises when
    one is, so it fails only on a null entry. When it returns, the result
    is -1 if no set has the name, and otherwise the position of the last
    set that has it, a position inside the enumeration. *)
Theorem find_set_index_gives_the_last_match entries target :
  ((forall k, ~ In (k, None) entries) ->
   exists i, find_set_index entries target 0 (-1) = Ok i) /\
  (forall k,
      In (k, None) entries ->
      find_set_index entries target 0 (-1)
      = Raise "'NoneType' object has no attribute 'Name'") /\
  (forall i,
      find_set_index entries target 0 (-1) = Ok i ->
      (i = (-1)%Z /\
       forall k v, In (k, Some v) entries -> rs_Name v <> target) \/
      ((0 <= i < Z.of_nat (List.length entries))%Z /\
       exists k v,
         nth_error entries (Z.to_nat i) = Some (k, Some v) /\
         rs_Name v = target /\
         forall j k' v',
           Z.to_nat i < j -> nth_error entries j = Some (k', Some v') ->
           rs_Name v' <> target)).
Proof.
  split; [| split].
  - apply find_set_index_total.
  - intros k. apply find_set_index_null.
  - intros i H.
    destruct (find_set_index_from _ _ _ _ _ H)
      as [[Hi Hno] | (n & k & v & Hi & Hn & Hv & Hlater)].
    + left. split; assumption.
    + right. subst i.
      assert (Hlt : n < List.length entries)
        by (apply nth_error_Some; rewrite Hn; discriminate).
      replace (Z.to_nat (0 + Z.of_nat n)) with n by lia.
      split; [lia |]. exists k, v. repeat split; assumption.
Qed.

(** X14 on two sets of the same name, and on the same two followed by a
    null entry. *)
Lemma find_set_index_gives_the_last_match_witness :
  (exists k v,
      find_set_index twin_sets "Default Set" 0 (-1) = Ok 1%Z /\
      nth_error twin_sets 1 = Some (k, Some v) /\
      rs_Name v = "Default Set") /\
  find_set_index [("a", Some default_set)] "Other" 0 (-1) = Ok (-1)%Z /\
  find_set_index (twin_sets ++ [("c", None)]) "Default Set" 0 (-1)
  = Raise "'NoneType' object has no attribute 'Name'".
Proof.
  split; [| split].
  - destruct (find_set_index_gives_the_last_match twin_sets "Default Set")
      as (_ & _ & Hlast).
    destruct (Hlast 1%Z eq_refl)
      as [[Hi _] | (_ & k & v & Hn & Hv & _)]; [discriminate Hi |].
    exists k, v. split; [reflexivity | split; assumption].
  - reflexivity.
  - apply (proj1 (proj2 (find_set_index_gives_the_last_match
                           (twin_sets ++ [("c", None)]) "Default Set")) "c").
    apply in_or_app. right. left. reflexivity.
Defined.

Section DebugBinding.

Context {W : Type}.
Variable E : Automation W.

(** The chain of attempts ends with a method or with none: it never
    reports that the index was not found. *)
Lemma assign_by_index_finds pfr pfr_type i (s : state W) :
  fst (assign_by_index E pfr pfr_type i s) <> Ok IndexNotFound.
Proof.
  unfold assign_by_index, bind.
  destruct (try_property E pfr pfr_type "Reaction Set" i s)
    as [[[|] | e1] s1]; simpl; try discriminate.
  destruct (try_property E pfr pfr_type "ReactionSet" i s1)
    as [[[|] | e2] s2]; simpl; try discriminate.
  destruct (try_attribute E pfr i s2)
    as [[[|] | e3] s3]; simpl; discriminate.
Qed.

(** X15. The debug script takes the first set the flowsheet lists for its
    reaction (step 4) and binds the reactor by the index of the last set
    that has the name of that first set (step 7). When the flowsheet lists
    the same sets at both steps, the first of them not null: step 4
    returns the first set; if no later entry is null, step 7 finds an
    index, that of the last set of that name, runs the chain of methods
    with it and never reports that the index was not found, and the index
    is 0, the index of the set the reaction went to, exactly when no
    later set has the same name; if a later entry is null, step 7
    raises. *)
Theorem debug_binds_the_last_set_of_the_name sim pfr pfr_type k0 rs rest
    (s s2 : state W) w1 w2 :
  ReactionSets E sim (world s) = (Ok (Some ((k0, Some rs) :: rest)), w1) ->
  ReactionSets E sim (world s2) = (Ok (Some ((k0, Some rs) :: rest)), w2) ->
  debug_choose_set E sim s
  = (Ok rs, mkState w1 (mgr_interf s) (mgr_sim s) (mgr_results s) (files s)) /\
  ((forall k, ~ In (k, None) rest) ->
   exists i,
     find_set_index ((k0, Some rs) :: rest) (rs_Name rs) 0 (-1) = Ok i /\
     (0 <= i < Z.of_nat (List.length ((k0, Some rs) :: rest)))%Z /\
     debug_assign_reaction_set E sim pfr pfr_type rs s2
     = assign_by_index E pfr pfr_type i
         (mkState w2 (mgr_interf s2) (mgr_sim s2) (mgr_results s2)
            (files s2)) /\
     fst (debug_assign_reaction_set E sim pfr pfr_type rs s2)
     <> Ok IndexNotFound /\
     (exists k v,
         nth_error ((k0, Some rs) :: rest) (Z.to_nat i) = Some (k, Some v) /\
         rs_Name v = rs_Name rs /\
         forall j k' v',
           Z.to_nat i < j ->
           nth_error ((k0, Some rs) :: rest) j = Some (k', Some v') ->
           rs_Name v' <> rs_Name rs) /\
     (i = 0%Z <->
      forall k v, In (k, Some v) rest -> rs_Name v <> rs_Name rs)) /\
  (forall k,
      In (k, None) rest ->
      debug_assign_reaction_set E sim pfr pfr_type rs s2
      = (Raise "'NoneType' object has no attribute 'Name'",
         mkState w2 (mgr_interf s2) (mgr_sim s2) (mgr_results s2)
           (files s2))).
Proof.
  intros Hsets Hsets2. split; [| split].
  - unfold debug_choose_set, bind, call. rewrite Hsets. reflexivity.
  - intros Hno.
    destruct (find_set_index_total ((k0, Some rs) :: rest) (rs_Name rs)
                0 (-1)) as (i & Hi).
    { intros k [Heq | Hin]; [discriminate Heq | exact (Hno k Hin)]. }
    exists i.
    destruct (find_set_index_from _ _ _ _ _ Hi)
      as [[_ Hnone] | (n & k & v & Hn & Hnth & Hv & Hlater)].
    { exfalso. apply (Hnone k0 rs); [left |]; reflexivity. }
    assert (Hlt : n < List.length ((k0, Some rs) :: rest))
      by (apply nth_error_Some; rewrite Hnth; discriminate).
    assert (Hrun : debug_assign_reaction_set E sim pfr pfr_type rs s2
                   = assign_by_index E pfr pfr_type i
                       (mkState w2 (mgr_interf s2) (mgr_sim s2)
                          (mgr_results s2) (files s2))).
    { unfold debug_assign_reaction_set, bind, call, eval.
      rewrite Hsets2, Hi.
      replace (0 <=? i)%Z with true by (symmetry; apply Z.leb_le; lia).
      reflexivity. }
    split; [exact Hi |]. split; [lia |]. split; [exact Hrun |].
    split; [rewrite Hrun; apply assign_by_index_finds |].
    replace (Z.to_nat i) with n by lia.
    split.
    + exists k, v. split; [exact Hnth | split; [exact Hv | exact Hlater]].
    + split.
      * intros H0 k' v' Hin Hname.
        assert (n = 0) by lia. subst n.
        apply In_nth_error in Hin. destruct Hin as (j & Hj).
        apply (Hlater (S j) k' v'); [lia | exact Hj | exact Hname].
      * intros Hdiff. destruct n as [| n]; [lia |].
        simpl in Hnth. apply nth_error_In in Hnth.
        exfalso. exact (Hdiff _ _ Hnth Hv).
  - intros k Hin.
    unfold debug_assign_reaction_set, bind, call, eval.
    rewrite Hsets2.
    rewrite (find_set_index_null ((k0, Some rs) :: rest) (rs_Name rs)
               0 (-1) k) by (right; exact Hin).
    reflexivity.
Qed.

End DebugBinding.

(** X15 on a flowsheet with two sets of the same name: the reaction goes
    to the first and the reactor is bound by the index of the second,
    through the Python attribute. *)
Lemma debug_binds_the_last_set_of_the_name_witness :
  fst (debug_choose_set (scripted (with_sets twin_sets)) 1000 (fresh 1))
  = Ok default_set /\
  debug_assign_reaction_set (scripted (with_sets twin_sets)) 1000 105 105
    default_set (fresh 1)
  = assign_by_index (scripted (with_sets twin_sets)) 105 105 1 (fresh 1) /\
  fst (debug_assign_reaction_set (scripted (with_sets twin_sets)) 1000 105
         105 default_set (fresh 1))
  = Ok (AssignedBy Method3).
Proof.
  destruct (debug_binds_the_last_set_of_the_name
              (scripted (with_sets twin_sets)) 1000%nat 105%nat 105%nat
              "a" default_set
              [("b", Some {| rs_ID := "RS1"; rs_Name := "Default Set" |})]
              (fresh 1) (fresh 1) 1%nat 1%nat eq_refl eq_refl)
    as (Hchoose & Hfound & _).
  destruct Hfound as (i & Hi & _ & Hrun & _).
  { intros k [Heq | []]. discriminate Heq. }
  vm_compute in Hi. injection Hi as <-.
  split; [| split].
  - rewrite Hchoose. reflexivity.
  - exact Hrun.
  - rewrite Hrun. vm_compute. reflexivity.
Defined.

(* ------------------------------------------------------------------ *)
(** ** The debug script: where it stops *)

Section DebugRun.

Context {W : Type}.
Variable E : Automation W.

(** X16. [run_debug] adds its two compounds in one [try]: when adding
    "Water" raises, "Ethanol" is not attempted; when either raises, the
    script returns at once, without an error and without having created
    any object, so nothing is solved. *)
Theorem run_debug_stops_when_a_compound_fails :
  (forall s interf w1 sim w2 e w3,
      Automation3 E (world s) = (Ok interf, w1) ->
      CreateFlowsheet E interf w1 = (Ok sim, w2) ->
      AddCompound E sim "Water" w2 = (Raise e, w3) ->
      run_debug E s =
      (Ok (StoppedAtCompounds e),
       mkState w3 (mgr_interf s) (mgr_sim s) (mgr_results s) (files s))) /\
  (forall s interf w1 sim w2 w3 e w4,
      Automation3 E (world s) = (Ok interf, w1) ->
      CreateFlowsheet E interf w1 = (Ok sim, w2) ->
      AddCompound E sim "Water" w2 = (Ok tt, w3) ->
      AddCompound E sim "Ethanol" w3 = (Raise e, w4) ->
      run_debug E s =
      (Ok (StoppedAtCompounds e),
       mkState w4 (mgr_interf s) (mgr_sim s) (mgr_results s) (files s))).
Proof.
  split.
  - intros s interf w1 sim w2 e w3 H1 H2 H3.
    unfold run_debug, debug_add_compounds, try_except, bind, call, ret.
    rewrite H1. cbn. rewrite H2. cbn. rewrite H3. reflexivity.
  - intros s interf w1 sim w2 w3 e w4 H1 H2 H3 H4.
    unfold run_debug, debug_add_compounds, try_except, bind, call, ret.
    rewrite H1. cbn. rewrite H2. cbn. rewrite H3. cbn. rewrite H4.
    reflexivity.
Qed.

(** X17. The read-back of [run_debug] never raises. A composition read
    as an array of at least two entries gives "conversion observed" when
    the second entry is greater than 0.01 and "zero conversion" otherwise,
    also for a NaN; a shorter array gives no verdict. A composition read as
    a string of two or more characters ends in the read error, because its
    second character is compared with a number: the branch that reports a
    string is only taken for a string of at most one character. *)
Theorem debug_verdict_on_arrays_and_strings :
  (forall feed prod s, exists v s',
      debug_read_results E feed prod s = (Ok v, s')) /\
  (forall a c l,
      composition_verdict (EArr (a :: c :: l)) =
      Ok (if PyFloat.ltb (PyFloat.decimal 1 100) c
          then ConversionObserved else ZeroConversion)) /\
  (forall a l,
      composition_verdict (EArr (a :: S754_nan :: l)) = Ok ZeroConversion) /\
  (forall l,
      List.length l <= 1 -> composition_verdict (EArr l) = Ok NoVerdict) /\
  (forall u,
      2 <= String.length u ->
      exists e, composition_verdict (EStr u) = Raise e) /\
  (forall u,
      String.length u <= 1 ->
      composition_verdict (EStr u) = Ok StringComposition).
Proof.
  split; [| split; [| split; [| split; [| split]]]].
  - intros feed prod s. unfold debug_read_results, try_except.
    match goal with |- context [?m s] =>
      destruct (m s) as [[v | e] s1] end;
      eexists; eexists; reflexivity.
  - intros a c l. simpl.
    destruct (PyFloat.ltb (PyFloat.decimal 1 100) c); reflexivity.
  - intros a l. reflexivity.
  - intros l Hl. destruct l as [| a [| c l]]; simpl in *;
      try reflexivity; lia.
  - intros u Hu. destruct u as [| a [| c u]]; simpl in Hu; try lia.
    eexists. reflexivity.
  - intros u Hu. destruct u as [| a [| c u]]; simpl in *;
      try reflexivity; lia.
Qed.

End DebugRun.

(** X16 on an engine that refuses "Ethanol". *)
Lemma run_debug_stops_when_a_compound_fails_witness :
  run_debug (without_compound "Ethanol") (fresh 0)
  = (Ok (StoppedAtCompounds "Compound not found"), fresh 3).
Proof.
  eapply (proj2 (run_debug_stops_when_a_compound_fails
                   (without_compound "Ethanol")) (fresh 0));
    reflexivity.
Defined.

(** X17 on a composition that comes back as the string "1;0". *)
Lemma debug_verdict_on_arrays_and_strings_witness :
  (exists e, composition_verdict (EStr "1;0") = Raise e) /\
  composition_verdict (EArr [PyFloat.of_Z 1]) = Ok NoVerdict.
Proof.
  destruct (debug_verdict_on_arrays_and_strings (scripted nominal))
    as (_ & _ & _ & Hshort & Hstr & _).
  split.
  - apply Hstr. simpl. lia.
  - apply Hshort. simpl. lia.
Defined.

(* ------------------------------------------------------------------ *)
(** ** The debug script: its start-up *)

(** X18. The debug script searches the same folders as the screening
    script but never asks: when none of them holds the library it exits
    with status 1 whatever the user could type, also on a machine on which
    the screening script starts from the folder typed at the prompt. When
    one of the folders holds the library, both scripts take that same
    folder. *)
Theorem debug_startup_never_asks :
  (forall load h paths,
      POSSIBLE_PATHS h = Ok paths ->
      find_dwsim h paths = None ->
      debug_startup load h = SysExit 1) /\
  (forall load h paths p,
      POSSIBLE_PATHS h = Ok paths ->
      find_dwsim h paths = Some p ->
      locate_dwsim h paths = Some p /\
      debug_startup load h =
      match load p with Ok _ => Started p | Raise _ => SysExit 1 end) /\
  startup quoting_host = Started "D:\Tools\DWSIM" /\
  debug_startup (fun _ => Ok tt) quoting_host = SysExit 1.
Proof.
  split; [| split; [| split]].
  - intros load h paths Hp Hf. unfold debug_startup. rewrite Hp, Hf.
    reflexivity.
  - intros load h paths p Hp Hf. split.
    + unfold locate_dwsim. rewrite Hf. reflexivity.
    + unfold debug_startup. rewrite Hp, Hf. reflexivity.
  - reflexivity.
  - reflexivity.
Qed.

(** X18 on a machine without DWSIM. *)
Lemma debug_startup_never_asks_witness :
  debug_startup (fun _ => Ok tt) bare_host = SysExit 1.
Proof.
  apply (proj1 debug_startup_never_asks (fun _ => Ok tt) bare_host
           ["C:\Users\u\AppData\Local\DWSIM"; "C:\Program Files\DWSIM";
            "C:\Program Files (x86)\DWSIM"]);
    reflexivity.
Defined.

(* ------------------------------------------------------------------ *)
(** ** The reaction and its set *)

Section ReactionSetChoice.

Context {W : Type}.
Variable E : Automation W.

(** X19. Step 5 of a reactor case takes the first reaction set the
    flowsheet enumerates and creates none then; it creates "Set-1" only
    when the flowsheet reports no set (null or empty). When the engine
    hands back a null reaction, nothing is added to the set and no error
    is raised: the step returns the set and the case goes on without a
    reaction. *)
Theorem reaction_set_is_the_first_existing_one :
  (forall s sim w1 k rs rest w2,
      mgr_sim s = Some sim ->
      CreateKineticReaction E sim rxn1 (world s) = (Ok None, w1) ->
      ReactionSets E sim w1 = (Ok (Some ((k, rs) :: rest)), w2) ->
      define_reaction E s =
      (Ok rs, mkState w2 (mgr_interf s) (mgr_sim s) (mgr_results s)
                (files s))) /\
  (forall s sim rxn w1 k rs rest w2 w3,
      mgr_sim s = Some sim ->
      CreateKineticReaction E sim rxn1 (world s) = (Ok (Some rxn), w1) ->
      ReactionSets E sim w1 = (Ok (Some ((k, Some rs) :: rest)), w2) ->
      AddReactionToSet E sim (rxn_ID rxn) (rs_ID rs) true 0 w2
      = (Ok tt, w3) ->
      define_reaction E s =
      (Ok (Some rs), mkState w3 (mgr_interf s) (mgr_sim s) (mgr_results s)
                       (files s))) /\
  (forall s sim rxn w1 sets w2 w3,
      mgr_sim s = Some sim ->
      CreateKineticReaction E sim rxn1 (world s) = (Ok rxn, w1) ->
      ReactionSets E sim w1 = (Ok sets, w2) ->
      sets = None \/ sets = Some [] ->
      CreateReactionSet E sim "Set-1" "Default Set" w2 = (Ok None, w3) ->
      define_reaction E s =
      (Ok None, mkState w3 (mgr_interf s) (mgr_sim s) (mgr_results s)
                  (files s))).
Proof.
  split; [| split].
  - intros [w i sm r fl] sim w1 k rs rest w2 Hsim H1 H2.
    simpl in *. subst sm.
    unfold define_reaction, add_reaction_to_set, bind, self_sim, call, ret.
    simpl. rewrite H1. simpl. rewrite H2. simpl.
    destruct rs; reflexivity.
  - intros [w i sm r fl] sim rxn w1 k rs rest w2 w3 Hsim H1 H2 H3.
    simpl in *. subst sm.
    unfold define_reaction, add_reaction_to_set, bind, self_sim, call, ret.
    simpl. rewrite H1. simpl. rewrite H2. simpl. rewrite H3. reflexivity.
  - intros [w i sm r fl] sim rxn w1 sets w2 w3 Hsim H1 H2 Hsets H3.
    simpl in *. subst sm.
    unfold define_reaction, add_reaction_to_set, bind, self_sim, call, ret.
    simpl. rewrite H1. simpl. rewrite H2.
    destruct Hsets as [-> | ->]; simpl; rewrite H3; simpl;
      destruct rxn; reflexivity.
Qed.

End ReactionSetChoice.

(** X19 on the nominal engine, whose flowsheets come with one set. *)
Lemma reaction_set_is_the_first_existing_one_witness :
  define_reaction (scripted nominal)
    (mkState 1%nat 0%nat (Some 1001%nat) [] [])
  = (Ok (Some default_set), mkState 1%nat 0%nat (Some 1001%nat) [] []).
Proof.
  eapply (proj1 (proj2 (reaction_set_is_the_first_existing_one
                          (scripted nominal)))
            (mkState 1%nat 0%nat (Some 1001%nat) [] []));
    reflexivity.
Defined.
